(** * Flash controller: orchestration and progress normalisation

    A shallow embedding of [src/flash_controller.py] (class
    [FlashController]): the two flashing backends
    ([_flash_with_platformio], [_flash_with_esptool_subprocess]), the
    orchestrator [flash_firmware] and [erase_flash], together with the
    Python built-ins they rely on. Further modules embed the rest of
    the class, [_flash_with_esptool_module] (module [Loader]) and
    [detect_chip_info] (module [Chip]), and the caller of
    [flash_firmware] in [src/ui/cli.py] with its progress callback
    (module [Cli]).

    Conventions of the embedding.
    - A Python [str] is a [string]; its 8-bit characters are read as the
      code points U+0000..U+00FF.
    - A Python [int] is a [Z]; a Python [float] is a binary64 value of
      [spec_float] (precision 53, exponent bound 1024).
    - The outside world (file system, child processes, the esptool
      module, the clock) is an explicit oracle, a [world] record.
    - Calls of the progress callback and launches of child processes are
      recorded, in order, in a trace of [event]s. *)

From Stdlib Require Import ZArith List String Ascii Bool Lia.
From Stdlib Require Import HexString DecimalString SpecFloat.
Import ListNotations.

#[local] Open Scope string_scope.
#[local] Open Scope Z_scope.

(** ** Python built-ins *)

Module Py.

(** [str.isspace] on U+0000..U+00FF; [str.strip()] removes these. *)
Definition isspace (c : ascii) : bool :=
  let n := Z.of_nat (nat_of_ascii c) in
  ((9 <=? n) && (n <=? 13)) || ((28 <=? n) && (n <=? 32))
  || (n =? 133) || (n =? 160).

Fixpoint lstrip (s : string) : string :=
  match s with
  | String c s' => if isspace c then lstrip s' else s
  | EmptyString => EmptyString
  end.

Fixpoint rstrip (s : string) : string :=
  match s with
  | String c s' =>
      match rstrip s' with
      | EmptyString => if isspace c then EmptyString else String c EmptyString
      | r => String c r
      end
  | EmptyString => EmptyString
  end.

Definition strip (s : string) : string := rstrip (lstrip s).

(** [str.lower] on U+0000..U+00FF: A-Z and the capitals U+00C0..U+00DE
    (the multiplication sign U+00D7 apart) move up by 32. *)
Definition lower_char (c : ascii) : ascii :=
  let n := Z.of_nat (nat_of_ascii c) in
  if ((65 <=? n) && (n <=? 90))
     || ((192 <=? n) && (n <=? 222) && negb (n =? 215))
  then ascii_of_nat (nat_of_ascii c + 32) else c.

Fixpoint lower (s : string) : string :=
  match s with
  | String c s' => String (lower_char c) (lower s')
  | EmptyString => EmptyString
  end.

(** [needle in s] *)
Fixpoint contains (needle s : string) : bool :=
  prefix needle s ||
  match s with
  | String _ s' => contains needle s'
  | EmptyString => false
  end.

(** [s.split(sep)] for a non-empty separator: the pieces between the
    occurrences of [sep], found left to right without overlap. [skip]
    counts the characters of a separator still to be passed over, [cur]
    is the piece being collected. *)
Fixpoint split_go (sep : string) (skip : nat) (cur s : string) : list string :=
  match s with
  | EmptyString => [cur]
  | String c s' =>
      match skip with
      | S k => split_go sep k cur s'
      | O =>
          if prefix sep s
          then cur :: split_go sep (String.length sep - 1) EmptyString s'
          else split_go sep 0 (cur ++ String c EmptyString) s'
      end
  end.

Definition split (sep s : string) : list string := split_go sep 0 EmptyString s.

(** [sep.join(l)] *)
Definition join (sep : string) (l : list string) : string := String.concat sep l.

(** [l[-n:]] *)
Definition last_n {A} (n : nat) (l : list A) : list A :=
  skipn (List.length l - n) l.

(** [str(n)] for an int *)
Definition str (n : Z) : string := NilZero.string_of_int (Z.to_int n).

(** [format(n, 'x')] *)
Definition format_x (n : Z) : string :=
  match n with
  | Z0 => "0"
  | Zpos p => HexString.Raw.of_pos p EmptyString
  | Zneg p => String "-" (HexString.Raw.of_pos p EmptyString)
  end.

(** *** [int(s, 16)]

    White space around the number is the ASCII white space and, since a
    non-ASCII string is first transliterated, U+0085 and U+00A0. Then an
    optional sign, an optional [0x] or [0X] (after which one underscore
    may stand), and hexadecimal digits separated by single underscores.
    [None] stands for [ValueError]. *)
Definition int_space (c : ascii) : bool :=
  let n := Z.of_nat (nat_of_ascii c) in
  ((9 <=? n) && (n <=? 13)) || (n =? 32) || (n =? 133) || (n =? 160).

Fixpoint skip_space (s : string) : string :=
  match s with
  | String c s' => if int_space c then skip_space s' else s
  | EmptyString => EmptyString
  end.

(** The digit loop: [prev_us] tells that the previous character was an
    underscore; the rest of the string after the digits is returned. *)
Fixpoint scan16 (prev_us : bool) (acc : N) (s : string) : option (N * string) :=
  match s with
  | EmptyString => if prev_us then None else Some (acc, EmptyString)
  | String c s' =>
      if Ascii.eqb c "_"
      then (if prev_us then None else scan16 true acc s')
      else
        match ascii_to_digit c with
        | Some d => scan16 false (d + 16 * acc)%N s'
        | None => if prev_us then None else Some (acc, s)
        end
  end.

Definition take_sign (s : string) : bool * string :=
  match s with
  | String "+" r => (false, r)
  | String "-" r => (true, r)
  | _ => (false, s)
  end.

Definition take_0x (s : string) : string :=
  match s with
  | String "0" (String x r) =>
      if Ascii.eqb x "x" || Ascii.eqb x "X"
      then match r with String "_" r' => r' | _ => r end
      else s
  | _ => s
  end.

Definition int16 (s : string) : option Z :=
  let (neg, s2) := take_sign (skip_space s) in
  let s3 := take_0x s2 in
  match s3 with
  | EmptyString => None
  | String c _ =>
      match ascii_to_digit c with
      | None => None
      | Some _ =>
          match scan16 false 0%N s3 with
          | Some (n, rest) =>
              match skip_space rest with
              | EmptyString => Some (if neg then - Z.of_N n else Z.of_N n)
              | _ => None
              end
          | None => None
          end
      end
  end.

(** *** Floats *)

Definition prec : Z := 53.
Definition emax : Z := 1024.

Definition float_of_int (n : Z) : spec_float :=
  match n with
  | Z0 => S754_zero false
  | Zpos p => binary_normalize prec emax (Zpos p) 0 false
  | Zneg p => binary_normalize prec emax (Zneg p) 0 false
  end.

(** [a / b] on ints: the quotient rounded once to binary64. [None]
    stands for [ZeroDivisionError] and for [OverflowError] (a quotient
    too large for a float). *)
Definition true_div (a b : Z) : option spec_float :=
  let num := match a with
             | Z0 => S754_zero false
             | Zpos p => S754_finite false p 0
             | Zneg p => S754_finite true p 0
             end in
  match b with
  | Z0 => None
  | Zpos q | Zneg q =>
      match SFdiv prec emax num (S754_finite (b <? 0) q 0) with
      | S754_finite s m e => Some (S754_finite s m e)
      | S754_zero s => Some (S754_zero s)
      | _ => None
      end
  end.

(** [x * n] for a float [x] and an int [n] *)
Definition mul_int (x : spec_float) (n : Z) : spec_float :=
  SFmul prec emax x (float_of_int n).

(** [int(x)]: truncation toward zero; [None] stands for the
    [OverflowError] or [ValueError] raised on an infinity or a NaN. *)
Definition int_of_float (x : spec_float) : option Z :=
  match x with
  | S754_zero _ => Some 0
  | S754_finite s m e =>
      let a := match e with
               | Z0 => Zpos m
               | Zpos _ => Z.shiftl (Zpos m) e
               | Zneg _ => Z.shiftr (Zpos m) (- e)
               end in
      Some (if s then - a else a)
  | _ => None
  end.

(** The sign of a float that is not a NaN *)
Definition signbit (x : spec_float) : bool :=
  match x with
  | S754_zero s | S754_infinity s | S754_finite s _ _ => s
  | S754_nan => false
  end.

(** [int((a / b) * 100)], the percentage both backends compute *)
Definition percent_of (a b : Z) : option Z :=
  match true_div a b with
  | Some q => int_of_float (mul_int q 100)
  | None => None
  end.

End Py.

(** ** Results, events and the outside world *)

(** The dataclass [FlashResult]. [duration] is a difference of two clock
    readings; the clock counts in ticks. *)
Record FlashResult : Type := mkFlashResult {
  success : bool;
  message : string;
  duration : Z;
  chip_type : option string;
  flash_size : option string
}.

Definition set_duration (r : FlashResult) (d : Z) : FlashResult :=
  mkFlashResult (success r) (message r) d (chip_type r) (flash_size r).

(** The two backends [flash_firmware] chooses between. *)
Inductive backend : Type := Primary | Fallback.

(** What an operation does that can be observed from outside, in order:
    calls of the progress callback, child processes launched, calls into
    the esptool module. [Attempt] is a ghost event: it marks the point
    where [flash_firmware] calls a backend method. *)
Inductive event : Type :=
| Progress (percent : Z) (msg : string)
| Launch (cmd : list string)
| Esptool (call : string)
| Attempt (b : backend).

(** A call either returns or raises; [Raises] carries [str(e)]. *)
Inductive outcome (A : Type) : Type :=
| Returns (a : A)
| Raises (err : string).
Arguments Returns {A} a.
Arguments Raises {A} err.

(** [subprocess.CompletedProcess] of a captured, text-mode run *)
Record completed : Type := mkCompleted {
  returncode : Z;
  stdout : string;
  stderr : string
}.

(** A child started with [Popen]: what the successive [readline] calls
    return before the end of the stream, then the exit status. The
    reads themselves are taken to succeed. *)
Record child : Type := mkChild {
  output : list string;
  exit_status : Z
}.

(** The object [esptool.detect_chip] returns. *)
Record esp_device : Type := mkEsp {
  CHIP_NAME : string;
  erase_flash_call : outcome unit
}.

(** What the controller asks of the outside. [path_exists] is
    [Path(p).exists()], which answers or raises [OSError] (for a name
    the file system refuses); [getsize] is [os.path.getsize]. A child
    process is taken to come to an end: the controller sets no
    timeout. *)
Record world : Type := mkWorld {
  sys_executable : string;
  path_exists : string -> outcome bool;
  getsize : string -> outcome Z;
  subprocess_run : list string -> outcome completed;
  subprocess_popen : list string -> outcome child;
  esptool : option (string -> Z -> outcome esp_device);
  clock : nat -> Z
}.

(** One step that may raise, then another. *)
Definition and_then {A B} (o : outcome A) (f : A -> outcome B) : outcome B :=
  match o with
  | Returns a => f a
  | Raises e => Raises e
  end.

(** ** A monad for traces and exceptions *)

Definition M (A : Type) : Type := list event * outcome A.

Definition ret {A} (a : A) : M A := ([], Returns a).

Definition bind {A B} (m : M A) (f : A -> M B) : M B :=
  match m with
  | (t, Returns a) => let (t', r) := f a in ((t ++ t')%list, r)
  | (t, Raises e) => (t, Raises e)
  end.

(** [try: m  except Exception as e: h e] *)
Definition try_except {A} (m : M A) (h : string -> M A) : M A :=
  match m with
  | (t, Raises e) => let (t', r) := h e in ((t ++ t')%list, r)
  | (t, Returns a) => (t, Returns a)
  end.

Definition tell (e : event) : M unit := ([e], Returns tt).

Definition lift {A} (o : outcome A) : M A := ([], o).

Declare Scope flash_scope.
Delimit Scope flash_scope with flash.
Notation "x <- m ;; k" := (bind m (fun x => k))
  (at level 61, m at next level, right associativity) : flash_scope.
Notation "m ;; k" := (bind m (fun _ => k))
  (at level 61, right associativity) : flash_scope.
#[local] Open Scope flash_scope.

Definition trace {A} (m : M A) : list event := fst m.
Definition result {A} (m : M A) : outcome A := snd m.

(** The percents handed to the progress callback, in order. *)
Fixpoint percents (t : list event) : list Z :=
  match t with
  | Progress p _ :: t' => p :: percents t'
  | _ :: t' => percents t'
  | [] => []
  end.

Definition is_attempt (b : backend) (e : event) : bool :=
  match e, b with
  | Attempt Primary, Primary | Attempt Fallback, Fallback => true
  | _, _ => false
  end.

Definition attempts (b : backend) (t : list event) : nat :=
  List.length (filter (is_attempt b) t).

(** ** The controller *)

Section Controller.

(** The world the controller runs in, and whether
    [self.progress_callback] is set. The callback itself is taken not to
    raise. *)
Variable w : world.
Variable has_callback : bool.

(** [if self.progress_callback: self.progress_callback(percent, msg)] *)
Definition callback (percent : Z) (msg : string) : list event :=
  if has_callback then [Progress percent msg] else [].

Definition report (percent : Z) (msg : string) : M unit :=
  (callback percent msg, Returns tt).

(** [subprocess.run(cmd, capture_output=True, text=True)] *)
Definition run (cmd : list string) : M completed :=
  tell (Launch cmd) ;; lift (subprocess_run w cmd).

(** [subprocess.Popen(cmd, ...)] *)
Definition popen (cmd : list string) : M child :=
  tell (Launch cmd) ;; lift (subprocess_popen w cmd).

(** *** Reading the tool's output *)

Definition writing_marker : string := "Writing at 0x".

(** [int(line.split('Writing at 0x')[1].split('...')[0], 16)]; [None]
    when one of the steps raises. *)
Definition parse_addr (line : string) : option Z :=
  match nth_error (Py.split writing_marker line) 1 with
  | Some rest =>
      match nth_error (Py.split "..." rest) 0 with
      | Some addr_part => Py.int16 addr_part
      | None => None
      end
  | None => None
  end.

(** The step taken when the address cannot be used:
    [progress = min(progress + 2, 99)] and a report of it. *)
Definition step (progress : Z) : Z * list event :=
  let progress' := Z.min (progress + 2) 99 in
  (progress', callback progress' "Writing firmware...").

Definition writing_msg (percent : Z) : string :=
  "Writing firmware... " ++ Py.str percent ++ "%".

(** The [try] body of the fallback backend for a line with the marker:
    the new value of [progress] and what is reported, or [None] when an
    exception is raised. [self._firmware_size] has been set before the
    loop, so the [hasattr] test holds. *)
Definition esptool_try (flash_address firmware_size progress : Z)
    (line : string) : option (Z * list event) :=
  match parse_addr line with
  | None => None
  | Some current_addr =>
      if firmware_size >? 0 then
        match Py.percent_of (current_addr - flash_address) firmware_size with
        | None => None
        | Some p =>
            let progress_percent := Z.min p 99 in
            Some (progress, callback progress_percent (writing_msg progress_percent))
        end
      else if current_addr >? flash_address then
        match Py.percent_of (current_addr - flash_address) 65536 with
        | None => None
        | Some p =>
            let progress' := Z.min p 99 in
            Some (progress', callback progress' (writing_msg progress'))
        end
      else Some (progress, [])
  end.

(** One stripped line in the loop of [_flash_with_esptool_subprocess]. *)
Definition esptool_line (flash_address firmware_size progress : Z)
    (line : string) : Z * list event :=
  if Py.contains writing_marker line then
    match esptool_try flash_address firmware_size progress line with
    | Some r => r
    | None => step progress
    end
  else if Py.contains "Hash of data verified" line then
    (progress, callback 95 "Verifying flash...")
  else if Py.contains "Hard resetting via RTS pin" line then
    (progress, callback 100 "Flash completed!")
  else if Py.contains "Connecting..." line then
    (progress, callback 35 "Connecting to device...")
  else if Py.contains "Chip is" line then
    (progress, callback 38 ("Detected: " ++ line))
  else (progress, []).

(** The [try] body of the primary backend. *)
Definition platformio_try (firmware_size progress : Z) (line : string)
    : option (Z * list event) :=
  match parse_addr line with
  | None => None
  | Some current_addr =>
      if firmware_size >? 0 then
        match Py.percent_of (current_addr - 65536) firmware_size with
        | None => None
        | Some p =>
            let progress_percent := Z.min p 99 in
            Some (progress, callback progress_percent (writing_msg progress_percent))
        end
      else Some (step progress)
  end.

(** One stripped line in the loop of [_flash_with_platformio]. *)
Definition platformio_line (firmware_size progress : Z) (line : string)
    : Z * list event :=
  if Py.contains writing_marker line then
    match platformio_try firmware_size progress line with
    | Some r => r
    | None => step progress
    end
  else if Py.contains "Hash of data verified" line then
    (progress, callback 100 "Flash completed!")
  else if Py.contains "Hard resetting" line then
    (progress, callback 100 "Flash completed!")
  else if Py.contains "Connecting" line then
    (progress, callback 65 "Connecting to ESP32...")
  else (progress, []).

(** The state of a reading loop: the local [progress] and
    [output_lines]. *)
Record session : Type := mkSession {
  progress : Z;
  output_lines : list string
}.

(** The [while True] loop over [readline]: an empty read is passed
    over, any other is stripped, kept and handed to [handle]. *)
Fixpoint read_loop (handle : Z -> string -> Z * list event)
    (s : session) (reads : list string) : session * list event :=
  match reads with
  | [] => (s, [])
  | raw :: reads' =>
      match raw with
      | EmptyString => read_loop handle s reads'
      | _ =>
          let line := Py.strip raw in
          let (progress', evs) := handle (progress s) line in
          let (s', evs') :=
            read_loop handle
              (mkSession progress' (output_lines s ++ [line])) reads' in
          (s', (evs ++ evs')%list)
      end
  end.

Definition read_all (handle : Z -> string -> Z * list event)
    (progress0 : Z) (reads : list string) : M (list string) :=
  let (s, evs) := read_loop handle (mkSession progress0 []) reads in
  (evs, Returns (output_lines s)).

Definition failed (msg : string) : FlashResult :=
  mkFlashResult false msg 0 None None.

Definition succeeded (msg : string) : FlashResult :=
  mkFlashResult true msg 0 None None.

(** *** [_flash_with_esptool_subprocess] *)

Definition esptool_base (port : string) (baud_rate : Z) : list string :=
  [sys_executable w; "-m"; "esptool"; "--port"; port; "--baud"; Py.str baud_rate].

(** The (address, file) pairs of the fallback's write command. *)
Definition esptool_segments (firmware_path : string) (flash_address : Z)
    : list (string * string) :=
  [("0x" ++ Py.format_x flash_address, firmware_path)].

Definition segment_args (segs : list (string * string)) : list string :=
  flat_map (fun seg => [fst seg; snd seg]) segs.

Definition esptool_write_cmd (port firmware_path : string)
    (baud_rate flash_address : Z) : list string :=
  (esptool_base port baud_rate
   ++ ["--before"; "default-reset"; "--after"; "hard-reset"; "write-flash";
       "--flash-mode"; "dio"; "--flash-freq"; "40m"; "--flash-size"; "detect"]
   ++ segment_args (esptool_segments firmware_path flash_address))%list.

Definition esptool_erase_cmd (port : string) (baud_rate : Z) : list string :=
  (esptool_base port baud_rate
   ++ ["--before"; "default-reset"; "--after"; "hard-reset"; "erase-flash"])%list.

(** The optional erase of the fallback: [Some r] when the method returns
    [r] at this point. *)
Definition esptool_erase (port : string) (baud_rate : Z) (erase_all : bool)
    : M (option FlashResult) :=
  if erase_all then
    report 10 "Erasing flash..." ;;
    erase_result <- run (esptool_erase_cmd port baud_rate) ;;
    if negb (returncode erase_result =? 0)
    then ret (Some (failed ("Erase failed: " ++ stderr erase_result)))
    else report 30 "Flash erased, starting write..." ;; ret None
  else ret None.

Definition _flash_with_esptool_subprocess (port firmware_path : string)
    (baud_rate flash_address : Z) (erase_all verify : bool) : M FlashResult :=
  try_except
    (firmware_size <- lift (getsize w firmware_path) ;;
     report 0 "Starting flash operation..." ;;
     early <- esptool_erase port baud_rate erase_all ;;
     match early with
     | Some r => ret r
     | None =>
         report 40 "Starting firmware write..." ;;
         process <-
           popen (esptool_write_cmd port firmware_path baud_rate flash_address) ;;
         lines <-
           read_all (esptool_line flash_address firmware_size) 40 (output process) ;;
         let return_code := exit_status process in
         if return_code =? 0
         then ret (succeeded "Firmware flashed successfully")
         else
           let error_output := Py.join (String "010" "") (Py.last_n 10 lines) in
           ret (failed ("Esptool failed with code " ++ Py.str return_code
                        ++ ": " ++ error_output))
     end)
    (fun e => ret (failed ("Subprocess error: " ++ e))).

(** *** [_flash_with_platformio] *)

Definition pio_tool : list string :=
  ["pio"; "pkg"; "exec"; "--package"; "tool-esptoolpy"; "--"; "esptool.py"].

Definition pio_check_cmd : list string := ["pio"; "--version"].

Definition pio_detect_cmd (port : string) : list string :=
  (pio_tool ++ ["--port"; port; "chip_id"])%list.

Definition pio_erase_cmd (port : string) (baud_rate : Z) : list string :=
  (pio_tool ++ ["--port"; port; "--baud"; Py.str baud_rate;
                "--before"; "default_reset"; "--after"; "hard_reset";
                "erase_flash"])%list.

(** The truth value of an [Optional[str]] *)
Definition truthy (p : option string) : bool :=
  match p with
  | Some s => negb (String.eqb s "")
  | None => false
  end.

(** [if path and Path(path).exists(): flash_cmd.extend([addr, path])]:
    what is added to the command. The file system is asked only about
    a path that is supplied and not empty, and [exists()] may raise. *)
Definition companion (addr : string) (p : option string)
    : outcome (list (string * string)) :=
  match p with
  | Some s =>
      if truthy p
      then and_then (path_exists w s)
             (fun there => Returns (if there then [(addr, s)] else []))
      else Returns []
  | None => Returns []
  end.

(** The (address, file) pairs of the primary's write command: the
    bootloader is looked at first, then the partition table. *)
Definition platformio_segments (firmware_path : string)
    (bootloader_path partitions_path : option string)
    : outcome (list (string * string)) :=
  and_then (companion "0x0000" bootloader_path) (fun bootloader =>
  and_then (companion "0x8000" partitions_path) (fun partitions =>
  Returns (bootloader ++ partitions ++ [("0x10000", firmware_path)])%list)).

(** What comes before the segments in the primary's write command. *)
Definition platformio_write_args (port : string) (baud_rate : Z) : list string :=
  (pio_tool
   ++ ["--port"; port; "--baud"; Py.str baud_rate;
       "--before"; "default_reset"; "--after"; "hard_reset";
       "write_flash"; "--flash_mode"; "dio"; "--flash_freq"; "80m";
       "--flash_size"; "detect"])%list.

Definition platformio_write_cmd (port firmware_path : string) (baud_rate : Z)
    (bootloader_path partitions_path : option string) : outcome (list string) :=
  and_then
    (platformio_segments firmware_path bootloader_path partitions_path)
    (fun segments =>
       Returns (platformio_write_args port baud_rate
                ++ segment_args segments)%list).

Definition board_of (out : string) : string :=
  if Py.contains "esp32-s3" out then "esp32-s3-devkitm-1"
  else if Py.contains "esp32-s2" out then "esp32-s2-saola-1"
  else if Py.contains "esp32-c3" out then "esp32-c3-devkitm-1"
  else if Py.contains "esp32" out then "esp32dev"
  else "esp32-s3-devkitm-1".

(** The chip detection, whose exceptions are all swallowed. *)
Definition pio_detect (port : string) : M unit :=
  try_except
    (detect_result <- run (pio_detect_cmd port) ;;
     if returncode detect_result =? 0
     then report 15 ("Detected chip: " ++ board_of (Py.lower (stdout detect_result)))
     else ret tt)
    (fun _ => ret tt).

Definition pio_erase (port : string) (baud_rate : Z) (erase_all : bool)
    : M (option FlashResult) :=
  if erase_all then
    report 30 "Erasing flash with PlatformIO..." ;;
    erase_result <- run (pio_erase_cmd port baud_rate) ;;
    if negb (returncode erase_result =? 0)
    then ret (Some (failed ("PlatformIO erase failed: " ++ stderr erase_result)))
    else report 50 "Flash erased, uploading firmware..." ;; ret None
  else ret None.

Definition _flash_with_platformio (port firmware_path : string)
    (baud_rate flash_address : Z) (erase_all verify : bool)
    (bootloader_path partitions_path : option string) : M FlashResult :=
  try_except
    (pio_check <- run pio_check_cmd ;;
     if negb (returncode pio_check =? 0)
     then ret (failed "PlatformIO not found")
     else
       report 5 "Using PlatformIO for reliable flashing..." ;;
       pio_detect port ;;
       early <- pio_erase port baud_rate erase_all ;;
       match early with
       | Some r => ret r
       | None =>
           flash_cmd <- lift (platformio_write_cmd port firmware_path baud_rate
                                bootloader_path partitions_path) ;;
           firmware_size <- lift (getsize w firmware_path) ;;
           report 0
             (if truthy bootloader_path && truthy partitions_path
              then "Starting complete ESP32-S3 flash (bootloader + partitions + app)..."
              else "Starting app-only flash (may not boot without bootloader)...") ;;
           process <- popen flash_cmd ;;
           lines <- read_all (platformio_line firmware_size) 0 (output process) ;;
           let return_code := exit_status process in
           if return_code =? 0
           then ret (succeeded "Firmware flashed successfully with PlatformIO")
           else
             let error_output := Py.join (String "010" "") (Py.last_n 10 lines) in
             ret (failed ("PlatformIO flash failed: " ++ error_output))
       end)
    (fun e => ret (failed ("PlatformIO error: " ++ e))).

(** *** [flash_firmware] *)

(** The test that sends [flash_firmware] to the fallback:
    [not result.success and "platformio not found" in result.message.lower()] *)
Definition tool_unavailable (r : FlashResult) : bool :=
  negb (success r) && Py.contains "platformio not found" (Py.lower (message r)).

Definition flash_firmware (port firmware_path : string)
    (baud_rate flash_address : Z) (erase_all verify : bool)
    (bootloader_path partitions_path : option string) : M FlashResult :=
  let start_time := clock w 0 in
  try_except
    (there <- lift (path_exists w firmware_path) ;;
     if negb there
     then ret (failed ("Firmware file not found: " ++ firmware_path))
     else
       report 0 "Connecting to device..." ;;
       tell (Attempt Primary) ;;
       r <- _flash_with_platformio port firmware_path baud_rate flash_address
              erase_all verify bootloader_path partitions_path ;;
       r <- (if tool_unavailable r
             then
               tell (Attempt Fallback) ;;
               _flash_with_esptool_subprocess port firmware_path baud_rate
                 flash_address erase_all verify
             else ret r) ;;
       let duration := clock w 1 - start_time in
       ret (set_duration r duration))
    (fun e =>
       let duration := clock w 1 - start_time in
       ret (mkFlashResult false ("Flash operation failed: " ++ e) duration None None)).

(** *** [erase_flash] *)

Definition erase_cmd (port : string) (baud_rate : Z) : list string :=
  [sys_executable w; "-m"; "esptool"; "--port"; port; "--baud"; Py.str baud_rate;
   "erase_flash"].

Definition erase_flash (port : string) (baud_rate : Z) : M FlashResult :=
  let start_time := clock w 0 in
  try_except
    (report 0 "Connecting to device..." ;;
     match esptool w with
     | Some detect_chip =>
         tell (Esptool "detect_chip") ;;
         esp <- lift (detect_chip port baud_rate) ;;
         report 20 "Erasing flash..." ;;
         tell (Esptool "erase_flash") ;;
         lift (erase_flash_call esp) ;;
         report 100 "Flash erased successfully!" ;;
         let duration := clock w 1 - start_time in
         ret (mkFlashResult true "Flash erased successfully" duration
                (Some (CHIP_NAME esp)) None)
     | None =>
         r <- run (erase_cmd port baud_rate) ;;
         let duration := clock w 1 - start_time in
         if returncode r =? 0
         then ret (mkFlashResult true "Flash erased successfully" duration None None)
         else ret (mkFlashResult false ("Erase failed: " ++ stderr r) duration None None)
     end)
    (fun e =>
       let duration := clock w 1 - start_time in
       ret (mkFlashResult false ("Erase operation failed: " ++ e) duration None None)).

End Controller.

(** ** Vocabulary of the properties *)

(** A list of percents that never goes down. *)
Fixpoint nondecreasing (l : list Z) : bool :=
  match l with
  | a :: t => match t with
              | b :: _ => (a <=? b) && nondecreasing t
              | [] => true
              end
  | [] => true
  end.

(** What one reading loop reports: the events of the run of the loop of
    the fallback backend, which starts with [progress = 40], and of the
    primary backend, which starts with [progress = 0]. *)
Definition esptool_session (has_callback : bool) (flash_address firmware_size : Z)
    (reads : list string) : list event :=
  snd (read_loop (esptool_line has_callback flash_address firmware_size)
         (mkSession 40 []) reads).

Definition platformio_session (has_callback : bool) (firmware_size : Z)
    (reads : list string) : list event :=
  snd (read_loop (platformio_line has_callback firmware_size)
         (mkSession 0 []) reads).

(** The percentage of the written bytes in exact arithmetic:
    [floor((address - base) / total * 100)], at most 99. *)
Definition exact_percent (address base total : Z) : Z :=
  Z.min ((address - base) * 100 / total) 99.

(** The float percentage of [a] bytes of [b] is the exact floor, or one
    less where the exact quotient is a whole number. *)
Definition close_to_exact (a b : Z) : bool :=
  match Py.percent_of a b with
  | Some q =>
      (q =? a * 100 / b)
      || ((q =? a * 100 / b - 1) && (a * 100 mod b =? 0))
  | None => false
  end.

Definition upto (n : nat) : list Z := map Z.of_nat (seq 0 (S n)).

(** The lines that reach the branches of the fixed percents in the loop
    of the fallback backend. *)
Definition esptool_other (line : string) : bool :=
  negb (Py.contains writing_marker line)
  && negb (Py.contains "Hash of data verified" line)
  && negb (Py.contains "Hard resetting via RTS pin" line).

Definition connecting_line (line : string) : bool :=
  esptool_other line && Py.contains "Connecting..." line.

Definition chip_line (line : string) : bool :=
  esptool_other line && negb (Py.contains "Connecting..." line)
  && Py.contains "Chip is" line.

(** Strings of hexadecimal digits and the number they denote. *)
Fixpoint all_hex (h : string) : bool :=
  match h with
  | String c h' =>
      match ascii_to_digit c with
      | Some _ => all_hex h'
      | None => false
      end
  | EmptyString => true
  end.

Definition hex_value (h : string) : Z := Z.of_N (HexString.Raw.to_N h 0).

(** The character [a] does not occur in [u]. *)
Fixpoint avoids (a : ascii) (u : string) : bool :=
  match u with
  | String c u' => negb (Ascii.eqb a c) && avoids a u'
  | EmptyString => true
  end.

(** What the primary backend finds of a companion path. [present]: the
    path [s] is supplied, is not the empty string, and [exists()]
    answers [True]. [absent]: the path is not supplied, or is the empty
    string, or [exists()] answers [False]. [unreadable]: [exists()] is
    asked and raises [e]. *)
Definition present (w : world) (p : option string) (s : string) : Prop :=
  p = Some s /\ s <> "" /\ path_exists w s = Returns true.

Definition absent (w : world) (p : option string) : Prop :=
  match p with
  | Some s => s = "" \/ path_exists w s = Returns false
  | None => True
  end.

Definition unreadable (w : world) (p : option string) (e : string) : Prop :=
  exists s, p = Some s /\ s <> "" /\ path_exists w s = Raises e.

(** The primary backend gets as far as building its write command:
    [pio --version] exits with status 0 and, when the flash is to be
    erased first, so does the erase command. *)
Definition primary_ready (w : world) (port : string) (baud_rate : Z)
    (erase_all : bool) : Prop :=
  (exists c, subprocess_run w pio_check_cmd = Returns c /\ returncode c = 0)
  /\ (erase_all = true ->
      exists c, subprocess_run w (pio_erase_cmd port baud_rate) = Returns c
                /\ returncode c = 0).

(** The commands the primary backend has launched by then. *)
Definition primary_preparation (port : string) (baud_rate : Z)
    (erase_all : bool) : list (list string) :=
  ([pio_check_cmd; pio_detect_cmd port]
   ++ (if erase_all then [pio_erase_cmd port baud_rate] else []))%list.

(** Every event of the trace of [m] satisfies [phi]. *)
Definition all_events (phi : event -> Prop) {A} (m : M A) : Prop :=
  Forall phi (trace m).

(** The events of a backend: reports of at most 100 percent and
    launches of child processes. *)
Definition backend_event (e : event) : Prop :=
  match e with
  | Progress p _ => p <= 100
  | Launch _ => True
  | _ => False
  end.

Definition percent_le_100 (e : event) : Prop :=
  match e with Progress p _ => p <= 100 | _ => True end.

(** ** Sample worlds *)

Module Sample.

Definition newline : string := String "010" "".

Definition ok : completed := mkCompleted 0 "" "".

(** PlatformIO is installed, the three images are there, the firmware
    has 204800 bytes; the tool writes the bootloader, then the
    application. *)
Definition bench : world :=
  mkWorld "python3"
    (fun _ => Returns true)
    (fun _ => Returns 204800)
    (fun _ => Returns ok)
    (fun _ => Returns (mkChild
       [ "Connecting...." ++ newline;
         "Chip is ESP32-S3 (revision v0.1)" ++ newline;
         "Writing at 0x00001000... (10 %)" ++ newline;
         "Writing at 0x00010000... (1 %)" ++ newline;
         "Writing at 0x00030000... (50 %)" ++ newline;
         "Hash of data verified." ++ newline;
         "Hard resetting via RTS pin..." ++ newline ] 0))
    None
    (fun n => 1000 + 7 * Z.of_nat n).

(** As [bench], but [pio --version] exits with status 1. *)
Definition no_pio : world :=
  mkWorld (sys_executable bench) (path_exists bench) (getsize bench)
    (fun cmd => match cmd with
                | ["pio"; "--version"] => Returns (mkCompleted 1 "" "")
                | _ => Returns ok
                end)
    (subprocess_popen bench) None (clock bench).

(** As [bench], but the erase command of the primary backend fails and
    writes a text with the words "PlatformIO not found" to its standard
    error. *)
Definition erase_complains : world :=
  mkWorld (sys_executable bench) (path_exists bench) (getsize bench)
    (fun cmd => match cmd with
                | ["pio"; "--version"] => Returns ok
                | "pio" :: _ =>
                    if existsb (String.eqb "erase_flash") cmd
                    then Returns (mkCompleted 2 ""
                                    "Error: package PlatformIO not found in registry")
                    else Returns ok
                | _ => Returns ok
                end)
    (subprocess_popen bench) None (clock bench).

(** As [bench], but no file exists. *)
Definition no_files : world :=
  mkWorld (sys_executable bench) (fun _ => Returns false)
    (fun _ => Raises "[Errno 2] No such file or directory")
    (subprocess_run bench) (subprocess_popen bench) None (clock bench).

(** As [bench], but of the companions only the bootloader exists. *)
Definition bootloader_only : world :=
  mkWorld (sys_executable bench)
    (fun p => Returns (String.eqb p "firmware.bin"
                       || String.eqb p "bootloader.bin"))
    (getsize bench) (subprocess_run bench) (subprocess_popen bench)
    None (clock bench).

(** As [bench], with an esptool module whose calls succeed. *)
Definition with_module : world :=
  mkWorld (sys_executable bench) (path_exists bench) (getsize bench)
    (subprocess_run bench) (subprocess_popen bench)
    (Some (fun _ _ => Returns (mkEsp "ESP32-S3" (Returns tt))))
    (clock bench).

End Sample.

(** ** Further vocabulary *)



(** The commands launched, in order. *)
Fixpoint launches (t : list event) : list (list string) :=
  match t with
  | Launch cmd :: t' => cmd :: launches t'
  | _ :: t' => launches t'
  | [] => []
  end.

Definition percent_in_range (e : event) : Prop :=
  match e with
  | Progress p _ => 0 <= p <= 100
  | _ => True
  end.


(** The trace and the outcome of [m] satisfy [Q]. *)
Definition post {A} (Q : list event -> outcome A -> Prop) (m : M A) : Prop :=
  Q (trace m) (result m).

(** More sample worlds. *)
Module Cases.

(** As [Sample.bench], but [pio] cannot be started. *)
Definition pio_missing : world :=
  mkWorld (sys_executable Sample.bench) (path_exists Sample.bench)
    (getsize Sample.bench)
    (fun cmd => match cmd with
                | "pio" :: _ => Raises "[Errno 2] No such file or directory: 'pio'"
                | _ => Returns Sample.ok
                end)
    (subprocess_popen Sample.bench) None (clock Sample.bench).

(** As [Sample.bench], but the erase command of the primary backend
    exits with status 2. *)
Definition erase_fails : world :=
  mkWorld (sys_executable Sample.bench) (path_exists Sample.bench)
    (getsize Sample.bench)
    (fun cmd => if existsb (String.eqb "erase_flash") cmd
                then Returns (mkCompleted 2 "" "A fatal error occurred")
                else Returns Sample.ok)
    (subprocess_popen Sample.bench) None (clock Sample.bench).


(** A name of 256 characters, and a file system that refuses names of
    more than 255: [exists()] raises [OSError] for them. *)
Definition long_name : string := String.concat "" (repeat "a" 256).

Definition checked_exists (p : string) : outcome bool :=
  if (255 <? String.length p)%nat
  then Raises ("[Errno 36] File name too long: '" ++ p ++ "'")
  else Returns true.

Definition strict_names : world :=
  mkWorld (sys_executable Sample.bench) checked_exists
    (getsize Sample.bench) (subprocess_run Sample.bench)
    (subprocess_popen Sample.bench) None (clock Sample.bench).

End Cases.

(** ** The esptool-module backend *)

(** More built-ins of Python. *)
Module PyMore.

(** [a // b] on ints: the floor of the quotient. *)
Definition floordiv (a b : Z) : outcome Z :=
  if b =? 0 then Raises "integer division or modulo by zero"
  else Returns (a / b).

(** [list(range(start, stop, step))] *)
Definition range (start stop step : Z) : outcome (list Z) :=
  if step =? 0 then Raises "range() arg 3 must not be zero"
  else
    let n :=
      if 0 <? step
      then (if start <? stop then (stop - start - 1) / step + 1 else 0)
      else (if stop <? start then (start - stop - 1) / (- step) + 1 else 0) in
    Returns (map (fun k => start + Z.of_nat k * step) (seq 0 (Z.to_nat n))).

(** [l[lo:hi]]: an index below zero counts from the end, and both are
    brought into the bounds of [l]. *)
Definition slice {A} (l : list A) (lo hi : Z) : list A :=
  let n := Z.of_nat (List.length l) in
  let clamp i := if i <? 0 then Z.max (i + n) 0 else Z.min i n in
  firstn (Z.to_nat (clamp hi - clamp lo)) (skipn (Z.to_nat (clamp lo)) l).

(** [b * k] for a bytes object of one byte *)
Definition times (b : Byte.byte) (k : Z) : list Byte.byte :=
  repeat b (Z.to_nat k).

End PyMore.

Module Loader.

(** What [_flash_with_esptool_module] does that can be observed: calls
    of the progress callback and of the methods of the esptool module,
    [flash_begin] and [flash_block] with their arguments. *)
Inductive mevent : Type :=
| Report (percent : Z) (msg : string)
| Call (method : string)
| Begin (size address : Z)
| Block (data : list Byte.byte) (seq : Z).

(** The object [esptool.detect_chip] returns, with what its methods
    answer. *)
Record esp : Type := mkLoader {
  CHIP_NAME : string;
  FLASH_WRITE_SIZE : Z;
  erase_flash : outcome unit;
  flash_begin : Z -> Z -> outcome unit;
  flash_block : list Byte.byte -> Z -> outcome unit;
  flash_finish : outcome unit
}.

(** The module [esptool], [None] when its import failed, and the file
    system read in binary mode. *)
Record env : Type := mkEnv {
  detect_chip : option (string -> Z -> outcome esp);
  read_binary : string -> outcome (list Byte.byte)
}.

Definition T (A : Type) : Type := list mevent * outcome A.

Definition ret {A} (a : A) : T A := ([], Returns a).

Definition bind {A B} (m : T A) (f : A -> T B) : T B :=
  match m with
  | (t, Returns a) => let (t', r) := f a in ((t ++ t')%list, r)
  | (t, Raises e) => (t, Raises e)
  end.

Definition try_except {A} (m : T A) (h : string -> T A) : T A :=
  match m with
  | (t, Raises e) => let (t', r) := h e in ((t ++ t')%list, r)
  | (t, Returns a) => (t, Returns a)
  end.

Definition emit (e : mevent) : T unit := ([e], Returns tt).

Definition lift {A} (o : outcome A) : T A := ([], o).

Declare Scope loader_scope.
Notation "x <- m ;; k" := (bind m (fun x => k))
  (at level 61, m at next level, right associativity) : loader_scope.
Notation "m ;; k" := (bind m (fun _ => k))
  (at level 61, right associativity) : loader_scope.
#[local] Open Scope loader_scope.

Section Backend.

Variable e : env.
Variable has_callback : bool.

Definition report (percent : Z) (msg : string) : T unit :=
  (if has_callback then [Report percent msg] else [], Returns tt).

(** [esptool.detect_chip(port, baud_rate, connect_mode='default_reset')] *)
Definition detect (port : string) (baud_rate : Z) : T esp :=
  match detect_chip e with
  | Some f => emit (Call "detect_chip") ;; lift (f port baud_rate)
  | None => lift (Raises "'NoneType' object has no attribute 'detect_chip'")
  end.

Definition block_msg (percent bytes_written len : Z) : string :=
  "Writing firmware... " ++ Py.str percent ++ "% ("
  ++ Py.str (bytes_written / 1024) ++ "KB/" ++ Py.str (len / 1024) ++ "KB)".

(** The block that starts at [i], filled up with [0xff] to the block
    size. *)
Definition padded_block (firmware_data : list Byte.byte) (i block_size : Z)
    : list Byte.byte :=
  let block := PyMore.slice firmware_data i (i + block_size) in
  if Z.of_nat (List.length block) <? block_size
  then (block ++ PyMore.times Byte.xff
                   (block_size - Z.of_nat (List.length block)))%list
  else block.

(** The loop [for seq, i in enumerate(range(0, len, block_size))]. *)
Fixpoint write_blocks (dev : esp) (firmware_data : list Byte.byte)
    (block_size blocks_total : Z) (indices : list Z) (seq : Z) : T unit :=
  match indices with
  | [] => ret tt
  | i :: rest =>
      let len := Z.of_nat (List.length firmware_data) in
      let block := padded_block firmware_data i block_size in
      emit (Block block seq) ;;
      lift (flash_block dev block seq) ;;
      progress_percent <- lift (PyMore.floordiv ((seq + 1) * 100) blocks_total) ;;
      let bytes_written := Z.min (i + block_size) len in
      report progress_percent (block_msg progress_percent bytes_written len) ;;
      write_blocks dev firmware_data block_size blocks_total rest (seq + 1)
  end.

Definition _flash_with_esptool_module (port firmware_path : string)
    (baud_rate flash_address : Z) (erase_all verify : bool) : T FlashResult :=
  try_except
    (report 10 "Detecting chip type..." ;;
     dev <- detect port baud_rate ;;
     let chip_type := CHIP_NAME dev in
     report 20 ("Connected to " ++ chip_type) ;;
     (if erase_all
      then
        report 10 "Erasing flash..." ;;
        emit (Call "erase_flash") ;;
        lift (erase_flash dev) ;;
        report 20 "Flash erased"
      else ret tt) ;;
     report 30 "Writing firmware..." ;;
     firmware_data <- lift (read_binary e firmware_path) ;;
     let len := Z.of_nat (List.length firmware_data) in
     emit (Begin len flash_address) ;;
     lift (flash_begin dev len flash_address) ;;
     let block_size := FLASH_WRITE_SIZE dev in
     blocks_total <- lift (PyMore.floordiv (len + block_size - 1) block_size) ;;
     indices <- lift (PyMore.range 0 len block_size) ;;
     write_blocks dev firmware_data block_size blocks_total indices 0 ;;
     emit (Call "flash_finish") ;;
     lift (flash_finish dev) ;;
     report 95 "Firmware written successfully" ;;
     (if verify then report 98 "Verifying..." else ret tt) ;;
     report 100 "Flash completed successfully!" ;;
     ret (mkFlashResult true "Firmware flashed successfully" 0
            (Some chip_type) None))
    (fun err => ret (failed ("Esptool module error: " ++ err))).

End Backend.

(** The blocks handed to [flash_block] and the percents reported, in
    order. *)
Fixpoint blocks (t : list mevent) : list (list Byte.byte * Z) :=
  match t with
  | Block data seq :: t' => (data, seq) :: blocks t'
  | _ :: t' => blocks t'
  | [] => []
  end.

Fixpoint percents (t : list mevent) : list Z :=
  match t with
  | Report p _ :: t' => p :: percents t'
  | _ :: t' => percents t'
  | [] => []
  end.

(** What a run of the loop that comes to its end leaves in the trace. *)
Fixpoint block_events (has_callback : bool) (firmware_data : list Byte.byte)
    (block_size blocks_total : Z) (indices : list Z) (seq : Z) : list mevent :=
  match indices with
  | [] => []
  | i :: rest =>
      let len := Z.of_nat (List.length firmware_data) in
      let progress_percent := (seq + 1) * 100 / blocks_total in
      (Block (padded_block firmware_data i block_size) seq
       :: (if has_callback
           then [Report progress_percent
                   (block_msg progress_percent (Z.min (i + block_size) len) len)]
           else [])
       ++ block_events has_callback firmware_data block_size blocks_total rest
            (seq + 1))%list
  end.

Definition post {A} (Q : list mevent -> outcome A -> Prop) (m : T A) : Prop :=
  Q (fst m) (snd m).

(** A device whose calls all succeed, with blocks of four bytes, and a
    firmware of six bytes. *)
Definition quiet_device : esp :=
  mkLoader "ESP32-S3" 4 (Returns tt) (fun _ _ => Returns tt)
    (fun _ _ => Returns tt) (Returns tt).

Definition six_bytes : list Byte.byte :=
  [Byte.xe9; Byte.x01; Byte.x02; Byte.x03; Byte.x04; Byte.x05].

Definition lab : env :=
  mkEnv (Some (fun _ _ => Returns quiet_device)) (fun _ => Returns six_bytes).

End Loader.

(** ** [detect_chip_info] *)

Module Chip.

(** [f'{b:02x}'] for an int: lowercase hexadecimal, filled with a zero
    to two characters (the sign counts as one). *)
Definition format_02x (b : Z) : string :=
  let s := Py.format_x b in
  if (String.length s <? 2)%nat then "0" ++ s else s.

(** A value an attribute of the device object may hold. *)
Inductive pyval : Type :=
| Str (s : string)
| Int (n : Z)
| Float (x : spec_float).

(** The object [esptool.detect_chip] returns, as [detect_chip_info]
    looks at it: [None] is an attribute the object does not have; a
    method is given by what a call of it answers, [read_mac] by the
    ints its answer holds. *)
Record esp : Type := mkChip {
  CHIP_NAME : string;
  get_chip_revision : option (outcome pyval);
  flash_size : option pyval;
  read_mac : option (outcome (list Z));
  get_crystal_freq : option (outcome pyval)
}.

(** The module [esptool], [None] when its import failed. *)
Definition module : Type := option (string -> Z -> outcome esp).

(** The dict [chip_info]. *)
Record chip_info : Type := mkInfo {
  chip_type : string;
  chip_revision : pyval;
  info_flash_size : pyval;
  mac_address : string;
  crystal_freq : pyval
}.

Definition bind {A B} (o : outcome A) (f : A -> outcome B) : outcome B :=
  match o with
  | Returns a => f a
  | Raises err => Raises err
  end.

Declare Scope chip_scope.
Notation "x <- m ;; k" := (bind m (fun x => k))
  (at level 61, m at next level, right associativity) : chip_scope.
#[local] Open Scope chip_scope.

(** [getattr(esp, name, lambda: 'Unknown')()] *)
Definition call_or_unknown (method : option (outcome pyval)) : outcome pyval :=
  match method with
  | Some answer => answer
  | None => Returns (Str "Unknown")
  end.

Definition detect_chip_info (esptool : module) (port : string) (baud_rate : Z)
    : outcome chip_info :=
  match esptool with
  | None => Raises "esptool not available. Install with: pip install esptool"
  | Some detect_chip =>
      match
        (dev <- detect_chip port baud_rate ;;
         revision <- call_or_unknown (get_chip_revision dev) ;;
         let size := match flash_size dev with
                     | Some v => v
                     | None => Str "Unknown"
                     end in
         mac <- match read_mac dev with
                | Some answer =>
                    bytes <- answer ;;
                    Returns (Py.join ":" (map format_02x bytes))
                | None => Returns "Unknown"
                end ;;
         freq <- call_or_unknown (get_crystal_freq dev) ;;
         Returns (mkInfo (CHIP_NAME dev) revision size mac freq))
      with
      | Returns info => Returns info
      | Raises err => Raises ("Failed to detect chip: " ++ err)
      end
  end.

(** What is checked of the text of one byte: two characters, no colon,
    and read back in base 16 it is the byte. *)
Definition byte_facts (b : Z) : bool :=
  (String.length (format_02x b) =? 2)%nat
  && avoids ":" (format_02x b)
  && match Py.int16 (format_02x b) with
     | Some n => n =? b
     | None => false
     end.

(** A chip that has every attribute, and one that has none of the
    optional ones. *)
Definition full_chip : esp :=
  mkChip "ESP32-S3" (Some (Returns (Int 0))) (Some (Str "8MB"))
    (Some (Returns [36; 10; 196; 0; 1; 255])) (Some (Returns (Int 40))).

Definition bare_chip : esp := mkChip "ESP32" None None None None.

(** A chip whose MAC cannot be read. *)
Definition mute_chip : esp :=
  mkChip "ESP32" (Some (Returns (Int 1))) None
    (Some (Raises "Failed to read MAC")) (Some (Raises "Timed out")).

End Chip.

(** ** The progress bar of the command line *)

Module Cli.

(** [s * n] on a str *)
Definition str_times (s : string) (n : Z) : string :=
  String.concat "" (repeat s (Z.to_nat n)).

(** The local [display_message] of [progress_callback], the text the
    bar shows for a report of the controller: a message with
    "Connecting" in it is replaced by that word and
    [min(int(percent / 10), 6)] dots. [None] stands for an exception
    of the division or of [int]. The bar is set to [percent]. *)
Definition display_message (percent : Z) (message : string) : option string :=
  if Py.contains "Connecting" message then
    match Py.true_div percent 10 with
    | Some q =>
        match Py.int_of_float q with
        | Some n => Some ("Connecting" ++ str_times "." (Z.min n 6))
        | None => None
        end
    | None => None
    end
  else Some message.

(** The fields of [FirmwareInfo] that are handed to the controller. *)
Record FirmwareInfo : Type := mkFirmware {
  path : string;
  bootloader_path : option string;
  partitions_path : option string
}.

Definition DEFAULT_FLASH_ADDRESS : Z := 4096.

(** [flash_firmware_with_progress], for the port of the device: the
    callback is set, the flash address is left to its default, and
    [verify] is [True]. *)
Definition flash_firmware_with_progress (w : world) (port : string)
    (firmware_info : FirmwareInfo) (baud_rate : Z) (erase_all : bool)
    : M FlashResult :=
  flash_firmware w true port (path firmware_info) baud_rate
    DEFAULT_FLASH_ADDRESS erase_all true (bootloader_path firmware_info)
    (partitions_path firmware_info).

(** What the bar shows for a report: the message itself, or, for a
    message with "Connecting" in it, that word with no dot at 0
    percent, three dots at 35 and 38, six dots at 65. *)
Definition shown (p : Z) (msg : string) : Prop :=
  (Py.contains "Connecting" msg = false /\ display_message p msg = Some msg)
  \/ (Py.contains "Connecting" msg = true
      /\ ((p = 0 /\ display_message p msg = Some "Connecting")
          \/ ((p = 35 \/ p = 38)
              /\ display_message p msg = Some "Connecting...")
          \/ (p = 65 /\ display_message p msg = Some "Connecting......"))).

Definition bar_event (e : event) : Prop :=
  match e with
  | Progress p msg => shown p msg
  | _ => True
  end.

End Cli.

(** * Properties *)

(** ** The trace monad *)

Lemma trace_bind {A B} (m : M A) (f : A -> M B) :
  trace (bind m f) =
  match result m with
  | Returns a => (trace m ++ trace (f a))%list
  | Raises _ => trace m
  end.
Proof.
  destruct m as [t [a | e]]; simpl; [destruct (f a) | ]; reflexivity.
Qed.


Lemma trace_try_except {A} (m : M A) (h : string -> M A) :
  trace (try_except m h) =
  match result m with
  | Returns _ => trace m
  | Raises e => (trace m ++ trace (h e))%list
  end.
Proof.
  destruct m as [t [a | e]]; simpl; [ | destruct (h e)]; reflexivity.
Qed.

Lemma result_try_except {A} (m : M A) (h : string -> M A) :
  result (try_except m h) =
  match result m with
  | Returns a => Returns a
  | Raises e => result (h e)
  end.
Proof.
  destruct m as [t [a | e]]; simpl; [ | destruct (h e)]; reflexivity.
Qed.

(** A handler that returns makes the whole [try] statement return. *)
Lemma try_except_returns {A} (m : M A) (h : string -> M A) :
  (forall e, exists r, result (h e) = Returns r) ->
  exists r, result (try_except m h) = Returns r.
Proof.
  intros Hh. rewrite result_try_except.
  destruct (result m) as [a | e]; [exists a; reflexivity | apply Hh].
Qed.

Section Events.

Variable phi : event -> Prop.

Lemma all_ret {A} (a : A) : all_events phi (ret a).
Proof. constructor. Qed.

Lemma all_lift {A} (o : outcome A) : all_events phi (lift o).
Proof. constructor. Qed.

Lemma all_tell (e : event) : phi e -> all_events phi (tell e).
Proof. intros H. constructor; [exact H | constructor]. Qed.

Lemma all_bind {A B} (m : M A) (f : A -> M B) :
  all_events phi m -> (forall a, all_events phi (f a)) ->
  all_events phi (bind m f).
Proof.
  unfold all_events. intros Hm Hf. rewrite trace_bind.
  destruct (result m); [apply Forall_app; split; [exact Hm | apply Hf] | exact Hm].
Qed.

Lemma all_try_except {A} (m : M A) (h : string -> M A) :
  all_events phi m -> (forall e, all_events phi (h e)) ->
  all_events phi (try_except m h).
Proof.
  unfold all_events. intros Hm Hh. rewrite trace_try_except.
  destruct (result m); [exact Hm | apply Forall_app; split; [exact Hm | apply Hh]].
Qed.

Lemma all_callback (cb : bool) (p : Z) (msg : string) :
  phi (Progress p msg) -> Forall phi (callback cb p msg).
Proof.
  intros H. unfold callback. destruct cb; repeat constructor. exact H.
Qed.

Lemma all_report (cb : bool) (p : Z) (msg : string) :
  phi (Progress p msg) -> all_events phi (report cb p msg).
Proof. apply all_callback. Qed.

Lemma all_run (w : world) (cmd : list string) :
  phi (Launch cmd) -> all_events phi (run w cmd).
Proof.
  intros H. unfold run. apply all_bind; [apply all_tell, H | intros; apply all_lift].
Qed.

Lemma all_popen (w : world) (cmd : list string) :
  phi (Launch cmd) -> all_events phi (popen w cmd).
Proof.
  intros H. unfold popen. apply all_bind; [apply all_tell, H | intros; apply all_lift].
Qed.

Lemma all_read_loop (handle : Z -> string -> Z * list event) :
  (forall p line, Forall phi (snd (handle p line))) ->
  forall reads s, Forall phi (snd (read_loop handle s reads)).
Proof.
  intros Hh reads. induction reads as [ | raw reads IH]; intros s; simpl.
  - constructor.
  - destruct raw as [ | c raw']; [apply IH | ].
    specialize (Hh (progress s) (Py.strip (String c raw'))).
    destruct (handle (progress s) (Py.strip (String c raw'))) as [p' evs].
    match goal with
    | |- context [read_loop handle ?s' reads] =>
        specialize (IH s'); destruct (read_loop handle s' reads) as [s'' evs']
    end.
    simpl in *. apply Forall_app; split; assumption.
Qed.

Lemma all_read_all (handle : Z -> string -> Z * list event) p0 reads :
  (forall p line, Forall phi (snd (handle p line))) ->
  all_events phi (read_all handle p0 reads).
Proof.
  intros Hh. unfold all_events, read_all.
  pose proof (all_read_loop handle Hh reads (mkSession p0 [])) as H.
  destruct (read_loop handle (mkSession p0 []) reads); exact H.
Qed.

End Events.

(** ** What the backends do to the trace *)

Ltac events_step :=
  match goal with
  | |- all_events _ (bind _ _) => apply all_bind; [ | intros ]
  | |- all_events _ (try_except _ _) => apply all_try_except; [ | intros ]
  | |- all_events _ (report _ _ _) => apply all_report; simpl; lia
  | |- all_events _ (run _ _) => apply all_run; exact I
  | |- all_events _ (popen _ _) => apply all_popen; exact I
  | |- all_events _ (ret _) => apply all_ret
  | |- all_events _ (lift _) => apply all_lift
  | |- all_events _ (if ?b then _ else _) => destruct b
  | |- all_events _ (match ?x with Some _ => _ | None => _ end) => destruct x
  | |- Forall _ (callback _ _ _) => apply all_callback; simpl; lia
  | |- Forall _ [] => constructor
  end.

Lemma step_events (cb : bool) (p : Z) :
  Forall backend_event (snd (step cb p)).
Proof. unfold step; simpl. events_step. Qed.

Lemma esptool_try_events (cb : bool) (fa fs p : Z) (line : string) r :
  esptool_try cb fa fs p line = Some r -> Forall backend_event (snd r).
Proof.
  unfold esptool_try. intros H.
  destruct (parse_addr line) as [a | ]; [ | discriminate].
  destruct (fs >? 0).
  - destruct (Py.percent_of (a - fa) fs); inversion H; subst; simpl; events_step.
  - destruct (a >? fa).
    + destruct (Py.percent_of (a - fa) 65536); inversion H; subst; simpl;
        events_step.
    + inversion H; subst; simpl; events_step.
Qed.

Lemma esptool_line_events (cb : bool) (fa fs p : Z) (line : string) :
  Forall backend_event (snd (esptool_line cb fa fs p line)).
Proof.
  unfold esptool_line.
  destruct (Py.contains writing_marker line).
  - destruct (esptool_try cb fa fs p line) as [r | ] eqn:E;
      [exact (esptool_try_events _ _ _ _ _ _ E) | apply step_events].
  - repeat match goal with
           | |- context [if ?b then _ else _] => destruct b
           end; simpl; events_step.
Qed.

Lemma platformio_try_events (cb : bool) (fs p : Z) (line : string) r :
  platformio_try cb fs p line = Some r -> Forall backend_event (snd r).
Proof.
  unfold platformio_try. intros H.
  destruct (parse_addr line) as [a | ]; [ | discriminate].
  destruct (fs >? 0).
  - destruct (Py.percent_of (a - 65536) fs); inversion H; subst; simpl;
      events_step.
  - inversion H; subst. apply step_events.
Qed.

Lemma platformio_line_events (cb : bool) (fs p : Z) (line : string) :
  Forall backend_event (snd (platformio_line cb fs p line)).
Proof.
  unfold platformio_line.
  destruct (Py.contains writing_marker line).
  - destruct (platformio_try cb fs p line) as [r | ] eqn:E;
      [exact (platformio_try_events _ _ _ _ _ E) | apply step_events].
  - repeat match goal with
           | |- context [if ?b then _ else _] => destruct b
           end; simpl; events_step.
Qed.

Lemma esptool_backend_events w cb port fw baud fa erase verify :
  all_events backend_event
    (_flash_with_esptool_subprocess w cb port fw baud fa erase verify).
Proof.
  unfold _flash_with_esptool_subprocess, esptool_erase.
  repeat events_step.
  apply all_read_all. intros; apply esptool_line_events.
Qed.

Lemma platformio_backend_events w cb port fw baud fa erase verify bl pt :
  all_events backend_event
    (_flash_with_platformio w cb port fw baud fa erase verify bl pt).
Proof.
  unfold _flash_with_platformio, pio_detect, pio_erase.
  repeat events_step.
  apply all_read_all. intros; apply platformio_line_events.
Qed.

(** Neither backend lets an exception out. *)
Lemma esptool_backend_returns w cb port fw baud fa erase verify :
  exists r,
    result (_flash_with_esptool_subprocess w cb port fw baud fa erase verify)
    = Returns r.
Proof.
  apply try_except_returns. intros e; eexists; reflexivity.
Qed.


Lemma attempts_app (b : backend) (t1 t2 : list event) :
  attempts b (t1 ++ t2) = (attempts b t1 + attempts b t2)%nat.
Proof. unfold attempts. rewrite filter_app, length_app. reflexivity. Qed.

Lemma attempts_backend_events (b : backend) (t : list event) :
  Forall backend_event t -> attempts b t = 0%nat.
Proof.
  unfold attempts. induction 1 as [ | e t He Ht IH]; [reflexivity | ].
  simpl. destruct e; simpl in *; try contradiction; exact IH.
Qed.

Lemma attempts_cons (b : backend) (e : event) (t : list event) :
  attempts b (e :: t)
  = ((if is_attempt b e then 1 else 0) + attempts b t)%nat.
Proof. unfold attempts. simpl. destruct (is_attempt b e); reflexivity. Qed.

Lemma attempts_callback (b : backend) (cb : bool) (p : Z) (msg : string) :
  attempts b (callback cb p msg) = 0%nat.
Proof. destruct cb; reflexivity. Qed.

(** ** [flash_firmware] *)

(** The result the primary backend returns when [pio --version] exits
    with a status other than 0 is one that sends [flash_firmware] to the
    fallback. *)
Lemma pio_check_failure_is_tool_unavailable
    w cb port fw baud fa erase verify bl pt c :
  subprocess_run w pio_check_cmd = Returns c ->
  returncode c <> 0 ->
  result (_flash_with_platformio w cb port fw baud fa erase verify bl pt)
  = Returns (failed "PlatformIO not found")
  /\ tool_unavailable (failed "PlatformIO not found") = true.
Proof.
  intros Hrun Hrc. split; [ | reflexivity].
  unfold _flash_with_platformio, run. simpl. rewrite Hrun. simpl.
  apply Z.eqb_neq in Hrc. rewrite Hrc. reflexivity.
Qed.

(** When [pio] cannot be started at all, [subprocess.run] raises, and
    the primary backend answers with the text of the exception. *)
Lemma pio_launch_failure_message
    w cb port fw baud fa erase verify bl pt e :
  subprocess_run w pio_check_cmd = Raises e ->
  result (_flash_with_platformio w cb port fw baud fa erase verify bl pt)
  = Returns (failed ("PlatformIO error: " ++ e)).
Proof.
  intros Hrun. unfold _flash_with_platformio, run. simpl. rewrite Hrun.
  reflexivity.
Qed.

(** Every percent [flash_firmware] reports is at most 100. *)
Lemma flash_firmware_percent_le_100
    w cb port fw baud fa erase verify bl pt :
  all_events percent_le_100
    (flash_firmware w cb port fw baud fa erase verify bl pt).
Proof.
  assert (Hweak : forall A (m : M A),
             all_events backend_event m -> all_events percent_le_100 m).
  { intros A m. unfold all_events. apply Forall_impl.
    intros [p msg | cmd | call | b]; simpl; tauto. }
  unfold flash_firmware.
  repeat first
    [ apply Hweak, platformio_backend_events
    | apply Hweak, esptool_backend_events
    | apply all_tell; exact I
    | events_step ].
Qed.

(** ** The write commands *)

(** The digits [format(n, 'x')] prints denote [n]. *)
Lemma hex_value_format_x (n : Z) : 0 <= n -> hex_value (Py.format_x n) = n.
Proof.
  intros H. unfold hex_value, Py.format_x.
  destruct n as [ | p | p]; [reflexivity | | lia].
  rewrite HexString.Raw.to_N_of_pos. reflexivity.
Qed.

(** ** [erase_flash] *)

(** C9 fails on the path without the esptool module: the erase command
    exits with status 0, [erase_flash] returns a successful result, and
    the only report made is the one of 0 percent. *)
Theorem erase_subprocess_reports_no_completion :
  result (erase_flash Sample.bench true "COM3" 460800)
  = Returns (mkFlashResult true "Flash erased successfully" 7 None None)
  /\ percents (trace (erase_flash Sample.bench true "COM3" 460800)) = [0].
Proof. split; reflexivity. Qed.

Example erase_module_reports_completion :
  percents (trace (erase_flash Sample.with_module true "COM3" 460800))
  = [0; 20; 100].
Proof. reflexivity. Qed.

(** Without the module no run of [erase_flash] reports more than the
    initial 0 percent. *)
Lemma erase_subprocess_percents (w : world) (cb : bool) (port : string) (baud : Z) :
  esptool w = None ->
  percents (trace (erase_flash w cb port baud)) = if cb then [0] else [].
Proof.
  intros H. unfold erase_flash. rewrite H.
  unfold run, report, callback, tell, lift, bind, try_except, ret, trace.
  destruct cb; simpl;
    destruct (subprocess_run w (erase_cmd w port baud)) as [c | e]; simpl;
    try destruct (returncode c =? 0); reflexivity.
Qed.

(** With the module, a successful erase reports 0, 20 and 100. *)
Lemma erase_module_percents (w : world) (port : string) (baud : Z)
    detect_chip r :
  esptool w = Some detect_chip ->
  result (erase_flash w true port baud) = Returns r ->
  success r = true ->
  percents (trace (erase_flash w true port baud)) = [0; 20; 100].
Proof.
  intros H. unfold erase_flash. rewrite H.
  unfold run, report, callback, tell, lift, bind, try_except, ret, trace, result.
  simpl. destruct (detect_chip port baud) as [esp | e]; simpl.
  - destruct (erase_flash_call esp) as [[] | e]; simpl.
    + reflexivity.
    + intros Hr Hs. inversion Hr; subst. discriminate Hs.
  - intros Hr Hs. inversion Hr; subst. discriminate Hs.
Qed.

(** ** Python built-ins *)

Lemma split_go_nonempty (sep : string) (s : string) :
  forall skip cur, Py.split_go sep skip cur s <> [].
Proof.
  induction s as [ | c s IH]; intros skip cur; cbn [Py.split_go].
  - discriminate.
  - destruct skip; [destruct (prefix sep (String c s)) | ];
      first [discriminate | apply IH].
Qed.

(** A string that contains the separator splits into at least two
    pieces, so [split(sep)[1]] does not raise. *)
Lemma split_go_second (sep : string) (s : string) :
  sep <> "" -> Py.contains sep s = true ->
  forall cur, exists rest, nth_error (Py.split_go sep 0 cur s) 1 = Some rest.
Proof.
  intros Hsep. induction s as [ | c s IH]; intros Hc cur.
  - destruct sep; [contradiction | discriminate].
  - cbn [Py.contains Py.split_go] in *.
    destruct (prefix sep (String c s)) eqn:Ep.
    + destruct (Py.split_go sep (String.length sep - 1) "" s)
        as [ | x l] eqn:E; [exact (False_ind _ (split_go_nonempty _ _ _ _ E)) | ].
      exists x. reflexivity.
    + apply IH, Hc.
Qed.

Lemma split_first (sep s : string) :
  exists part, nth_error (Py.split sep s) 0 = Some part.
Proof.
  unfold Py.split.
  destruct (Py.split_go sep 0 "" s) as [ | x l] eqn:E;
    [exact (False_ind _ (split_go_nonempty _ _ _ _ E)) | ].
  exists x. reflexivity.
Qed.

(** On a line with the marker, [parse_addr] fails only when [int]
    rejects the address part. *)
Lemma parse_addr_is_int16 (line : string) :
  Py.contains writing_marker line = true ->
  exists addr_part, parse_addr line = Py.int16 addr_part.
Proof.
  intros Hc. unfold parse_addr.
  destruct (split_go_second writing_marker line) with (cur := "")
    as [rest Hr]; [discriminate | exact Hc | ].
  change (Py.split writing_marker line)
    with (Py.split_go writing_marker 0 "" line).
  rewrite Hr. destruct (split_first "..." rest) as [part Hp].
  rewrite Hp. exists part. reflexivity.
Qed.

(** Rounding keeps the sign. *)
Lemma binary_round_aux_sign (sx : bool) (mx ex : Z) (lx : location) :
  match binary_round_aux Py.prec Py.emax sx mx ex lx with
  | S754_nan => True
  | x => Py.signbit x = sx
  end.
Proof.
  unfold binary_round_aux.
  destruct (shr_fexp Py.prec Py.emax mx ex lx) as [mrs' e'].
  destruct (shr_fexp Py.prec Py.emax
              (round_nearest_even (shr_m mrs') (loc_of_shr_record mrs')) e'
              loc_Exact) as [mrs'' e''].
  destruct (shr_m mrs''); [reflexivity | | exact I].
  destruct (Z.leb e'' (Z.sub Py.emax Py.prec)); reflexivity.
Qed.

Lemma true_div_nonneg (a b : Z) (x : spec_float) :
  0 <= a -> 0 < b -> Py.true_div a b = Some x -> Py.signbit x = false.
Proof.
  intros Ha Hb. unfold Py.true_div.
  destruct b as [ | q | q]; try lia.
  change (Z.pos q <? 0) with false.
  destruct a as [ | p | p]; try lia; cbn [SFdiv xorb].
  - intros H; inversion H; reflexivity.
  - destruct (SFdiv_core_binary Py.prec Py.emax (Z.pos p) 0 (Z.pos q) 0)
      as [[mz ez] lz].
    pose proof (binary_round_aux_sign false mz ez lz) as Hs.
    destruct (binary_round_aux Py.prec Py.emax false mz ez lz);
      intros H; inversion H; subst; exact Hs.
Qed.

Lemma float_of_int_100 :
  Py.float_of_int 100 = S754_finite false 7036874417766400 (-46).
Proof. vm_compute. reflexivity. Qed.

Lemma mul_100_nonneg (x : spec_float) (q : Z) :
  Py.signbit x = false -> Py.int_of_float (Py.mul_int x 100) = Some q -> 0 <= q.
Proof.
  intros Hx. unfold Py.mul_int. rewrite float_of_int_100.
  assert (Hpos : forall y q', Py.signbit y = false ->
                   Py.int_of_float y = Some q' -> 0 <= q').
  { intros y q' Hy. destruct y as [s | s | | s m e]; simpl in *;
      try discriminate; intros H; inversion H; subst; [lia | ].
    destruct e as [ | e | e].
    - lia.
    - apply Z.shiftl_nonneg. lia.
    - apply Z.shiftr_nonneg. lia. }
  destruct x as [s | s | | s m e]; simpl in Hx; subst; simpl SFmul.
  - apply Hpos. reflexivity.
  - discriminate.
  - discriminate.
  - apply Hpos.
    pose proof (binary_round_aux_sign false
                  (Z.pos (m * 7036874417766400)) (e + -46) loc_Exact) as Hs.
    simpl xorb.
    destruct (binary_round_aux Py.prec Py.emax false
                (Z.pos (m * 7036874417766400)) (e + -46) loc_Exact);
      try exact Hs; reflexivity.
Qed.

(** The percentage of a byte count that is not negative is not
    negative. *)
Lemma percent_of_nonneg (a b q : Z) :
  0 <= a -> 0 < b -> Py.percent_of a b = Some q -> 0 <= q.
Proof.
  intros Ha Hb. unfold Py.percent_of.
  destruct (Py.true_div a b) as [x | ] eqn:E; [ | discriminate].
  apply mul_100_nonneg. exact (true_div_nonneg a b x Ha Hb E).
Qed.

(** ** The reading loops *)

Lemma percents_app (t1 t2 : list event) :
  percents (t1 ++ t2) = (percents t1 ++ percents t2)%list.
Proof.
  induction t1 as [ | e t1 IH]; [reflexivity | ].
  destruct e; simpl; rewrite IH; reflexivity.
Qed.

Lemma read_loop_app (handle : Z -> string -> Z * list event)
    (reads1 reads2 : list string) :
  forall s,
    read_loop handle s (reads1 ++ reads2) =
    let (s1, evs1) := read_loop handle s reads1 in
    let (s2, evs2) := read_loop handle s1 reads2 in
    (s2, (evs1 ++ evs2)%list).
Proof.
  induction reads1 as [ | raw reads1 IH]; intros s; simpl.
  - destruct (read_loop handle s reads2); reflexivity.
  - destruct raw as [ | c raw']; [apply IH | ].
    destruct (handle (progress s) (Py.strip (String c raw'))) as [p' evs].
    rewrite IH.
    match goal with
    | |- context [read_loop handle ?s' reads1] =>
        destruct (read_loop handle s' reads1) as [s1 evs1]
    end.
    destruct (read_loop handle s1 reads2) as [s2 evs2].
    rewrite app_assoc. reflexivity.
Qed.

Lemma esptool_line_connecting (cb : bool) (fa fs p : Z) (line : string) :
  connecting_line line = true ->
  esptool_line cb fa fs p line = (p, callback cb 35 "Connecting to device...").
Proof.
  unfold connecting_line, esptool_other, esptool_line. intros H.
  repeat (apply andb_prop in H; destruct H as [H ?]).
  repeat match goal with
         | H : negb _ = true |- _ => apply negb_true_iff in H; rewrite H
         | H : Py.contains _ _ = true |- _ => rewrite H
         end.
  reflexivity.
Qed.

Lemma esptool_line_chip (cb : bool) (fa fs p : Z) (line : string) :
  chip_line line = true ->
  esptool_line cb fa fs p line = (p, callback cb 38 ("Detected: " ++ line)).
Proof.
  unfold chip_line, esptool_other, esptool_line. intros H.
  repeat (apply andb_prop in H; destruct H as [H ?]).
  repeat match goal with
         | H : negb _ = true |- _ => apply negb_true_iff in H; rewrite H
         | H : Py.contains _ _ = true |- _ => rewrite H
         end.
  reflexivity.
Qed.

(** C1, as stated, fails: after a write address has been reported at 59
    percent, a ['Connecting...'] line is reported at 35. *)
Lemma connecting_after_writing_goes_down :
  nondecreasing
    (percents (esptool_session true 4096 10000
                 ["Writing at 0x2710..."; "Connecting..."])) = false.
Proof. vm_compute. reflexivity. Qed.

(** C1, amended. The loop keeps no maximum and holds nothing back: in
    the fallback backend a line that reaches the ['Connecting...']
    branch is reported at 35 and one that reaches the ['Chip is'] branch
    at 38, after whatever the lines before it have reported. *)
Theorem fixed_percent_lines_are_always_reported
    (flash_address firmware_size : Z) (reads : list string) (raw : string) :
  raw <> "" ->
  connecting_line (Py.strip raw) || chip_line (Py.strip raw) = true ->
  percents (esptool_session true flash_address firmware_size (reads ++ [raw]))
  = (percents (esptool_session true flash_address firmware_size reads)
     ++ [if connecting_line (Py.strip raw) then 35 else 38])%list.
Proof.
  intros Hraw Hline. unfold esptool_session. rewrite read_loop_app.
  destruct (read_loop (esptool_line true flash_address firmware_size)
              (mkSession 40 []) reads) as [s1 evs1].
  destruct raw as [ | c raw']; [contradiction | ].
  cbn [read_loop].
  destruct (connecting_line (Py.strip (String c raw'))) eqn:Ec.
  - rewrite (esptool_line_connecting true _ _ _ _ Ec).
    simpl. rewrite percents_app. reflexivity.
  - simpl in Hline. rewrite (esptool_line_chip true _ _ _ _ Hline).
    simpl. rewrite percents_app. reflexivity.
Qed.

Lemma fixed_percent_lines_are_always_reported_witness :
  percents (esptool_session true 4096 10000
              (["Writing at 0x2710..."] ++ ["Connecting..."]))
  = [59; 35].
Proof.
  apply (fixed_percent_lines_are_always_reported 4096 10000
           ["Writing at 0x2710..."] "Connecting...");
    [discriminate | reflexivity].
Defined.

(** The same in the primary backend, at 65 percent. *)
Lemma platformio_line_connecting (cb : bool) (fs p : Z) (line : string) :
  Py.contains writing_marker line = false ->
  Py.contains "Hash of data verified" line = false ->
  Py.contains "Hard resetting" line = false ->
  Py.contains "Connecting" line = true ->
  platformio_line cb fs p line = (p, callback cb 65 "Connecting to ESP32...").
Proof.
  intros H1 H2 H3 H4. unfold platformio_line. rewrite H1, H2, H3, H4.
  reflexivity.
Qed.

(** C7, as stated, fails in the primary backend, which reports the
    verified hash at 100 percent. *)
Lemma primary_reports_hash_at_100 :
  percents (platformio_session true 204800 ["Hash of data verified."]) <> [95].
Proof. vm_compute. discriminate. Qed.

(** C7, amended. A line with ['Hash of data verified'] and without the
    write marker is reported at 95 percent as ["Verifying flash..."] by
    the fallback backend, and at 100 percent as ["Flash completed!"] by
    the primary backend. *)
Theorem hash_verified_line
    (cb : bool) (flash_address firmware_size p : Z) (line : string) :
  Py.contains writing_marker line = false ->
  Py.contains "Hash of data verified" line = true ->
  esptool_line cb flash_address firmware_size p line
  = (p, callback cb 95 "Verifying flash...")
  /\ platformio_line cb firmware_size p line
     = (p, callback cb 100 "Flash completed!").
Proof.
  intros H1 H2. unfold esptool_line, platformio_line. rewrite H1, H2.
  split; reflexivity.
Qed.

Lemma hash_verified_line_witness :
  esptool_line true 4096 10000 40 "Hash of data verified."
  = (40, [Progress 95 "Verifying flash..."])
  /\ platformio_line true 10000 40 "Hash of data verified."
     = (40, [Progress 100 "Flash completed!"]).
Proof.
  apply (hash_verified_line true 4096 10000 40 "Hash of data verified.");
    reflexivity.
Defined.

(** C3 fails where the primary backend writes a segment below the
    application: with a firmware of 204800 bytes, the line for the
    bootloader block at 0x1000 is reported at -30 percent. *)
Theorem bootloader_block_reported_below_zero :
  platformio_line true 204800 0 "Writing at 0x00001000... (10 %)"
  = (0, [Progress (-30) "Writing firmware... -30%"])
  /\ percents
       (trace (flash_firmware Sample.bench true "COM3" "firmware.bin" 460800
                 65536 false true (Some "bootloader.bin") (Some "partitions.bin")))
     = [0; 5; 15; 0; 65; -30; 0; 64; 100; 100].
Proof. split; vm_compute; reflexivity. Qed.

(** C5, as stated, fails in two ways. Below the base address the code
    truncates toward zero where the claim takes the floor: one byte
    below, it reports 0, not -1. And the quotient is a binary64 float:
    29 bytes of 100 are reported at 28 percent, not 29. *)
Lemma float_percent_differs_from_exact :
  percents (snd (esptool_line true 4096 10000 40 "Writing at 0xfff..."))
  <> [exact_percent 4095 4096 10000]
  /\ percents (snd (esptool_line true 0 100 40 "Writing at 0x1d..."))
     <> [exact_percent 29 0 100].
Proof. split; vm_compute; discriminate. Qed.

(** C5, amended. For a line with the write marker whose address [a]
    parses and is not below the flash address, and a firmware size that
    is positive, the fallback backend reports [min(q, 99)], where [q] is
    [(a - flash_address) / firmware_size * 100] computed in binary64 and
    truncated to an integer; the percent is between 0 and 99. When that
    value does not fit a float the line is handled as one whose address
    is malformed. *)
Theorem writing_percent_is_float_percent
    (cb : bool) (flash_address firmware_size p a : Z) (line : string) :
  Py.contains writing_marker line = true ->
  parse_addr line = Some a ->
  0 < firmware_size ->
  flash_address <= a ->
  esptool_line cb flash_address firmware_size p line
  = match Py.percent_of (a - flash_address) firmware_size with
    | Some q => (p, callback cb (Z.min q 99) (writing_msg (Z.min q 99)))
    | None => step cb p
    end
  /\ match Py.percent_of (a - flash_address) firmware_size with
     | Some q => 0 <= Z.min q 99 <= 99
     | None => True
     end.
Proof.
  intros Hc Ha Hs Hb. split.
  - unfold esptool_line, esptool_try. rewrite Hc, Ha.
    apply Z.gtb_lt in Hs. rewrite Hs.
    destruct (Py.percent_of (a - flash_address) firmware_size); reflexivity.
  - destruct (Py.percent_of (a - flash_address) firmware_size) as [q | ] eqn:E;
      [ | exact I].
    assert (0 <= q)
      by (apply (percent_of_nonneg (a - flash_address) firmware_size q);
          [lia | exact Hs | exact E]).
    lia.
Qed.

Lemma writing_percent_is_float_percent_witness :
  esptool_line true 4096 10000 40 "Writing at 0x2710..."
  = (40, [Progress 59 "Writing firmware... 59%"]).
Proof.
  assert (Hb : 4096 <= 10000) by discriminate.
  pose proof (proj1 (writing_percent_is_float_percent true 4096 10000 40 10000
                       "Writing at 0x2710..." eq_refl eq_refl eq_refl Hb)) as E.
  vm_compute in E. vm_compute. exact E.
Defined.

(** The primary backend computes the same from the fixed base 0x10000,
    whatever the address. *)
Lemma platformio_writing_percent (cb : bool) (fs p a : Z) (line : string) :
  Py.contains writing_marker line = true ->
  parse_addr line = Some a ->
  0 < fs ->
  platformio_line cb fs p line
  = match Py.percent_of (a - 65536) fs with
    | Some q => (p, callback cb (Z.min q 99) (writing_msg (Z.min q 99)))
    | None => step cb p
    end.
Proof.
  intros Hc Ha Hs. unfold platformio_line, platformio_try. rewrite Hc, Ha.
  apply Z.gtb_lt in Hs. rewrite Hs.
  destruct (Py.percent_of (a - 65536) fs); reflexivity.
Qed.

(** C6, as stated, fails: the step is taken from the local [progress],
    which the reports of parsed addresses leave alone. After a report of
    59 percent a malformed line is reported at 42 in the fallback
    backend, whose [progress] starts at 40. *)
Lemma step_is_not_from_last_report :
  percents (esptool_session true 4096 10000
              ["Writing at 0x2710..."; "Writing at 0xZZ..."])
  = [59; 42]
  /\ 42 <> Z.min (59 + 2) 99.
Proof. split; [vm_compute; reflexivity | discriminate]. Qed.

(** C6, amended. A line with the write marker whose address does not
    parse raises nothing in either backend: [progress] becomes
    [min(progress + 2, 99)] and that value is reported. [progress] is
    the local counter of the loop, not the percent last reported. *)
Theorem malformed_address_steps
    (cb : bool) (flash_address firmware_size p : Z) (line : string) :
  Py.contains writing_marker line = true ->
  parse_addr line = None ->
  esptool_line cb flash_address firmware_size p line
  = (Z.min (p + 2) 99, callback cb (Z.min (p + 2) 99) "Writing firmware...")
  /\ platformio_line cb firmware_size p line
     = (Z.min (p + 2) 99, callback cb (Z.min (p + 2) 99) "Writing firmware...").
Proof.
  intros Hc Ha.
  unfold esptool_line, esptool_try, platformio_line, platformio_try.
  rewrite Hc, Ha. split; reflexivity.
Qed.

Lemma malformed_address_steps_witness :
  esptool_line true 4096 10000 40 "Writing at 0xZZ..."
  = (42, [Progress 42 "Writing firmware..."])
  /\ platformio_line true 10000 40 "Writing at 0xZZ..."
     = (42, [Progress 42 "Writing firmware..."]).
Proof.
  apply (malformed_address_steps true 4096 10000 40 "Writing at 0xZZ...");
    reflexivity.
Defined.

(** ** Lines of the shape the tool prints *)

Lemma append_assoc (a b c : string) :
  ((a ++ b) ++ c)%string = (a ++ (b ++ c))%string.
Proof. induction a as [ | x a IH]; simpl; [ | rewrite IH]; reflexivity. Qed.

Lemma append_empty (s : string) : (s ++ "")%string = s.
Proof. induction s as [ | c s IH]; simpl; [ | rewrite IH]; reflexivity. Qed.

Lemma prefix_append (sep t : string) : prefix sep (sep ++ t) = true.
Proof.
  induction sep as [ | a sep IH]; simpl; [destruct t; reflexivity | ].
  destruct (ascii_dec a a) as [_ | H]; [exact IH | contradiction].
Qed.

Lemma prefix_other_char (a c : ascii) (sep t : string) :
  Ascii.eqb a c = false -> prefix (String a sep) (String c t) = false.
Proof.
  intros H. simpl. destruct (ascii_dec a c) as [E | _]; [ | reflexivity].
  subst. rewrite Ascii.eqb_refl in H. discriminate.
Qed.

Lemma contains_append (sep pre t : string) :
  Py.contains sep (pre ++ sep ++ t) = true.
Proof.
  induction pre as [ | c pre IH].
  - change ("" ++ sep ++ t)%string with (sep ++ t)%string.
    destruct (sep ++ t)%string eqn:E; cbn [Py.contains]; rewrite <- E, prefix_append;
      reflexivity.
  - cbn [append Py.contains]. rewrite IH. apply orb_true_r.
Qed.

(** Passing over the rest of a separator. *)
Lemma split_go_skip (sep u t cur : string) :
  Py.split_go sep (String.length u) cur (u ++ t) = Py.split_go sep 0 cur t.
Proof.
  induction u as [ | c u IH]; [reflexivity | exact IH].
Qed.

(** Passing over characters that cannot start a separator. *)
Lemma split_go_pass (a : ascii) (sep u t : string) :
  avoids a u = true ->
  forall cur,
    Py.split_go (String a sep) 0 cur (u ++ t)
    = Py.split_go (String a sep) 0 (cur ++ u) t.
Proof.
  induction u as [ | c u IH]; intros Hu cur.
  - simpl. rewrite append_empty. reflexivity.
  - simpl in Hu. apply andb_prop in Hu. destruct Hu as [Hc Hu].
    apply negb_true_iff in Hc.
    cbn [append Py.split_go]. rewrite (prefix_other_char a c sep _ Hc).
    rewrite (IH Hu). rewrite append_assoc. reflexivity.
Qed.

Lemma split_go_first_at_sep (sep t cur : string) :
  prefix sep t = true ->
  exists l, Py.split_go sep 0 cur t = cur :: l.
Proof.
  intros H. destruct t as [ | c t]; cbn [Py.split_go].
  - exists []. reflexivity.
  - rewrite H. eexists. reflexivity.
Qed.

(** The first piece starts with what has been collected. *)
Lemma split_go_first_extends (sep : string) (s : string) :
  forall cur, exists u l, Py.split_go sep 0 cur s = (cur ++ u)%string :: l.
Proof.
  induction s as [ | c s IH]; intros cur; cbn [Py.split_go].
  - exists "", []. rewrite append_empty. reflexivity.
  - destruct (prefix sep (String c s)).
    + exists "". eexists. rewrite append_empty. reflexivity.
    + destruct (IH (cur ++ String c "")%string) as (u & l & Hu).
      exists (String c u), l. rewrite Hu, append_assoc. reflexivity.
Qed.

(** What a hexadecimal digit is not. *)
Lemma hex_digit_plain (c : ascii) :
  match ascii_to_digit c with
  | Some _ =>
      Py.int_space c = false
      /\ Ascii.eqb c "_" = false
      /\ Ascii.eqb "W" c = false
      /\ Ascii.eqb "." c = false
      /\ Ascii.eqb c "+" = false
      /\ Ascii.eqb c "-" = false
      /\ Ascii.eqb c "x" || Ascii.eqb c "X" = false
  | None => True
  end.
Proof.
  destruct c as [[] [] [] [] [] [] [] []]; vm_compute; try exact I;
    repeat split.
Qed.

Lemma take_sign_other (c : ascii) (r : string) :
  Ascii.eqb c "+" = false -> Ascii.eqb c "-" = false ->
  Py.take_sign (String c r) = (false, String c r).
Proof.
  destruct c as [[] [] [] [] [] [] [] []]; intros H1 H2;
    first [reflexivity | discriminate H1 | discriminate H2].
Qed.

Lemma take_0x_other (c x : ascii) (r : string) :
  Ascii.eqb x "x" || Ascii.eqb x "X" = false ->
  Py.take_0x (String c (String x r)) = String c (String x r).
Proof.
  intros H. destruct c as [[] [] [] [] [] [] [] []]; try reflexivity.
  unfold Py.take_0x. rewrite H. reflexivity.
Qed.

Lemma take_0x_single (c : ascii) : Py.take_0x (String c "") = String c "".
Proof. destruct c as [[] [] [] [] [] [] [] []]; reflexivity. Qed.

Lemma all_hex_avoids (a : ascii) (h : string) :
  ascii_to_digit a = None -> all_hex h = true -> avoids a h = true.
Proof.
  intros Ha. induction h as [ | c h IH]; [reflexivity | ].
  simpl. destruct (ascii_to_digit c) as [d | ] eqn:E; [ | discriminate].
  intros Hh. rewrite (IH Hh), andb_true_r. apply negb_true_iff.
  destruct (Ascii.eqb_spec a c) as [-> | _]; [congruence | reflexivity].
Qed.

Lemma avoids_append (a : ascii) (u v : string) :
  avoids a (u ++ v) = avoids a u && avoids a v.
Proof.
  induction u as [ | c u IH]; [reflexivity | ].
  cbn [append avoids]. rewrite IH, andb_assoc. reflexivity.
Qed.

Lemma scan16_all_hex (h : string) :
  all_hex h = true ->
  forall acc, Py.scan16 false acc h = Some (HexString.Raw.to_N h acc, "").
Proof.
  induction h as [ | c h IH]; intros Hh acc; [reflexivity | ].
  simpl in Hh |- *. pose proof (hex_digit_plain c) as Hc.
  destruct (ascii_to_digit c) as [d | ]; [ | discriminate].
  destruct Hc as (_ & Hu & _). rewrite Hu. apply IH, Hh.
Qed.

(** [int(h, 16)] of a non-empty string of hexadecimal digits is the
    number it denotes. *)
Lemma int16_all_hex (h : string) :
  h <> "" -> all_hex h = true -> Py.int16 h = Some (hex_value h).
Proof.
  intros Hne Hh. destruct h as [ | c h]; [contradiction | ].
  pose proof (hex_digit_plain c) as Hc.
  pose proof (scan16_all_hex _ Hh 0%N) as Hscan.
  simpl in Hh.
  destruct (ascii_to_digit c) as [d | ] eqn:Ed; [ | discriminate].
  destruct Hc as (Hsp & _ & _ & _ & Hplus & Hminus & _).
  unfold Py.int16. cbn [Py.skip_space]. rewrite Hsp.
  rewrite (take_sign_other c h Hplus Hminus).
  assert (H0x : Py.take_0x (String c h) = String c h).
  { destruct h as [ | x r]; [apply take_0x_single | ].
    apply take_0x_other. simpl in Hh. pose proof (hex_digit_plain x) as Hx.
    destruct (ascii_to_digit x); [ | discriminate].
    destruct Hx as (_ & _ & _ & _ & _ & _ & Hx). exact Hx. }
  rewrite H0x, Ed, Hscan. reflexivity.
Qed.

(** The address of a line [pre ++ "Writing at 0x" ++ h ++ "..." ++ rest]
    where [h] is a non-empty string of hexadecimal digits and no [W]
    occurs in [pre]. *)
Lemma parse_addr_standard_line (pre h rest : string) :
  avoids "W" pre = true -> h <> "" -> all_hex h = true ->
  parse_addr (pre ++ writing_marker ++ h ++ "..." ++ rest)%string
  = Some (hex_value h).
Proof.
  intros Hpre Hne Hh. unfold parse_addr, Py.split.
  unfold writing_marker at 1.
  rewrite (split_go_pass "W" _ pre _ Hpre "").
  change ("" ++ pre)%string with pre.
  assert (Hsecond :
    nth_error
      (Py.split_go writing_marker 0 pre
         (writing_marker ++ h ++ "..." ++ rest)) 1
    = nth_error
        (Py.split_go writing_marker 0 ""
           (h ++ "..." ++ rest)) 0).
  { remember (h ++ "..." ++ rest)%string as t.
    change (writing_marker ++ t)%string
      with (String "W" ("riting at 0x" ++ t)).
    cbn [Py.split_go]. 
    change (String "W" ("riting at 0x" ++ t)) with (writing_marker ++ t)%string.
    rewrite prefix_append. cbn [nth_error].
    change (String.length writing_marker - 1)%nat
      with (String.length "riting at 0x").
    rewrite (split_go_skip writing_marker "riting at 0x" t ""). reflexivity. }
  change (String "W" "riting at 0x") with writing_marker.
  rewrite Hsecond.
  rewrite <- (append_assoc h "..." rest).
  assert (Hw : avoids "W" (h ++ "...") = true).
  { rewrite avoids_append, (all_hex_avoids "W" h eq_refl Hh). reflexivity. }
  unfold writing_marker at 1.
  rewrite (split_go_pass "W" _ (h ++ "...") rest Hw "").
  destruct (split_go_first_extends (String "W" "riting at 0x") rest
              ("" ++ h ++ "...")) as (u & l & Hu).
  rewrite Hu. cbn [nth_error].
  change ("" ++ h ++ "...")%string with (h ++ "...")%string.
  rewrite append_assoc.
  rewrite (split_go_pass "." ".." h ("..." ++ u)
             (all_hex_avoids "." h eq_refl Hh) "").
  destruct (split_go_first_at_sep "..." ("..." ++ u) ("" ++ h)
              (prefix_append "..." u)) as [l' Hl'].
  rewrite Hl'. cbn [nth_error].
  apply int16_all_hex; assumption.
Qed.

(** [int] rejects a string that starts with a character which is
    neither a hexadecimal digit, nor white space, nor a sign. *)
Lemma int16_rejects (c : ascii) (r : string) :
  ascii_to_digit c = None -> Py.int_space c = false ->
  Ascii.eqb c "+" = false -> Ascii.eqb c "-" = false ->
  Py.int16 (String c r) = None.
Proof.
  intros Hd Hsp Hplus Hminus. unfold Py.int16. cbn [Py.skip_space].
  rewrite Hsp, (take_sign_other c r Hplus Hminus).
  assert (H0x : Py.take_0x (String c r) = String c r).
  { destruct c as [[] [] [] [] [] [] [] []]; try reflexivity.
    vm_compute in Hd. discriminate Hd. }
  rewrite H0x, Hd. reflexivity.
Qed.

(** The address of a line [pre ++ "Writing at 0x" ++ c :: t] is
    malformed when [c] is such a character (and neither [W] nor a
    full stop, which the two splits look for). *)
Lemma parse_addr_malformed_line (pre t : string) (c : ascii) :
  avoids "W" pre = true ->
  ascii_to_digit c = None -> Py.int_space c = false ->
  Ascii.eqb c "+" = false -> Ascii.eqb c "-" = false ->
  Ascii.eqb "W" c = false -> Ascii.eqb "." c = false ->
  parse_addr (pre ++ writing_marker ++ String c t)%string = None.
Proof.
  intros Hpre Hd Hsp Hplus Hminus HW Hdot. unfold parse_addr, Py.split.
  unfold writing_marker at 1.
  rewrite (split_go_pass "W" _ pre _ Hpre "").
  change ("" ++ pre)%string with pre.
  change (String "W" "riting at 0x") with writing_marker.
  change (writing_marker ++ String c t)%string
    with (String "W" ("riting at 0x" ++ String c t)).
  cbn [Py.split_go].
  change (String "W" ("riting at 0x" ++ String c t))
    with (writing_marker ++ String c t)%string.
  rewrite prefix_append. cbn [nth_error].
  change (String.length writing_marker - 1)%nat
    with (String.length "riting at 0x").
  rewrite (split_go_skip writing_marker "riting at 0x" (String c t) "").
  unfold writing_marker at 1. cbn [Py.split_go].
  rewrite (prefix_other_char "W" c _ _ HW).
  match goal with
  | |- context [Py.split_go ?sep 0 ?cur t] =>
      destruct (split_go_first_extends sep t cur) as (u & l & Hu); rewrite Hu
  end.
  change (("" ++ String c "") ++ u)%string with (String c u).
  cbn [Py.split_go]. rewrite (prefix_other_char "." c _ _ Hdot).
  match goal with
  | |- context [Py.split_go ?sep 0 ?cur u] =>
      destruct (split_go_first_extends sep u cur) as (v & l' & Hv); rewrite Hv
  end.
  change (("" ++ String c "") ++ v)%string with (String c v).
  apply int16_rejects; assumption.
Qed.

(** What the fallback backend does with a line whose address parses,
    when the firmware size is known. *)
Lemma esptool_line_parsed (cb : bool) (fa fs p a : Z) (line : string) :
  Py.contains writing_marker line = true ->
  parse_addr line = Some a ->
  0 < fs ->
  esptool_line cb fa fs p line
  = match Py.percent_of (a - fa) fs with
    | Some q => (p, callback cb (Z.min q 99) (writing_msg (Z.min q 99)))
    | None => step cb p
    end.
Proof.
  intros Hc Ha Hs. unfold esptool_line, esptool_try. rewrite Hc, Ha.
  apply Z.gtb_lt in Hs. rewrite Hs.
  destruct (Py.percent_of (a - fa) fs); reflexivity.
Qed.

(** The lines the tool prints while it writes: in the fallback backend
    the percent is computed from the number the digits denote. *)
Lemma esptool_standard_line (cb : bool) (fa fs p : Z) (pre h rest : string) :
  avoids "W" pre = true -> h <> "" -> all_hex h = true -> 0 < fs ->
  esptool_line cb fa fs p (pre ++ writing_marker ++ h ++ "..." ++ rest)
  = match Py.percent_of (hex_value h - fa) fs with
    | Some q => (p, callback cb (Z.min q 99) (writing_msg (Z.min q 99)))
    | None => step cb p
    end.
Proof.
  intros Hpre Hne Hh Hs. apply esptool_line_parsed.
  - apply contains_append.
  - apply parse_addr_standard_line; assumption.
  - exact Hs.
Qed.

(** And so in the primary backend, from the fixed base. *)
Lemma platformio_standard_line (cb : bool) (fs p : Z) (pre h rest : string) :
  avoids "W" pre = true -> h <> "" -> all_hex h = true -> 0 < fs ->
  platformio_line cb fs p (pre ++ writing_marker ++ h ++ "..." ++ rest)
  = match Py.percent_of (hex_value h - 65536) fs with
    | Some q => (p, callback cb (Z.min q 99) (writing_msg (Z.min q 99)))
    | None => step cb p
    end.
Proof.
  intros Hpre Hne Hh Hs. apply platformio_writing_percent.
  - apply contains_append.
  - apply parse_addr_standard_line; assumption.
  - exact Hs.
Qed.

(** A line whose address starts with a character that cannot start a
    number is a step in both backends. *)
Lemma malformed_line_is_a_step
    (cb : bool) (fa fs p : Z) (pre t : string) (c : ascii) :
  avoids "W" pre = true ->
  ascii_to_digit c = None -> Py.int_space c = false ->
  Ascii.eqb c "+" = false -> Ascii.eqb c "-" = false ->
  Ascii.eqb "W" c = false -> Ascii.eqb "." c = false ->
  esptool_line cb fa fs p (pre ++ writing_marker ++ String c t) = step cb p
  /\ platformio_line cb fs p (pre ++ writing_marker ++ String c t) = step cb p.
Proof.
  intros Hpre Hd Hsp Hplus Hminus HW Hdot.
  pose proof (parse_addr_malformed_line pre t c Hpre Hd Hsp Hplus Hminus HW Hdot)
    as Hp.
  pose proof (contains_append writing_marker pre (String c t)) as Hc.
  unfold esptool_line, esptool_try, platformio_line, platformio_try.
  rewrite Hc, Hp. split; reflexivity.
Qed.

(** ** Further facts *)

(** For firmware sizes up to 101 bytes and every count of written
    bytes up to the size, the float percentage is the exact floor, or
    one less where the exact quotient is a whole number. *)
Example float_percent_close_to_exact_small :
  forallb
    (fun b => forallb (fun a => close_to_exact a (b + 1))
                (upto (Z.to_nat (b + 1))))
    (upto 100) = true.
Proof. vm_compute. reflexivity. Qed.

(** The test of [flash_firmware] reads the message: a failed erase of
    the primary backend whose error text has the words in it sends
    [flash_firmware] to the fallback as well. *)
Example erase_failure_text_triggers_fallback :
  result (_flash_with_platformio Sample.erase_complains true "COM3"
            "firmware.bin" 460800 65536 true true None None)
  = Returns (failed ("PlatformIO erase failed: "
                     ++ "Error: package PlatformIO not found in registry"))
  /\ attempts Fallback
       (trace (flash_firmware Sample.erase_complains true "COM3"
                 "firmware.bin" 460800 65536 true true None None)) = 1%nat.
Proof. split; vm_compute; reflexivity. Qed.

(** Every percent [erase_flash] reports is at most 100. *)
Lemma erase_flash_percent_le_100 (w : world) (cb : bool) (port : string) (baud : Z) :
  all_events percent_le_100 (erase_flash w cb port baud).
Proof.
  unfold erase_flash.
  repeat first
    [ apply all_tell; exact I
    | apply all_bind; [ | intros ]
    | apply all_try_except; [ | intros ]
    | apply all_report; simpl; lia
    | apply all_run; exact I
    | apply all_ret
    | apply all_lift
    | match goal with
      | |- all_events _ (match ?x with Some _ => _ | None => _ end) => destruct x
      | |- all_events _ (if ?b then _ else _) => destruct b
      end ].
Qed.

(** The run on the bench, end to end: the percents go down more than
    once. *)
Example bench_percents_go_down :
  nondecreasing
    (percents
       (trace (flash_firmware Sample.bench true "COM3" "firmware.bin" 460800
                 65536 false true (Some "bootloader.bin")
                 (Some "partitions.bin")))) = false.
Proof. vm_compute. reflexivity. Qed.

(** * Further properties of the controller *)

(** ** What is returned *)











(** ** Reasoning on traces and outcomes together *)

Lemma post_bind {A B} (Q : list event -> outcome B -> Prop)
    (m : M A) (f : A -> M B) :
  post (fun t1 o1 =>
          match o1 with
          | Returns a => post (fun t2 o2 => Q (t1 ++ t2)%list o2) (f a)
          | Raises e => Q t1 (Raises e)
          end) m ->
  post Q (bind m f).
Proof.
  unfold post. destruct m as [t [a | e]]; simpl; [ | auto].
  destruct (f a) as [t' o']. simpl. auto.
Qed.

Lemma post_try_except {A} (Q : list event -> outcome A -> Prop)
    (m : M A) (h : string -> M A) :
  post (fun t1 o1 =>
          match o1 with
          | Returns a => Q t1 (Returns a)
          | Raises e => post (fun t2 o2 => Q (t1 ++ t2)%list o2) (h e)
          end) m ->
  post Q (try_except m h).
Proof.
  unfold post. destruct m as [t [a | e]]; simpl; [auto | ].
  destruct (h e) as [t' o']. simpl. auto.
Qed.

Lemma post_ret {A} (Q : list event -> outcome A -> Prop) (a : A) :
  Q [] (Returns a) -> post Q (ret a).
Proof. intros H. exact H. Qed.

Lemma post_lift {A} (Q : list event -> outcome A -> Prop) (o : outcome A) :
  Q [] o -> post Q (lift o).
Proof. intros H. exact H. Qed.

Lemma post_tell (Q : list event -> outcome unit -> Prop) (e : event) :
  Q [e] (Returns tt) -> post Q (tell e).
Proof. intros H. exact H. Qed.

Lemma post_report (Q : list event -> outcome unit -> Prop)
    (cb : bool) (p : Z) (msg : string) :
  Q (callback cb p msg) (Returns tt) -> post Q (report cb p msg).
Proof. intros H. exact H. Qed.

Lemma post_run (Q : list event -> outcome completed -> Prop)
    (w : world) (cmd : list string) :
  Q [Launch cmd] (subprocess_run w cmd) -> post Q (run w cmd).
Proof. intros H. exact H. Qed.

Lemma post_popen (Q : list event -> outcome child -> Prop)
    (w : world) (cmd : list string) :
  Q [Launch cmd] (subprocess_popen w cmd) -> post Q (popen w cmd).
Proof. intros H. exact H. Qed.

Lemma post_read_all (Q : list event -> outcome (list string) -> Prop)
    (handle : Z -> string -> Z * list event) (p0 : Z) (reads : list string) :
  Q (snd (read_loop handle (mkSession p0 []) reads))
    (Returns (output_lines (fst (read_loop handle (mkSession p0 []) reads)))) ->
  post Q (read_all handle p0 reads).
Proof.
  unfold post, read_all.
  destruct (read_loop handle (mkSession p0 []) reads). auto.
Qed.

(** One step of the calculus; what the world answers is taken apart. *)
Ltac post_step :=
  match goal with
  | |- post _ (try_except _ _) => apply post_try_except
  | |- post _ (bind _ _) => apply post_bind
  | |- post _ (ret _) => apply post_ret
  | |- post _ (lift ?o) => apply post_lift; destruct o eqn:?
  | |- post _ (tell _) => apply post_tell
  | |- post _ (report _ _ _) => apply post_report
  | |- post _ (run ?w ?cmd) =>
      apply post_run; destruct (subprocess_run w cmd) eqn:?
  | |- post _ (popen ?w ?cmd) =>
      apply post_popen; destruct (subprocess_popen w cmd) eqn:?
  | |- post _ (read_all _ _ _) => apply post_read_all
  | |- post _ (if ?b then _ else _) => destruct b eqn:?
  | |- post _ (match ?x with Some _ => _ | None => _ end) => destruct x eqn:?
  end.

Lemma launches_app (t1 t2 : list event) :
  launches (t1 ++ t2) = (launches t1 ++ launches t2)%list.
Proof.
  induction t1 as [ | e t1 IH]; [reflexivity | ].
  destruct e; simpl; rewrite IH; reflexivity.
Qed.

Lemma launches_callback (cb : bool) (p : Z) (msg : string) :
  launches (callback cb p msg) = [].
Proof. destruct cb; reflexivity. Qed.

Ltac in_launches :=
  repeat (progress (rewrite ?launches_app, ?launches_callback; simpl));
  repeat rewrite in_app_iff; simpl; tauto.

Lemma platformio_success_written w cb port fw baud fa erase verify bl pt :
  post (fun t o =>
          forall r, o = Returns r -> success r = true ->
          exists cmd c,
            platformio_write_cmd w port fw baud bl pt = Returns cmd
            /\ subprocess_popen w cmd = Returns c
            /\ exit_status c = 0
            /\ In cmd (launches t))
    (_flash_with_platformio w cb port fw baud fa erase verify bl pt).
Proof.
  unfold _flash_with_platformio, pio_detect, pio_erase.
  repeat post_step.
  all: intros r Hr Hs; inversion Hr; subst; try discriminate Hs.
  all: do 2 eexists; split; [reflexivity | ];
    split; [eassumption | split; [apply Z.eqb_eq; assumption | ]].
  all: in_launches.
Qed.

Lemma esptool_success_written w cb port fw baud fa erase verify :
  post (fun t o =>
          forall r, o = Returns r -> success r = true ->
          exists c,
            subprocess_popen w (esptool_write_cmd w port fw baud fa) = Returns c
            /\ exit_status c = 0
            /\ In (esptool_write_cmd w port fw baud fa) (launches t))
    (_flash_with_esptool_subprocess w cb port fw baud fa erase verify).
Proof.
  unfold _flash_with_esptool_subprocess, esptool_erase.
  repeat post_step.
  all: intros r Hr Hs; inversion Hr; subst; try discriminate Hs.
  all: eexists; split; [reflexivity | split; [apply Z.eqb_eq; assumption | ]].
  all: in_launches.
Qed.

(** X3. [flash_firmware] reports success only when the write command
    of one of the backends was launched and the process exited with
    status 0. *)
Theorem success_means_written
    (w : world) (cb : bool) (port firmware_path : string)
    (baud_rate flash_address : Z) (erase_all verify : bool)
    (bootloader_path partitions_path : option string) (r : FlashResult) :
  result (flash_firmware w cb port firmware_path baud_rate flash_address
            erase_all verify bootloader_path partitions_path) = Returns r ->
  success r = true ->
  exists cmd c,
    (platformio_write_cmd w port firmware_path baud_rate bootloader_path
       partitions_path = Returns cmd
     \/ cmd = esptool_write_cmd w port firmware_path baud_rate flash_address)
    /\ subprocess_popen w cmd = Returns c
    /\ exit_status c = 0
    /\ In cmd
         (launches
            (trace (flash_firmware w cb port firmware_path baud_rate
                      flash_address erase_all verify bootloader_path
                      partitions_path))).
Proof.
  pose proof (platformio_success_written w cb port firmware_path baud_rate
                flash_address erase_all verify bootloader_path partitions_path)
    as S1.
  pose proof (esptool_success_written w cb port firmware_path baud_rate
                flash_address erase_all verify) as S2.
  unfold post in S1, S2. unfold flash_firmware.
  destruct (path_exists w firmware_path) as [[ | ] | e0];
    unfold lift; cbn [bind negb]; cbv iota.
  - destruct (_flash_with_platformio w cb port firmware_path baud_rate
                flash_address erase_all verify bootloader_path partitions_path)
      as [t1 [r1 | e1]];
      destruct (_flash_with_esptool_subprocess w cb port firmware_path
                  baud_rate flash_address erase_all verify) as [t2 [r2 | e2]];
      simpl in S1, S2;
      unfold report, tell, ret, bind, try_except, trace, result; simpl;
      try destruct (tool_unavailable r1); simpl;
      intros Hr Hs; inversion Hr; subst; simpl in Hs; try discriminate Hs.
    all: first
      [ destruct (S2 _ eq_refl Hs) as (c & Hc & He & Hin);
        eexists; exists c; split; [right; reflexivity | ]
      | destruct (S1 _ eq_refl Hs) as (cmd & c & Hcmd & Hc & He & Hin);
        exists cmd, c; split; [left; exact Hcmd | ] ];
      (split; [exact Hc | split; [exact He | ]]);
      in_launches.
  - simpl. intros Hr Hs. inversion Hr; subst. discriminate Hs.
  - simpl. intros Hr Hs. inversion Hr; subst. discriminate Hs.
Qed.

Lemma success_means_written_witness :
  exists cmd c,
    (platformio_write_cmd Sample.bench "COM3" "firmware.bin" 460800
       None None = Returns cmd
     \/ cmd = esptool_write_cmd Sample.bench "COM3" "firmware.bin" 460800 4096)
    /\ subprocess_popen Sample.bench cmd = Returns c
    /\ exit_status c = 0
    /\ In cmd
         (launches
            (trace (flash_firmware Sample.bench true "COM3" "firmware.bin"
                      460800 4096 false true None None))).
Proof.
  apply (success_means_written Sample.bench true "COM3" "firmware.bin" 460800
           4096 false true None None
           (mkFlashResult true "Firmware flashed successfully with PlatformIO"
              7 None None));
    reflexivity.
Defined.

(** What the world is known to answer settles the cases. *)
Ltac known_answers :=
  repeat match goal with
         | H : Returns _ = Returns _ |- _ => inversion H; subst; clear H
         | H : Raises _ = Raises _ |- _ => inversion H; subst; clear H
         | H : Returns _ = Raises _ |- _ => discriminate H
         | H : Raises _ = Returns _ |- _ => discriminate H
         end.

(** X5. When [pio] cannot be started, so that [subprocess.run] raises,
    the primary backend answers with the text of the exception; unless
    that text passes the test for the fallback, [flash_firmware] returns
    this failure without calling the fallback backend. *)
Theorem missing_pio_gets_no_fallback
    (w : world) (cb : bool) (port firmware_path : string)
    (baud_rate flash_address : Z) (erase_all verify : bool)
    (bootloader_path partitions_path : option string) (e : string) :
  path_exists w firmware_path = Returns true ->
  subprocess_run w pio_check_cmd = Raises e ->
  tool_unavailable (failed ("PlatformIO error: " ++ e)) = false ->
  flash_firmware w cb port firmware_path baud_rate flash_address erase_all
    verify bootloader_path partitions_path
  = ((callback cb 0 "Connecting to device..."
      ++ [Attempt Primary; Launch pio_check_cmd])%list,
     Returns (mkFlashResult false ("PlatformIO error: " ++ e)
                (clock w 1 - clock w 0) None None)).
Proof.
  intros Hex Hrun Hno.
  assert (Hprim :
    _flash_with_platformio w cb port firmware_path baud_rate flash_address
      erase_all verify bootloader_path partitions_path
    = ([Launch pio_check_cmd], Returns (failed ("PlatformIO error: " ++ e)))).
  { unfold _flash_with_platformio, run, tell, lift, bind, try_except.
    rewrite Hrun. reflexivity. }
  unfold flash_firmware. rewrite Hex, Hprim.
  unfold report, tell, ret, bind, try_except.
  cbn -[tool_unavailable append]. rewrite Hno.
  cbn -[append]. rewrite ?app_nil_r. reflexivity.
Qed.

(** X4. When the erase step of the primary backend fails, nothing is
    written: [flash_firmware] has launched the version check, the chip
    detection and the erase command, no write command and no fallback,
    and it returns the failure with the standard error of the erase
    command. (The text of that error is taken not to pass the test for
    the fallback.) *)
Theorem failed_erase_writes_nothing
    (w : world) (cb : bool) (port firmware_path : string)
    (baud_rate flash_address : Z) (verify : bool)
    (bootloader_path partitions_path : option string) (c0 ce : completed) :
  path_exists w firmware_path = Returns true ->
  subprocess_run w pio_check_cmd = Returns c0 ->
  returncode c0 = 0 ->
  subprocess_run w (pio_erase_cmd port baud_rate) = Returns ce ->
  returncode ce <> 0 ->
  tool_unavailable (failed ("PlatformIO erase failed: " ++ stderr ce)) = false ->
  let flash :=
    flash_firmware w cb port firmware_path baud_rate flash_address true verify
      bootloader_path partitions_path in
  result flash
  = Returns (mkFlashResult false ("PlatformIO erase failed: " ++ stderr ce)
               (clock w 1 - clock w 0) None None)
  /\ launches (trace flash)
     = [pio_check_cmd; pio_detect_cmd port; pio_erase_cmd port baud_rate]
  /\ attempts Fallback (trace flash) = 0%nat.
Proof.
  intros Hex Hcheck Hrc0 Herase Hrce Hno flash. subst flash.
  apply Z.eqb_neq in Hrce.
  change (mkFlashResult false ("PlatformIO erase failed: " ++ stderr ce)
            (clock w 1 - clock w 0) None None)
    with (set_duration (failed ("PlatformIO erase failed: " ++ stderr ce))
            (clock w 1 - clock w 0)).
  remember (failed ("PlatformIO erase failed: " ++ stderr ce)) as r1 eqn:Hr1.
  assert (Hprim :
    post (fun t o =>
            o = Returns r1
            /\ launches t
               = [pio_check_cmd; pio_detect_cmd port; pio_erase_cmd port baud_rate]
            /\ attempts Fallback t = 0%nat)
      (_flash_with_platformio w cb port firmware_path baud_rate flash_address
         true verify bootloader_path partitions_path)).
  { unfold _flash_with_platformio, pio_detect, pio_erase.
    repeat post_step; known_answers;
      try (rewrite Hrc0 in *; discriminate);
      try (rewrite Hrce in *; discriminate).
    all: split; [try subst r1; reflexivity | split].
    all: repeat (progress (rewrite ?launches_app, ?launches_callback,
                            ?attempts_app, ?attempts_callback; simpl));
      reflexivity. }
  unfold post in Hprim. unfold flash_firmware. rewrite Hex.
  destruct (_flash_with_platformio w cb port firmware_path baud_rate
              flash_address true verify bootloader_path partitions_path)
    as [t1 o1].
  simpl in Hprim. destruct Hprim as (-> & Hl & Ha).
  unfold report, tell, ret, bind, try_except, trace, result.
  cbn -[tool_unavailable attempts launches]. rewrite Hno.
  cbn -[attempts launches].
  repeat (progress (rewrite ?launches_app, ?launches_callback, ?attempts_app,
                     ?attempts_callback, ?attempts_cons; cbn [launches app])).
  rewrite Hl, Ha. repeat split.
Qed.

(** X6. Unless the primary backend's result sends [flash_firmware] to
    the fallback, neither the requested flash address nor the [verify]
    flag has any influence on what [flash_firmware] does and returns. *)
Theorem address_and_verify_are_ignored
    (w : world) (cb : bool) (port firmware_path : string)
    (baud_rate flash_address flash_address' : Z)
    (erase_all verify verify' : bool)
    (bootloader_path partitions_path : option string) (r1 : FlashResult) :
  result (_flash_with_platformio w cb port firmware_path baud_rate
            flash_address erase_all verify bootloader_path partitions_path)
  = Returns r1 ->
  tool_unavailable r1 = false ->
  flash_firmware w cb port firmware_path baud_rate flash_address erase_all
    verify bootloader_path partitions_path
  = flash_firmware w cb port firmware_path baud_rate flash_address' erase_all
      verify' bootloader_path partitions_path.
Proof.
  intros Hr Hno. unfold flash_firmware.
  change (_flash_with_platformio w cb port firmware_path baud_rate
            flash_address' erase_all verify' bootloader_path partitions_path)
    with (_flash_with_platformio w cb port firmware_path baud_rate
            flash_address erase_all verify bootloader_path partitions_path).
  destruct (path_exists w firmware_path); [ | reflexivity].
  destruct (_flash_with_platformio w cb port firmware_path baud_rate
              flash_address erase_all verify bootloader_path partitions_path)
    as [t1 o1].
  simpl in Hr. subst o1.
  unfold report, tell, ret, bind, try_except.
  cbn -[tool_unavailable]. rewrite Hno. reflexivity.
Qed.

Lemma address_and_verify_are_ignored_witness :
  flash_firmware Sample.bench true "COM3" "firmware.bin" 460800 4096 false
    true None None
  = flash_firmware Sample.bench true "COM3" "firmware.bin" 460800 131072
      false false None None.
Proof.
  apply (address_and_verify_are_ignored Sample.bench true "COM3"
           "firmware.bin" 460800 4096 131072 false true false None None
           (succeeded "Firmware flashed successfully with PlatformIO"));
    reflexivity.
Defined.

(** ** The firmware path, the fallback and the write command *)




(** C2 fails where the tool cannot be launched at all. When [pio] is
    not installed, [subprocess.run] raises [FileNotFoundError]: then
    [flash_firmware] returns the failure of the primary backend, with
    the overall duration, and the only command launched is
    [pio --version]; the fallback backend is not run. The fallback
    runs when [pio --version] is launched and exits with a status
    other than 0: its commands follow, once, and its result is
    returned, with the overall duration. *)
Theorem unlaunchable_pio_gets_no_fallback
    (w : world) (cb : bool) (port firmware_path : string)
    (baud_rate flash_address : Z) (erase_all verify : bool)
    (bootloader_path partitions_path : option string) :
  path_exists w firmware_path = Returns true ->
  let flash :=
    flash_firmware w cb port firmware_path baud_rate flash_address erase_all
      verify bootloader_path partitions_path in
  let fallback :=
    _flash_with_esptool_subprocess w cb port firmware_path baud_rate
      flash_address erase_all verify in
  let elapsed := clock w 1 - clock w 0 in
  (subprocess_run w pio_check_cmd
   = Raises "[Errno 2] No such file or directory: 'pio'" ->
   result flash
   = Returns (mkFlashResult false
                "PlatformIO error: [Errno 2] No such file or directory: 'pio'"
                elapsed None None)
   /\ launches (trace flash) = [pio_check_cmd])
  /\ (forall c,
        subprocess_run w pio_check_cmd = Returns c ->
        returncode c <> 0 ->
        exists r2,
          result fallback = Returns r2
          /\ result flash
             = Returns (mkFlashResult (success r2) (message r2) elapsed
                          (chip_type r2) (flash_size r2))
          /\ launches (trace flash)
             = pio_check_cmd :: launches (trace fallback)).
Proof.
  intros Hex flash fallback elapsed. subst flash fallback elapsed. split.
  - intros Hrun.
    assert (Hprim :
      _flash_with_platformio w cb port firmware_path baud_rate flash_address
        erase_all verify bootloader_path partitions_path
      = ([Launch pio_check_cmd],
         Returns (failed ("PlatformIO error: "
                          ++ "[Errno 2] No such file or directory: 'pio'")))).
    { unfold _flash_with_platformio, run, tell, lift, bind, try_except.
      rewrite Hrun. reflexivity. }
    unfold flash_firmware. rewrite Hex, Hprim.
    unfold report, tell, ret, lift, bind, try_except, trace, result.
    cbn [fst snd negb tool_unavailable failed success message Py.lower].
    destruct cb; split; reflexivity.
  - intros c Hrun Hrc. apply Z.eqb_neq in Hrc.
    assert (Hprim :
      _flash_with_platformio w cb port firmware_path baud_rate flash_address
        erase_all verify bootloader_path partitions_path
      = ([Launch pio_check_cmd], Returns (failed "PlatformIO not found"))).
    { unfold _flash_with_platformio, run, tell, lift, bind, try_except.
      rewrite Hrun. cbn [app]. rewrite Hrc. reflexivity. }
    destruct (esptool_backend_returns w cb port firmware_path baud_rate
                flash_address erase_all verify) as [r2 H2].
    exists r2. split; [exact H2 | ].
    unfold flash_firmware. rewrite Hex, Hprim.
    destruct (_flash_with_esptool_subprocess w cb port firmware_path baud_rate
                flash_address erase_all verify) as [t2 o2].
    cbn [result snd] in H2. subst o2.
    unfold report, tell, ret, lift, bind, try_except, trace, result.
    change (tool_unavailable (failed "PlatformIO not found")) with true.
    cbn [fst snd negb]. unfold set_duration.
    split; [reflexivity | ].
    repeat (rewrite ?launches_app, ?launches_callback; cbn [launches app]).
    rewrite ?app_nil_r. reflexivity.
Qed.

Lemma unlaunchable_pio_gets_no_fallback_witness :
  result (flash_firmware Cases.pio_missing true "COM3" "firmware.bin" 460800
            4096 false true None None)
  = Returns (mkFlashResult false
               "PlatformIO error: [Errno 2] No such file or directory: 'pio'"
               7 None None)
  /\ launches
       (trace (flash_firmware Cases.pio_missing true "COM3" "firmware.bin"
                 460800 4096 false true None None))
     = [pio_check_cmd].
Proof.
  apply (unlaunchable_pio_gets_no_fallback Cases.pio_missing true "COM3"
           "firmware.bin" 460800 4096 false true None None eq_refl).
  reflexivity.
Defined.

(** The reading loops launch nothing. *)
Lemma read_loop_launches (handle : Z -> string -> Z * list event) :
  (forall p line, launches (snd (handle p line)) = []) ->
  forall reads s, launches (snd (read_loop handle s reads)) = [].
Proof.
  intros Hh reads. induction reads as [ | raw reads IH]; intros s;
    [reflexivity | ].
  simpl. destruct raw as [ | c raw']; [apply IH | ].
  specialize (Hh (progress s) (Py.strip (String c raw'))).
  destruct (handle (progress s) (Py.strip (String c raw'))) as [p' evs].
  match goal with
  | |- context [read_loop handle ?s' reads] =>
      specialize (IH s'); destruct (read_loop handle s' reads) as [s'' evs']
  end.
  simpl in *. rewrite launches_app, Hh, IH. reflexivity.
Qed.

Lemma step_launches (cb : bool) (p : Z) : launches (snd (step cb p)) = [].
Proof. unfold step. cbn [snd]. apply launches_callback. Qed.

Lemma platformio_try_launches (cb : bool) (fs p : Z) (line : string) r :
  platformio_try cb fs p line = Some r -> launches (snd r) = [].
Proof.
  unfold platformio_try. intros H.
  destruct (parse_addr line) as [a | ]; [ | discriminate].
  destruct (fs >? 0).
  - destruct (Py.percent_of (a - 65536) fs); inversion H; subst; cbn [snd];
      apply launches_callback.
  - inversion H; subst. apply step_launches.
Qed.

Lemma platformio_line_launches (cb : bool) (fs p : Z) (line : string) :
  launches (snd (platformio_line cb fs p line)) = [].
Proof.
  unfold platformio_line.
  destruct (Py.contains writing_marker line).
  - destruct (platformio_try cb fs p line) as [r | ] eqn:E;
      [exact (platformio_try_launches _ _ _ _ _ E) | apply step_launches].
  - repeat match goal with
           | |- context [if ?b then _ else _] => destruct b
           end; cbn [snd]; first [apply launches_callback | reflexivity].
Qed.

Lemma esptool_try_launches (cb : bool) (fa fs p : Z) (line : string) r :
  esptool_try cb fa fs p line = Some r -> launches (snd r) = [].
Proof.
  unfold esptool_try. intros H.
  destruct (parse_addr line) as [a | ]; [ | discriminate].
  destruct (fs >? 0).
  - destruct (Py.percent_of (a - fa) fs); inversion H; subst; cbn [snd];
      apply launches_callback.
  - destruct (a >? fa).
    + destruct (Py.percent_of (a - fa) 65536); inversion H; subst; cbn [snd];
        apply launches_callback.
    + inversion H; subst. reflexivity.
Qed.

Lemma esptool_line_launches (cb : bool) (fa fs p : Z) (line : string) :
  launches (snd (esptool_line cb fa fs p line)) = [].
Proof.
  unfold esptool_line.
  destruct (Py.contains writing_marker line).
  - destruct (esptool_try cb fa fs p line) as [r | ] eqn:E;
      [exact (esptool_try_launches _ _ _ _ _ _ E) | apply step_launches].
  - repeat match goal with
           | |- context [if ?b then _ else _] => destruct b
           end; cbn [snd]; first [apply launches_callback | reflexivity].
Qed.

Ltac count_launches :=
  repeat (rewrite ?launches_app, ?launches_callback,
            ?(read_loop_launches _ (platformio_line_launches _ _)),
            ?(read_loop_launches _ (esptool_line_launches _ _ _));
          cbn [launches app]).

(** What the primary backend launches when its write command can be
    built and the size of the firmware read: the preparation, then the
    write command. *)
Lemma primary_launches w cb port fw baud fa erase verify bl pt size cmd :
  primary_ready w port baud erase ->
  platformio_write_cmd w port fw baud bl pt = Returns cmd ->
  getsize w fw = Returns size ->
  launches (trace (_flash_with_platformio w cb port fw baud fa erase verify
                     bl pt))
  = (primary_preparation port baud erase ++ [cmd])%list.
Proof.
  intros [(c0 & Hcheck & Hrc0) Herase] Hcmd Hsize.
  assert (H : post (fun t _ =>
                      launches t
                      = (primary_preparation port baud erase ++ [cmd])%list)
                (_flash_with_platformio w cb port fw baud fa erase verify
                   bl pt)).
  { unfold _flash_with_platformio, pio_detect, pio_erase, primary_preparation.
    destruct erase;
      [destruct (Herase eq_refl) as (ce & Hce & Hrce) | clear Herase].
    all: repeat (post_step; known_answers);
      try (rewrite Hrc0 in *; discriminate);
      try (rewrite Hrce in *; discriminate).
    all: count_launches; reflexivity. }
  exact H.
Qed.

(** When a companion cannot be looked for, the backend fails before
    the write command. *)
Lemma primary_unbuilt w cb port fw baud fa erase verify bl pt e :
  primary_ready w port baud erase ->
  platformio_write_cmd w port fw baud bl pt = Raises e ->
  result (_flash_with_platformio w cb port fw baud fa erase verify bl pt)
  = Returns (failed ("PlatformIO error: " ++ e))
  /\ launches (trace (_flash_with_platformio w cb port fw baud fa erase verify
                        bl pt))
     = primary_preparation port baud erase.
Proof.
  intros [(c0 & Hcheck & Hrc0) Herase] Hcmd.
  assert (H : post (fun t o =>
                      o = Returns (failed ("PlatformIO error: " ++ e))
                      /\ launches t = primary_preparation port baud erase)
                (_flash_with_platformio w cb port fw baud fa erase verify
                   bl pt)).
  { unfold _flash_with_platformio, pio_detect, pio_erase, primary_preparation.
    destruct erase;
      [destruct (Herase eq_refl) as (ce & Hce & Hrce) | clear Herase].
    all: repeat (post_step; known_answers);
      try (rewrite Hrc0 in *; discriminate);
      try (rewrite Hrce in *; discriminate).
    all: split; [reflexivity | count_launches; reflexivity]. }
  exact H.
Qed.

(** The fallback backend, for comparison: its write command ends with
    the flash address of the request, in hexadecimal. *)
Lemma fallback_writes_at_requested_address w cb port fw baud fa verify size :
  getsize w fw = Returns size ->
  launches (trace (_flash_with_esptool_subprocess w cb port fw baud fa false
                     verify))
  = [[sys_executable w; "-m"; "esptool"; "--port"; port; "--baud"; Py.str baud;
      "--before"; "default-reset"; "--after"; "hard-reset"; "write-flash";
      "--flash-mode"; "dio"; "--flash-freq"; "40m"; "--flash-size"; "detect";
      "0x" ++ Py.format_x fa; fw]].
Proof.
  intros Hsize.
  assert (H : post (fun t _ =>
                      launches t
                      = [esptool_write_cmd w port fw baud fa])
                (_flash_with_esptool_subprocess w cb port fw baud fa false
                   verify)).
  { unfold _flash_with_esptool_subprocess, esptool_erase.
    repeat (post_step; known_answers).
    all: count_launches; reflexivity. }
  exact H.
Qed.

(** C4 fails for the primary backend: with no companion file, the
    write command it launches has one segment, and the address of that
    segment is 0x10000 whatever flash address is asked for. *)
Theorem primary_writes_at_fixed_address
    (w : world) (cb : bool) (port firmware_path : string)
    (baud_rate flash_address : Z) (erase_all verify : bool) (size : Z) :
  primary_ready w port baud_rate erase_all ->
  getsize w firmware_path = Returns size ->
  launches
    (trace (_flash_with_platformio w cb port firmware_path baud_rate
              flash_address erase_all verify None None))
  = (primary_preparation port baud_rate erase_all
     ++ [["pio"; "pkg"; "exec"; "--package"; "tool-esptoolpy"; "--";
          "esptool.py"; "--port"; port; "--baud"; Py.str baud_rate;
          "--before"; "default_reset"; "--after"; "hard_reset";
          "write_flash"; "--flash_mode"; "dio"; "--flash_freq"; "80m";
          "--flash_size"; "detect"; "0x10000"; firmware_path]])%list.
Proof.
  intros Hready Hsize.
  apply (primary_launches w cb port firmware_path baud_rate flash_address
           erase_all verify None None size _ Hready eq_refl Hsize).
Qed.

Lemma primary_writes_at_fixed_address_witness :
  launches
    (trace (_flash_with_platformio Sample.bench true "COM3" "firmware.bin"
              460800 4096 false true None None))
  = [ ["pio"; "--version"];
      ["pio"; "pkg"; "exec"; "--package"; "tool-esptoolpy"; "--";
       "esptool.py"; "--port"; "COM3"; "chip_id"];
      ["pio"; "pkg"; "exec"; "--package"; "tool-esptoolpy"; "--";
       "esptool.py"; "--port"; "COM3"; "--baud"; "460800";
       "--before"; "default_reset"; "--after"; "hard_reset";
       "write_flash"; "--flash_mode"; "dio"; "--flash_freq"; "80m";
       "--flash_size"; "detect"; "0x10000"; "firmware.bin"] ].
Proof.
  apply (primary_writes_at_fixed_address Sample.bench true "COM3"
           "firmware.bin" 460800 4096 false true 204800).
  - split; [exists Sample.ok; split; reflexivity | discriminate].
  - reflexivity.
Defined.

Lemma companion_present w addr p s :
  present w p s -> companion w addr p = Returns [(addr, s)].
Proof.
  intros (-> & Hne & Hex). unfold companion, truthy.
  apply String.eqb_neq in Hne. rewrite Hne, Hex. reflexivity.
Qed.

Lemma companion_absent w addr p :
  absent w p -> companion w addr p = Returns [].
Proof.
  destruct p as [s | ]; [ | reflexivity]. unfold companion, truthy.
  intros [-> | Hex]; [reflexivity | ].
  destruct (String.eqb s ""); [reflexivity | ]. rewrite Hex. reflexivity.
Qed.

Lemma companion_unreadable w addr p e :
  unreadable w p e -> companion w addr p = Raises e.
Proof.
  intros (s & -> & Hne & Hex). unfold companion, truthy.
  apply String.eqb_neq in Hne. rewrite Hne, Hex. reflexivity.
Qed.

(** C10, amended. In the primary backend each companion is put into
    the write command on its own account. When exactly one of the two
    is there and the other is absent (not supplied, the empty string,
    or [exists()] answers [False]), the command launched has two
    segments: that companion at its fixed address (0x0000 for the
    bootloader, 0x8000 for the partition table), then the application
    at 0x10000; the absent one leaves no mark. But when [exists()]
    raises for a companion that is looked for, the backend fails with
    "PlatformIO error: " and the text of the error, and no write
    command is launched. *)
Theorem companions_are_independent
    (w : world) (cb : bool) (port firmware_path : string)
    (baud_rate flash_address : Z) (erase_all verify : bool)
    (bootloader_path partitions_path : option string) (size : Z) :
  primary_ready w port baud_rate erase_all ->
  getsize w firmware_path = Returns size ->
  let backend :=
    _flash_with_platformio w cb port firmware_path baud_rate flash_address
      erase_all verify bootloader_path partitions_path in
  let before := primary_preparation port baud_rate erase_all in
  let options :=
    ["pio"; "pkg"; "exec"; "--package"; "tool-esptoolpy"; "--";
     "esptool.py"; "--port"; port; "--baud"; Py.str baud_rate;
     "--before"; "default_reset"; "--after"; "hard_reset";
     "write_flash"; "--flash_mode"; "dio"; "--flash_freq"; "80m";
     "--flash_size"; "detect"] in
  (forall b,
     present w bootloader_path b -> absent w partitions_path ->
     launches (trace backend)
     = (before ++ [options ++ ["0x0000"; b; "0x10000"; firmware_path]])%list)
  /\ (forall p,
        absent w bootloader_path -> present w partitions_path p ->
        launches (trace backend)
        = (before ++ [options ++ ["0x8000"; p; "0x10000"; firmware_path]])%list)
  /\ (forall e,
        unreadable w bootloader_path e
        \/ ((absent w bootloader_path \/ exists b, present w bootloader_path b)
            /\ unreadable w partitions_path e) ->
        result backend = Returns (failed ("PlatformIO error: " ++ e))
        /\ launches (trace backend) = before).
Proof.
  intros Hready Hsize backend before options.
  subst backend before options. split; [ | split].
  - intros b Hb Hp.
    apply (primary_launches w cb port firmware_path baud_rate flash_address
             erase_all verify bootloader_path partitions_path size _ Hready);
      [ | exact Hsize].
    unfold platformio_write_cmd, platformio_segments.
    rewrite (companion_present w _ _ _ Hb), (companion_absent w _ _ Hp).
    reflexivity.
  - intros p Hb Hp.
    apply (primary_launches w cb port firmware_path baud_rate flash_address
             erase_all verify bootloader_path partitions_path size _ Hready);
      [ | exact Hsize].
    unfold platformio_write_cmd, platformio_segments.
    rewrite (companion_absent w _ _ Hb), (companion_present w _ _ _ Hp).
    reflexivity.
  - intros e He.
    apply (primary_unbuilt w cb port firmware_path baud_rate flash_address
             erase_all verify bootloader_path partitions_path e Hready).
    unfold platformio_write_cmd, platformio_segments.
    destruct He as [Hb | [[Hb | [b Hb]] Hp]].
    + rewrite (companion_unreadable w _ _ _ Hb). reflexivity.
    + rewrite (companion_absent w _ _ Hb), (companion_unreadable w _ _ _ Hp).
      reflexivity.
    + rewrite (companion_present w _ _ _ Hb), (companion_unreadable w _ _ _ Hp).
      reflexivity.
Qed.

Lemma companions_are_independent_witness :
  launches
    (trace (_flash_with_platformio Sample.bootloader_only true "COM3"
              "firmware.bin" 460800 4096 false true (Some "bootloader.bin")
              (Some "partitions.bin")))
  = [ ["pio"; "--version"];
      ["pio"; "pkg"; "exec"; "--package"; "tool-esptoolpy"; "--";
       "esptool.py"; "--port"; "COM3"; "chip_id"];
      ["pio"; "pkg"; "exec"; "--package"; "tool-esptoolpy"; "--";
       "esptool.py"; "--port"; "COM3"; "--baud"; "460800";
       "--before"; "default_reset"; "--after"; "hard_reset";
       "write_flash"; "--flash_mode"; "dio"; "--flash_freq"; "80m";
       "--flash_size"; "detect"; "0x0000"; "bootloader.bin";
       "0x10000"; "firmware.bin"] ].
Proof.
  apply (companions_are_independent Sample.bootloader_only true "COM3"
           "firmware.bin" 460800 4096 false true (Some "bootloader.bin")
           (Some "partitions.bin") 204800).
  - split; [exists Sample.ok; split; reflexivity | discriminate].
  - reflexivity.
  - repeat split. discriminate.
  - right. reflexivity.
Defined.

(** C10, as stated, fails for a partitions path that names no file
    because it is too long for the file system: it is not left out
    silently. The backend returns an error and launches no write
    command. *)
Lemma unreadable_companion_is_an_error :
  result (_flash_with_platformio Cases.strict_names true "COM3" "firmware.bin"
            460800 4096 false true (Some "bootloader.bin")
            (Some Cases.long_name))
  = Returns (failed ("PlatformIO error: [Errno 36] File name too long: '"
                     ++ Cases.long_name ++ "'"))
  /\ launches
       (trace (_flash_with_platformio Cases.strict_names true "COM3"
                 "firmware.bin" 460800 4096 false true (Some "bootloader.bin")
                 (Some Cases.long_name)))
     = [pio_check_cmd; pio_detect_cmd "COM3"].
Proof. vm_compute. split; reflexivity. Qed.

(** ** Lines and addresses *)

(** X7. On a line [pre ++ "Writing at 0x" ++ h ++ "..." ++ rest], with
    [h] a non-empty string of hexadecimal digits (leading zeros, either
    case) and no [W] in [pre], the marker is found and the address read
    is the number [h] denotes, whatever follows. *)
Theorem standard_line_address (pre h rest : string) :
  avoids "W" pre = true -> h <> "" -> all_hex h = true ->
  Py.contains writing_marker (pre ++ writing_marker ++ h ++ "..." ++ rest)
  = true
  /\ parse_addr (pre ++ writing_marker ++ h ++ "..." ++ rest)
     = Some (hex_value h).
Proof.
  intros Hpre Hne Hh. split.
  - apply contains_append.
  - apply parse_addr_standard_line; assumption.
Qed.

Lemma standard_line_address_witness :
  Py.contains writing_marker "Writing at 0x0001A000... (12 %)" = true
  /\ parse_addr "Writing at 0x0001A000... (12 %)" = Some 106496.
Proof.
  apply (standard_line_address "" "0001A000" " (12 %)"); 
    [reflexivity | discriminate | reflexivity].
Defined.

(** A separator whose first character does not come back in it: where
    it is a prefix of [u] followed by that character, it is a prefix
    of [u]. *)
Lemma prefix_inside (a : ascii) (m : string) :
  avoids a m = true ->
  forall u rest, prefix m (u ++ String a rest) = true -> prefix m u = true.
Proof.
  induction m as [ | d m IH]; intros Hm u rest H; [destruct u; reflexivity | ].
  cbn [avoids] in Hm. apply andb_prop in Hm. destruct Hm as [Hd Hm].
  apply negb_true_iff in Hd.
  destruct u as [ | c u].
  - cbn [append prefix] in H.
    destruct (ascii_dec d a) as [E | _]; [ | discriminate H].
    subst. rewrite Ascii.eqb_refl in Hd. discriminate Hd.
  - cbn [append prefix] in H. cbn [prefix].
    destruct (ascii_dec d c) as [_ | _]; [ | discriminate H].
    exact (IH Hm u rest H).
Qed.

(** Passing over what comes before the first separator. *)
Lemma split_go_pass_free (a : ascii) (m u t : string) :
  avoids a m = true ->
  Py.contains (String a m) u = false ->
  forall cur,
    Py.split_go (String a m) 0 cur (u ++ String a m ++ t)
    = Py.split_go (String a m) 0 (cur ++ u) (String a m ++ t).
Proof.
  intros Hm. induction u as [ | c u IH]; intros Hu cur.
  - cbn [append]. rewrite append_empty. reflexivity.
  - cbn [Py.contains] in Hu. apply orb_false_elim in Hu.
    destruct Hu as [Hpre Hu].
    assert (Hno : prefix (String a m) (String c u ++ String a m ++ t) = false).
    { destruct (prefix (String a m) (String c u ++ String a m ++ t)) eqn:E;
        [ | reflexivity].
      cbn [append prefix] in E. cbn [prefix] in Hpre.
      destruct (ascii_dec a c) as [_ | _]; [ | discriminate E].
      change (String a m ++ t)%string with (String a (m ++ t)) in E.
      rewrite (prefix_inside a m Hm u _ E) in Hpre. discriminate Hpre. }
    change (String c u ++ String a m ++ t)%string
      with (String c (u ++ String a m ++ t)).
    cbn [Py.split_go].
    change (String c (u ++ String a m ++ t))
      with (String c u ++ String a m ++ t)%string.
    rewrite Hno, (IH Hu), append_assoc. reflexivity.
Qed.

(** The address after the first marker of a line is malformed when it
    starts with a character that [int] cannot take (and that is neither
    [W] nor a full stop, which the two splits look for). *)
Lemma parse_addr_malformed_first (pre t : string) (c : ascii) :
  Py.contains writing_marker pre = false ->
  ascii_to_digit c = None -> Py.int_space c = false ->
  Ascii.eqb c "+" = false -> Ascii.eqb c "-" = false ->
  Ascii.eqb "W" c = false -> Ascii.eqb "." c = false ->
  parse_addr (pre ++ writing_marker ++ String c t)%string = None.
Proof.
  intros Hpre Hd Hsp Hplus Hminus HW Hdot. unfold parse_addr, Py.split.
  unfold writing_marker at 1 2.
  rewrite (split_go_pass_free "W" "riting at 0x" pre (String c t) eq_refl
             Hpre "").
  change ("" ++ pre)%string with pre.
  change (String "W" "riting at 0x") with writing_marker.
  change (writing_marker ++ String c t)%string
    with (String "W" ("riting at 0x" ++ String c t)).
  cbn [Py.split_go].
  change (String "W" ("riting at 0x" ++ String c t))
    with (writing_marker ++ String c t)%string.
  rewrite prefix_append. cbn [nth_error].
  change (String.length writing_marker - 1)%nat
    with (String.length "riting at 0x").
  rewrite (split_go_skip writing_marker "riting at 0x" (String c t) "").
  unfold writing_marker at 1. cbn [Py.split_go].
  rewrite (prefix_other_char "W" c _ _ HW).
  match goal with
  | |- context [Py.split_go ?sep 0 ?cur t] =>
      destruct (split_go_first_extends sep t cur) as (u & l & Hu); rewrite Hu
  end.
  change (("" ++ String c "") ++ u)%string with (String c u).
  cbn [Py.split_go]. rewrite (prefix_other_char "." c _ _ Hdot).
  match goal with
  | |- context [Py.split_go ?sep 0 ?cur u] =>
      destruct (split_go_first_extends sep u cur) as (v & l' & Hv); rewrite Hv
  end.
  change (("" ++ String c "") ++ v)%string with (String c v).
  apply int16_rejects; assumption.
Qed.

(** X8. Take a line, of characters up to U+00FF, and its first
    "Writing at 0x": the line is [pre ++ "Writing at 0x" ++ c :: t]
    with no marker in [pre]. When [c] is none of a hexadecimal digit,
    white space, a sign, [W] or a full stop, the address is rejected,
    whatever comes before and after. *)
Theorem malformed_line_address (pre t : string) (c : ascii) :
  Py.contains writing_marker pre = false ->
  ascii_to_digit c = None -> Py.int_space c = false ->
  Ascii.eqb c "+" = false -> Ascii.eqb c "-" = false ->
  Ascii.eqb "W" c = false -> Ascii.eqb "." c = false ->
  Py.contains writing_marker (pre ++ writing_marker ++ String c t) = true
  /\ parse_addr (pre ++ writing_marker ++ String c t) = None.
Proof.
  intros. split.
  - apply contains_append.
  - apply parse_addr_malformed_first; assumption.
Qed.

Lemma malformed_line_address_witness :
  Py.contains writing_marker "Wrote 1 block. Writing at 0xZZ..." = true
  /\ parse_addr "Wrote 1 block. Writing at 0xZZ..." = None.
Proof.
  apply (malformed_line_address "Wrote 1 block. " "Z..." "Z"); reflexivity.
Defined.





(** ** Invariants of the reading loops *)

Lemma read_loop_invariant (handle : Z -> string -> Z * list event)
    (I : Z -> Prop) (phi : event -> Prop) (ok : string -> Prop) :
  (forall p line, I p -> ok line ->
     I (fst (handle p line)) /\ Forall phi (snd (handle p line))) ->
  forall reads s,
    I (progress s) ->
    (forall raw, In raw reads -> raw <> "" -> ok (Py.strip raw)) ->
    I (progress (fst (read_loop handle s reads)))
    /\ Forall phi (snd (read_loop handle s reads)).
Proof.
  intros Hh reads. induction reads as [ | raw reads IH]; intros s Hs Hok.
  - simpl. split; [exact Hs | constructor].
  - simpl. destruct raw as [ | c raw'].
    + apply IH; [exact Hs | ]. intros raw Hin. apply Hok. right. exact Hin.
    + destruct (Hh (progress s) (Py.strip (String c raw')) Hs) as [Hp He].
      { apply Hok; [left; reflexivity | discriminate]. }
      destruct (handle (progress s) (Py.strip (String c raw'))) as [p' evs].
      simpl in Hp, He.
      match goal with
      | |- context [read_loop handle ?s' reads] =>
          destruct (IH s') as [Hp' He'];
          [ exact Hp | intros raw Hin; apply Hok; right; exact Hin | ];
          destruct (read_loop handle s' reads) as [s'' evs']
      end.
      simpl in *. split; [exact Hp' | apply Forall_app; split; assumption].
Qed.

Lemma callback_in_range (cb : bool) (p : Z) (msg : string) :
  0 <= p <= 100 -> Forall percent_in_range (callback cb p msg).
Proof.
  intros H. destruct cb; [constructor; [exact H | constructor] | constructor].
Qed.

Lemma step_in_range (cb : bool) (p : Z) :
  0 <= p <= 99 ->
  0 <= fst (step cb p) <= 99 /\ Forall percent_in_range (snd (step cb p)).
Proof.
  intros H. unfold step. simpl. split; [lia | apply callback_in_range; lia].
Qed.

Lemma esptool_line_in_range (cb : bool) (fa fs p : Z) (line : string) :
  0 <= p <= 99 ->
  (forall a, parse_addr line = Some a -> fa <= a) ->
  0 <= fst (esptool_line cb fa fs p line) <= 99
  /\ Forall percent_in_range (snd (esptool_line cb fa fs p line)).
Proof.
  intros Hp Hbase. unfold esptool_line.
  destruct (Py.contains writing_marker line).
  - unfold esptool_try.
    destruct (parse_addr line) as [a | ]; [ | apply step_in_range, Hp].
    specialize (Hbase a eq_refl).
    destruct (fs >? 0) eqn:Efs.
    + apply Z.gtb_lt in Efs.
      destruct (Py.percent_of (a - fa) fs) as [q | ] eqn:E;
        [ | apply step_in_range, Hp].
      assert (0 <= q)
        by (apply (percent_of_nonneg (a - fa) fs q); [lia | exact Efs | exact E]).
      simpl. split; [exact Hp | apply callback_in_range; lia].
    + destruct (a >? fa).
      * destruct (Py.percent_of (a - fa) 65536) as [q | ] eqn:E;
          [ | apply step_in_range, Hp].
        assert (0 <= q)
          by (apply (percent_of_nonneg (a - fa) 65536 q); [lia | lia | exact E]).
        simpl. split; [lia | apply callback_in_range; lia].
      * simpl. split; [exact Hp | constructor].
  - repeat match goal with
           | |- context [if ?b then _ else _] => destruct b
           end; simpl;
      (split; [exact Hp | first [apply callback_in_range; lia | constructor]]).
Qed.

Lemma platformio_line_in_range (cb : bool) (fs p : Z) (line : string) :
  0 <= p <= 99 ->
  (forall a, parse_addr line = Some a -> 65536 <= a) ->
  0 <= fst (platformio_line cb fs p line) <= 99
  /\ Forall percent_in_range (snd (platformio_line cb fs p line)).
Proof.
  intros Hp Hbase. unfold platformio_line.
  destruct (Py.contains writing_marker line).
  - unfold platformio_try.
    destruct (parse_addr line) as [a | ]; [ | apply step_in_range, Hp].
    specialize (Hbase a eq_refl).
    destruct (fs >? 0) eqn:Efs; [ | apply step_in_range, Hp].
    apply Z.gtb_lt in Efs.
    destruct (Py.percent_of (a - 65536) fs) as [q | ] eqn:E;
      [ | apply step_in_range, Hp].
    assert (0 <= q)
      by (apply (percent_of_nonneg (a - 65536) fs q); [lia | exact Efs | exact E]).
    simpl. split; [exact Hp | apply callback_in_range; lia].
  - repeat match goal with
           | |- context [if ?b then _ else _] => destruct b
           end; simpl;
      (split; [exact Hp | first [apply callback_in_range; lia | constructor]]).
Qed.

Lemma percents_in_range (t : list event) :
  Forall percent_in_range t -> Forall (fun p => 0 <= p <= 100) (percents t).
Proof.
  induction 1 as [ | e t He Ht IH]; [constructor | ].
  destruct e; simpl; auto.
Qed.

(** X10. In the loop of the fallback backend, when no line carries an
    address below the flash address, every percent reported lies in
    [0, 100] and the local counter ends in [0, 99]: whatever the sizes,
    the digits and the order of the lines. *)
Theorem fallback_session_in_range
    (cb : bool) (flash_address firmware_size : Z) (reads : list string) :
  (forall raw a, In raw reads -> parse_addr (Py.strip raw) = Some a ->
                 flash_address <= a) ->
  Forall (fun p => 0 <= p <= 100)
    (percents (esptool_session cb flash_address firmware_size reads))
  /\ 0 <= progress
            (fst (read_loop (esptool_line cb flash_address firmware_size)
                    (mkSession 40 []) reads)) <= 99.
Proof.
  intros Hbase.
  destruct (read_loop_invariant (esptool_line cb flash_address firmware_size)
              (fun p => 0 <= p <= 99) percent_in_range
              (fun line => forall a, parse_addr line = Some a ->
                                     flash_address <= a))
    with (reads := reads) (s := mkSession 40 []) as [Hp He].
  - intros p line Hp Hok. apply esptool_line_in_range; assumption.
  - simpl. lia.
  - intros raw Hin _ a Ha. exact (Hbase raw a Hin Ha).
  - split; [apply percents_in_range, He | exact Hp].
Qed.

(** X11. The same in the loop of the primary backend, which measures
    from 0x10000: when no line carries an address below 0x10000, every
    percent reported lies in [0, 100]. *)
Theorem primary_session_in_range
    (cb : bool) (firmware_size : Z) (reads : list string) :
  (forall raw a, In raw reads -> parse_addr (Py.strip raw) = Some a ->
                 65536 <= a) ->
  Forall (fun p => 0 <= p <= 100)
    (percents (platformio_session cb firmware_size reads))
  /\ 0 <= progress
            (fst (read_loop (platformio_line cb firmware_size)
                    (mkSession 0 []) reads)) <= 99.
Proof.
  intros Hbase.
  destruct (read_loop_invariant (platformio_line cb firmware_size)
              (fun p => 0 <= p <= 99) percent_in_range
              (fun line => forall a, parse_addr line = Some a -> 65536 <= a))
    with (reads := reads) (s := mkSession 0 []) as [Hp He].
  - intros p line Hp Hok. apply platformio_line_in_range; assumption.
  - simpl. lia.
  - intros raw Hin _ a Ha. exact (Hbase raw a Hin Ha).
  - split; [apply percents_in_range, He | exact Hp].
Qed.

Lemma fallback_session_in_range_witness :
  Forall (fun p => 0 <= p <= 100)
    (percents (esptool_session true 4096 10000
                 ["Connecting..."; "Writing at 0x00001000... (3 %)";
                  "Writing at 0xZZ..."]))
  /\ 0 <= progress
            (fst (read_loop (esptool_line true 4096 10000) (mkSession 40 [])
                    ["Connecting..."; "Writing at 0x00001000... (3 %)";
                     "Writing at 0xZZ..."])) <= 99.
Proof.
  apply (fallback_session_in_range true 4096 10000).
  intros raw a [<- | [<- | [<- | []]]] Ha; vm_compute in Ha;
    inversion Ha; subst; discriminate.
Defined.

Lemma primary_session_in_range_witness :
  Forall (fun p => 0 <= p <= 100)
    (percents (platformio_session true 204800
                 ["Connecting...."; "Writing at 0x00010000... (1 %)";
                  "Writing at 0x00030000... (50 %)"]))
  /\ 0 <= progress
            (fst (read_loop (platformio_line true 204800) (mkSession 0 [])
                    ["Connecting...."; "Writing at 0x00010000... (1 %)";
                     "Writing at 0x00030000... (50 %)"])) <= 99.
Proof.
  apply (primary_session_in_range true 204800).
  intros raw a [<- | [<- | [<- | []]]] Ha; vm_compute in Ha;
    inversion Ha; subst; discriminate.
Defined.

Lemma platformio_line_unknown_size (cb : bool) (fs p : Z) (line : string) :
  fs <= 0 -> Py.contains writing_marker line = true ->
  platformio_line cb fs p line = step cb p.
Proof.
  intros Hfs Hc. unfold platformio_line, platformio_try. rewrite Hc.
  destruct (parse_addr line); [ | reflexivity].
  replace (fs >? 0) with false; [reflexivity | ].
  symmetry. rewrite Z.gtb_ltb. apply Z.ltb_ge. exact Hfs.
Qed.

Lemma unknown_size_steps_from (fs : Z) (reads : list string) :
  fs <= 0 ->
  (forall raw, In raw reads ->
     raw <> "" /\ Py.contains writing_marker (Py.strip raw) = true) ->
  forall s,
    percents (snd (read_loop (platformio_line true fs) s reads))
    = map (fun i => Z.min (progress s + 2 * Z.of_nat i) 99)
        (seq 1 (List.length reads)).
Proof.
  intros Hfs. induction reads as [ | raw reads IH]; intros Hall s.
  - reflexivity.
  - destruct (Hall raw (or_introl eq_refl)) as [Hne Hc].
    destruct raw as [ | c raw']; [contradiction | ].
    cbn [read_loop].
    rewrite (platformio_line_unknown_size true fs _ _ Hfs Hc).
    unfold step. cbn [callback].
    match goal with
    | |- context [read_loop _ ?s' reads] =>
        specialize (IH (fun r H => Hall r (or_intror H)) s');
        destruct (read_loop (platformio_line true fs) s' reads) as [s'' evs]
    end.
    cbn [snd progress] in IH |- *. cbn [app percents List.length seq map].
    rewrite IH. f_equal.
    rewrite <- (seq_shift (List.length reads) 1), map_map.
    apply map_ext. intros i. lia.
Qed.

(** X12. While the size of the firmware is not known to be positive
    (an empty file), the primary backend counts the write lines: the
    k-th one is reported at [min(2 k, 99)], whatever address it shows. *)
Theorem unknown_size_counts_write_lines (reads : list string) :
  (forall raw, In raw reads ->
     raw <> "" /\ Py.contains writing_marker (Py.strip raw) = true) ->
  percents (platformio_session true 0 reads)
  = map (fun k => Z.min (2 * Z.of_nat k) 99) (seq 1 (List.length reads)).
Proof.
  intros Hall. unfold platformio_session.
  rewrite (unknown_size_steps_from 0 reads (Z.le_refl 0) Hall).
  reflexivity.
Qed.

Lemma unknown_size_counts_write_lines_witness :
  percents (platformio_session true 0
              ["Writing at 0x00010000... (1 %)"; "Writing at 0xZZ...";
               "Writing at 0x00000000..."])
  = [2; 4; 6].
Proof.
  apply (unknown_size_counts_write_lines
           ["Writing at 0x00010000... (1 %)"; "Writing at 0xZZ...";
            "Writing at 0x00000000..."]).
  intros raw [<- | [<- | [<- | []]]]; split; (discriminate || reflexivity).
Defined.

(** ** [erase_flash] *)

(** X13. [erase_flash] reports 0, then 20, then 100, stopping where the
    operation stops: its percents never go down. It reports 100 only
    when it returns a successful result that names the chip, which is
    the path through the esptool module. *)
Theorem erase_flash_percents_shape (w : world) (port : string) (baud_rate : Z) :
  let erase := erase_flash w true port baud_rate in
  (percents (trace erase) = [0]
   \/ percents (trace erase) = [0; 20]
   \/ percents (trace erase) = [0; 20; 100])
  /\ (In 100 (percents (trace erase)) ->
      exists r name,
        result erase = Returns r /\ success r = true
        /\ chip_type r = Some name).
Proof.
  unfold erase_flash, run, report, callback, tell, lift, bind, try_except, ret,
    trace, result.
  destruct (esptool w) as [detect_chip | ]; simpl.
  - destruct (detect_chip port baud_rate) as [esp | e]; simpl.
    + destruct (erase_flash_call esp) as [[] | e]; simpl.
      * split; [auto | ]. intros _. eexists. eexists. repeat split.
      * split; [auto | ]. intros [H | [H | []]]; discriminate H.
    + split; [auto | ]. intros [H | []]; discriminate H.
  - destruct (subprocess_run w (erase_cmd w port baud_rate)) as [c | e]; simpl;
      [destruct (returncode c =? 0); simpl | ];
      (split; [auto | intros [H | []]; discriminate H]).
Qed.

(** ** Witnesses and bounds *)

Lemma missing_pio_gets_no_fallback_witness :
  flash_firmware Cases.pio_missing true "COM3" "firmware.bin" 460800 4096
    false true None None
  = ([Progress 0 "Connecting to device..."; Attempt Primary;
      Launch pio_check_cmd],
     Returns (mkFlashResult false
                "PlatformIO error: [Errno 2] No such file or directory: 'pio'"
                7 None None)).
Proof.
  apply (missing_pio_gets_no_fallback Cases.pio_missing true "COM3"
           "firmware.bin" 460800 4096 false true None None
           "[Errno 2] No such file or directory: 'pio'");
    reflexivity.
Defined.

Lemma failed_erase_writes_nothing_witness :
  result (flash_firmware Cases.erase_fails true "COM3" "firmware.bin" 460800
            4096 true true None None)
  = Returns (mkFlashResult false
               "PlatformIO erase failed: A fatal error occurred" 7 None None)
  /\ launches
       (trace (flash_firmware Cases.erase_fails true "COM3" "firmware.bin"
                 460800 4096 true true None None))
     = [pio_check_cmd; pio_detect_cmd "COM3"; pio_erase_cmd "COM3" 460800]
  /\ attempts Fallback
       (trace (flash_firmware Cases.erase_fails true "COM3" "firmware.bin"
                 460800 4096 true true None None)) = 0%nat.
Proof.
  apply (failed_erase_writes_nothing Cases.erase_fails true "COM3"
           "firmware.bin" 460800 4096 true None None Sample.ok
           (mkCompleted 2 "" "A fatal error occurred"));
    first [reflexivity | discriminate].
Defined.


Lemma percents_le_100 (t : list event) :
  Forall percent_le_100 t -> Forall (fun p => p <= 100) (percents t).
Proof.
  induction 1 as [ | e t He Ht IH]; [constructor | ].
  destruct e; simpl; auto.
Qed.

(** X2. No percent [flash_firmware] or [erase_flash] hands to the
    progress callback is above 100, whatever the world does and the
    tool prints. *)
Theorem reported_percents_at_most_100
    (w : world) (cb : bool) (port firmware_path : string)
    (baud_rate flash_address : Z) (erase_all verify : bool)
    (bootloader_path partitions_path : option string) :
  Forall (fun p => p <= 100)
    (percents
       (trace (flash_firmware w cb port firmware_path baud_rate flash_address
                 erase_all verify bootloader_path partitions_path)))
  /\ Forall (fun p => p <= 100)
       (percents (trace (erase_flash w cb port baud_rate))).
Proof.
  split; apply percents_le_100.
  - apply flash_firmware_percent_le_100.
  - apply erase_flash_percent_le_100.
Qed.

(** X23. The [verify] flag changes nothing: neither backend that runs
    a child process looks at it, so [flash_firmware] reports, launches
    and returns the same with it and without it. *)
Theorem verify_has_no_effect
    (w : world) (cb : bool) (port firmware_path : string)
    (baud_rate flash_address : Z) (erase_all verify verify' : bool)
    (bootloader_path partitions_path : option string) :
  _flash_with_platformio w cb port firmware_path baud_rate flash_address
    erase_all verify bootloader_path partitions_path
  = _flash_with_platformio w cb port firmware_path baud_rate flash_address
      erase_all verify' bootloader_path partitions_path
  /\ _flash_with_esptool_subprocess w cb port firmware_path baud_rate
       flash_address erase_all verify
     = _flash_with_esptool_subprocess w cb port firmware_path baud_rate
         flash_address erase_all verify'
  /\ flash_firmware w cb port firmware_path baud_rate flash_address erase_all
       verify bootloader_path partitions_path
     = flash_firmware w cb port firmware_path baud_rate flash_address
         erase_all verify' bootloader_path partitions_path.
Proof. repeat split; reflexivity. Qed.

(** * The esptool-module backend *)

Module LoaderFacts.
Import Loader.
#[local] Open Scope loader_scope.

Lemma loader_post_bind {A B} (Q : list mevent -> outcome B -> Prop)
    (m : T A) (f : A -> T B) :
  post (fun t1 o1 =>
          match o1 with
          | Returns a => post (fun t2 o2 => Q (t1 ++ t2)%list o2) (f a)
          | Raises err => Q t1 (Raises err)
          end) m ->
  post Q (bind m f).
Proof.
  unfold post. destruct m as [t [a | err]]; simpl; [ | auto].
  destruct (f a) as [t' o']. simpl. auto.
Qed.

Lemma loader_post_try_except {A} (Q : list mevent -> outcome A -> Prop)
    (m : T A) (h : string -> T A) :
  post (fun t1 o1 =>
          match o1 with
          | Returns a => Q t1 (Returns a)
          | Raises err => post (fun t2 o2 => Q (t1 ++ t2)%list o2) (h err)
          end) m ->
  post Q (try_except m h).
Proof.
  unfold post. destruct m as [t [a | err]]; simpl; [auto | ].
  destruct (h err) as [t' o']. simpl. auto.
Qed.

Lemma loader_post_pair {A} (Q : list mevent -> outcome A -> Prop)
    (t : list mevent) (o : outcome A) :
  Q t o -> post Q (t, o).
Proof. intros H. exact H. Qed.

(** The loop: when it comes to its end, its trace is [block_events]. *)
Lemma write_blocks_returns (cb : bool) (dev : esp) (data : list Byte.byte)
    (bs total : Z) (indices : list Z) :
  forall seq u,
    snd (write_blocks cb dev data bs total indices seq) = Returns u ->
    fst (write_blocks cb dev data bs total indices seq)
    = block_events cb data bs total indices seq.
Proof.
  induction indices as [ | i rest IH]; intros seq u; [reflexivity | ].
  cbn [write_blocks block_events].
  unfold bind at 1, emit, lift, report, PyMore.floordiv.
  destruct (flash_block dev (padded_block data i bs) seq) as [[] | err];
    [ | discriminate].
  cbn [bind]. 
  destruct (total =? 0); [discriminate | ].
  specialize (IH (seq + 1)).
  destruct (write_blocks cb dev data bs total rest (seq + 1)) as [t o].
  simpl in *. intros Ho. rewrite (IH u Ho). destruct cb; reflexivity.
Qed.

(** The loop calls no method but [flash_block]. *)
Lemma write_blocks_calls (cb : bool) (dev : esp) (data : list Byte.byte)
    (bs total : Z) (indices : list Z) :
  forall seq m,
    ~ In (Call m) (fst (write_blocks cb dev data bs total indices seq)).
Proof.
  induction indices as [ | i rest IH]; intros seq m; [simpl; tauto | ].
  cbn [write_blocks]. unfold bind at 1, emit, lift, report, PyMore.floordiv.
  destruct (flash_block dev (padded_block data i bs) seq) as [[] | err];
    [ | simpl; intros [H | []]; discriminate H].
  cbn [bind].
  destruct (total =? 0); [simpl; intros [H | []]; discriminate H | ].
  specialize (IH (seq + 1) m).
  destruct (write_blocks cb dev data bs total rest (seq + 1)) as [t o].
  destruct cb; simpl in *; intros H; repeat destruct H as [H | H];
    try discriminate H; auto.
Qed.

Ltac loader_step :=
  match goal with
  | |- post _ (try_except _ _) => apply loader_post_try_except
  | |- post _ (bind _ _) => apply loader_post_bind
  | |- post _ (if ?b then _ else _) => destruct b eqn:?
  | |- post _ (match ?x with Some _ => _ | None => _ end) => destruct x eqn:?
  | |- post _ (_, Returns _) => apply loader_post_pair
  | |- post _ (_, Raises _) => apply loader_post_pair
  | |- post _ (write_blocks ?cb ?dev ?data ?bs ?total ?ix ?seq) =>
      let E := fresh "Eloop" in
      let H := fresh "Hloop" in
      let C := fresh "Hcalls" in
      pose proof (write_blocks_returns cb dev data bs total ix seq) as H;
      pose proof (fun m => write_blocks_calls cb dev data bs total ix seq m)
        as C;
      destruct (write_blocks cb dev data bs total ix seq) as [? [[] | ?]] eqn:E;
      [ specialize (H tt eq_refl); simpl in H; subst; clear C
      | clear H; simpl in C ];
      apply loader_post_pair
  | |- post _ (_, ?o) => apply loader_post_pair; destruct o eqn:?
  end.

(** The trace of a run that succeeds. *)
Lemma module_success_trace (e : env) (cb : bool) (port fw : string)
    (baud fa : Z) (erase verify : bool) :
  post (fun t o =>
          forall r, o = Returns r -> success r = true ->
          exists f dev data total indices,
            detect_chip e = Some f
            /\ f port baud = Returns dev
            /\ read_binary e fw = Returns data
            /\ PyMore.floordiv
                 (Z.of_nat (List.length data) + FLASH_WRITE_SIZE dev - 1)
                 (FLASH_WRITE_SIZE dev) = Returns total
            /\ PyMore.range 0 (Z.of_nat (List.length data))
                 (FLASH_WRITE_SIZE dev) = Returns indices
            /\ r = mkFlashResult true "Firmware flashed successfully" 0
                     (Some (CHIP_NAME dev)) None
            /\ t = (fst (report cb 10 "Detecting chip type...")
                    ++ [Call "detect_chip"]
                    ++ fst (report cb 20 ("Connected to " ++ CHIP_NAME dev))
                    ++ (if erase
                        then fst (report cb 10 "Erasing flash...")
                             ++ [Call "erase_flash"]
                             ++ fst (report cb 20 "Flash erased")
                        else [])
                    ++ fst (report cb 30 "Writing firmware...")
                    ++ [Begin (Z.of_nat (List.length data)) fa]
                    ++ block_events cb data (FLASH_WRITE_SIZE dev) total
                         indices 0
                    ++ [Call "flash_finish"]
                    ++ fst (report cb 95 "Firmware written successfully")
                    ++ (if verify then fst (report cb 98 "Verifying...") else [])
                    ++ fst (report cb 100 "Flash completed successfully!"))%list)
    (_flash_with_esptool_module e cb port fw baud fa erase verify).
Proof.
  unfold _flash_with_esptool_module, detect.
  unfold report, emit, lift, ret.
  repeat loader_step.
  all: intros r Hr Hs; inversion Hr; subst; try discriminate Hs.
  all: do 5 eexists; repeat (split; [eassumption || reflexivity | ]).
  all: rewrite ?app_nil_r; repeat rewrite <- app_assoc; reflexivity.
Qed.

Lemma blocks_app (t1 t2 : list mevent) :
  blocks (t1 ++ t2) = (blocks t1 ++ blocks t2)%list.
Proof.
  induction t1 as [ | ev t1 IH]; [reflexivity | ].
  destruct ev; simpl; rewrite IH; reflexivity.
Qed.

Lemma loader_percents_app (t1 t2 : list mevent) :
  percents (t1 ++ t2) = (percents t1 ++ percents t2)%list.
Proof.
  induction t1 as [ | ev t1 IH]; [reflexivity | ].
  destruct ev; simpl; rewrite IH; reflexivity.
Qed.

Lemma blocks_report (cb : bool) (p : Z) (msg : string) :
  blocks (fst (report cb p msg)) = [].
Proof. destruct cb; reflexivity. Qed.

Lemma combine_shift {A : Type} (l : list A) :
  forall s n,
    combine (List.seq (S s) n) l
    = map (fun ki => (S (fst ki), snd ki)) (combine (List.seq s n) l).
Proof.
  induction l as [ | a l IH]; intros s n.
  - rewrite !combine_nil. reflexivity.
  - destruct n as [ | n]; [reflexivity | ].
    cbn [List.seq combine map fst snd]. rewrite IH. reflexivity.
Qed.

Lemma blocks_block_events (cb : bool) (data : list Byte.byte) (bs total : Z)
    (indices : list Z) :
  forall seq,
    blocks (block_events cb data bs total indices seq)
    = map (fun ki => (padded_block data (snd ki) bs, seq + Z.of_nat (fst ki)))
        (combine (List.seq 0 (List.length indices)) indices).
Proof.
  induction indices as [ | i rest IH]; intros seq; [reflexivity | ].
  cbn [block_events blocks List.length List.seq combine map fst snd].
  rewrite blocks_app.
  replace (blocks (if cb then _ else [])) with (@nil (list Byte.byte * Z))
    by (destruct cb; reflexivity).
  cbn [app blocks]. rewrite IH. f_equal; [f_equal; simpl; lia | ].
  rewrite combine_shift, map_map. apply map_ext.
  intros [k i']. cbn [fst snd]. f_equal. lia.
Qed.

Lemma percents_block_events (data : list Byte.byte) (bs total : Z)
    (indices : list Z) :
  forall seq,
    percents (block_events true data bs total indices seq)
    = map (fun k => (seq + Z.of_nat k) * 100 / total)
        (List.seq 1 (List.length indices)).
Proof.
  induction indices as [ | i rest IH]; intros seq; [reflexivity | ].
  cbn [block_events percents app List.length List.seq map].
  rewrite IH, <- (seq_shift (List.length rest) 1), map_map.
  f_equal. apply map_ext. intros k. f_equal. f_equal. lia.
Qed.

(** The block count and the start indices for a block size above 0. *)
Lemma blocks_total_and_indices (len bs : Z) :
  0 <= len -> 0 < bs ->
  PyMore.floordiv (len + bs - 1) bs = Returns ((len + bs - 1) / bs)
  /\ PyMore.range 0 len bs
     = Returns (map (fun k => 0 + Z.of_nat k * bs)
                  (List.seq 0 (Z.to_nat ((len + bs - 1) / bs)))).
Proof.
  intros Hlen Hbs. unfold PyMore.floordiv, PyMore.range.
  replace (bs =? 0) with false by (symmetry; apply Z.eqb_neq; lia).
  replace (0 <? bs) with true by (symmetry; apply Z.ltb_lt; exact Hbs).
  split; [reflexivity | ]. do 3 f_equal.
  destruct (0 <? len) eqn:E.
  - apply Z.ltb_lt in E.
    replace (len + bs - 1) with (len - 1 + 1 * bs) by lia.
    rewrite Z.div_add by lia. rewrite Z.sub_0_r. reflexivity.
  - apply Z.ltb_ge in E. assert (len = 0) by lia. subst.
    rewrite Z.div_small by lia. reflexivity.
Qed.

(** The block at the [j]-th position, in natural numbers. *)
Lemma padded_block_nat (data : list Byte.byte) (j B : nat) :
  (0 < B)%nat ->
  padded_block data (0 + Z.of_nat j * Z.of_nat B) (Z.of_nat B)
  = (firstn B (skipn (j * B) data)
     ++ repeat Byte.xff (B - List.length (firstn B (skipn (j * B) data))))%list.
Proof.
  intros HB. unfold padded_block, PyMore.slice, PyMore.times.
  set (n := List.length data).
  replace (0 + Z.of_nat j * Z.of_nat B <? 0) with false
    by (symmetry; apply Z.ltb_ge; lia).
  replace (0 + Z.of_nat j * Z.of_nat B + Z.of_nat B <? 0) with false
    by (symmetry; apply Z.ltb_ge; lia).
  assert (Hchunk :
    firstn
      (Z.to_nat (Z.min (0 + Z.of_nat j * Z.of_nat B + Z.of_nat B) (Z.of_nat n)
                 - Z.min (0 + Z.of_nat j * Z.of_nat B) (Z.of_nat n)))
      (skipn (Z.to_nat (Z.min (0 + Z.of_nat j * Z.of_nat B) (Z.of_nat n))) data)
    = firstn B (skipn (j * B) data)).
  { destruct (Nat.le_gt_cases n (j * B)) as [Hge | Hlt].
    - rewrite !skipn_all2 by (subst n; lia). rewrite !firstn_nil. reflexivity.
    - replace (Z.to_nat (Z.min (0 + Z.of_nat j * Z.of_nat B) (Z.of_nat n)))
        with (j * B)%nat by lia.
      destruct (Nat.le_gt_cases (j * B + B) n) as [Hfull | Hpart].
      + f_equal. lia.
      + rewrite !firstn_all2; [reflexivity | | ];
          rewrite length_skipn; subst n; lia. }
  rewrite Hchunk.
  destruct (Z.of_nat (List.length (firstn B (skipn (j * B) data))) <? Z.of_nat B)
    eqn:E.
  - f_equal. f_equal. lia.
  - apply Z.ltb_ge in E.
    replace (B - List.length (firstn B (skipn (j * B) data)))%nat with 0%nat
      by lia.
    simpl. rewrite app_nil_r. reflexivity.
Qed.

Lemma padded_block_length (data : list Byte.byte) (j B : nat) :
  (0 < B)%nat ->
  List.length (padded_block data (0 + Z.of_nat j * Z.of_nat B) (Z.of_nat B)) = B.
Proof.
  intros HB. rewrite padded_block_nat by exact HB.
  rewrite length_app, repeat_length.
  pose proof (firstn_le_length B (skipn (j * B) data)). lia.
Qed.

(** Cutting the padding off gives the data back. *)
Lemma chunks_round_trip (data : list Byte.byte) (B : nat) :
  (0 < B)%nat ->
  forall m j,
    (List.length data <= (j + m) * B)%nat ->
    firstn (List.length data - j * B)
      (List.concat (map (fun k => padded_block data (0 + Z.of_nat k * Z.of_nat B)
                                (Z.of_nat B))
                 (List.seq j m)))
    = skipn (j * B) data.
Proof.
  intros HB. induction m as [ | m IH]; intros j Hlen.
  - simpl. rewrite firstn_nil, skipn_all2 by lia. reflexivity.
  - cbn [List.seq map List.concat]. rewrite padded_block_nat by exact HB.
    destruct (Nat.le_gt_cases (j * B + B) (List.length data)) as [Hfull | Hpart].
    + assert (Hc : List.length (firstn B (skipn (j * B) data)) = B)
        by (rewrite length_firstn, length_skipn; lia).
      rewrite Hc, Nat.sub_diag. cbn [repeat]. rewrite app_nil_r.
      rewrite firstn_app, Hc.
      rewrite (firstn_all2 (n := List.length data - j * B)) by lia.
      replace (List.length data - j * B - B)%nat
        with (List.length data - S j * B)%nat by lia.
      rewrite (IH (S j)) by lia.
      replace (S j * B)%nat with (B + j * B)%nat by lia.
      rewrite <- skipn_skipn. apply firstn_skipn.
    + destruct (Nat.le_gt_cases (List.length data) (j * B)) as [Hge | Hlt].
      * replace (List.length data - j * B)%nat with 0%nat by lia.
        rewrite skipn_all2 by lia. reflexivity.
      * assert (Hc : firstn B (skipn (j * B) data) = skipn (j * B) data)
          by (apply firstn_all2; rewrite length_skipn; lia).
        rewrite Hc, <- app_assoc, firstn_app.
        rewrite length_skipn, Nat.sub_diag. cbn [firstn].
        rewrite app_nil_r. apply firstn_all2. rewrite length_skipn. lia.
Qed.

(** The bytes of all blocks in a row: the data, then the padding. *)
Lemma chunks_concat (data : list Byte.byte) (B : nat) :
  (0 < B)%nat ->
  forall m j,
    (List.length data <= (j + m) * B)%nat ->
    List.concat (map (fun k => padded_block data (0 + Z.of_nat k * Z.of_nat B)
                                 (Z.of_nat B))
                   (List.seq j m))
    = (skipn (j * B) data
       ++ repeat Byte.xff ((j + m) * B - Nat.max (List.length data) (j * B)))%list.
Proof.
  intros HB. induction m as [ | m IH]; intros j Hlen.
  - simpl. rewrite skipn_all2 by lia.
    replace ((j + 0) * B - Nat.max (List.length data) (j * B))%nat with 0%nat
      by lia.
    reflexivity.
  - cbn [List.seq map List.concat]. rewrite padded_block_nat by exact HB.
    rewrite (IH (S j)) by lia.
    destruct (Nat.le_gt_cases (j * B + B) (List.length data)) as [Hfull | Hpart].
    + assert (Hc : List.length (firstn B (skipn (j * B) data)) = B)
        by (rewrite length_firstn, length_skipn; lia).
      rewrite Hc, Nat.sub_diag. cbn [repeat]. rewrite app_nil_r, app_assoc.
      replace (S j * B)%nat with (B + j * B)%nat by lia.
      rewrite <- skipn_skipn, firstn_skipn. f_equal. f_equal. lia.
    + assert (Hc : firstn B (skipn (j * B) data) = skipn (j * B) data)
        by (apply firstn_all2; rewrite length_skipn; lia).
      rewrite Hc, length_skipn, (skipn_all2 (n := S j * B)) by lia.
      cbn [app]. rewrite <- app_assoc, <- repeat_app. f_equal. f_equal. lia.
Qed.

Lemma combine_map_self {A B : Type} (g : A -> B) (l : list A) :
  combine l (map g l) = map (fun k => (k, g k)) l.
Proof. induction l as [ | a l IH]; simpl; [ | rewrite IH]; reflexivity. Qed.

(** The number of blocks is enough for the data. *)
Lemma blocks_total_covers (len bs : Z) :
  0 <= len -> 0 < bs -> len <= (len + bs - 1) / bs * bs.
Proof.
  intros Hlen Hbs.
  pose proof (Z.div_mod (len + bs - 1) bs ltac:(lia)) as E.
  pose proof (Z.mod_pos_bound (len + bs - 1) bs Hbs) as R.
  nia.
Qed.

Lemma blocks_total_tight (len bs : Z) :
  0 <= len -> 0 < bs -> (len + bs - 1) / bs * bs < len + bs.
Proof.
  intros Hlen Hbs.
  pose proof (Z.div_mod (len + bs - 1) bs ltac:(lia)) as E.
  pose proof (Z.mod_pos_bound (len + bs - 1) bs Hbs) as R.
  nia.
Qed.

(** The trace of a run that succeeds on a device with a block size
    above 0, with the block count and the start indices written out. *)
Lemma module_success_run (e : env) (cb : bool) (port fw : string)
    (baud fa : Z) (erase verify : bool) (r : FlashResult)
    (f : string -> Z -> outcome esp) (dev : esp) (data : list Byte.byte) :
  detect_chip e = Some f ->
  f port baud = Returns dev ->
  read_binary e fw = Returns data ->
  0 < FLASH_WRITE_SIZE dev ->
  snd (_flash_with_esptool_module e cb port fw baud fa erase verify)
  = Returns r ->
  success r = true ->
  let len := Z.of_nat (List.length data) in
  let bs := FLASH_WRITE_SIZE dev in
  let total := (len + bs - 1) / bs in
  fst (_flash_with_esptool_module e cb port fw baud fa erase verify)
  = (fst (report cb 10 "Detecting chip type...")
     ++ [Call "detect_chip"]
     ++ fst (report cb 20 ("Connected to " ++ CHIP_NAME dev))
     ++ (if erase
         then fst (report cb 10 "Erasing flash...")
              ++ [Call "erase_flash"]
              ++ fst (report cb 20 "Flash erased")
         else [])
     ++ fst (report cb 30 "Writing firmware...")
     ++ [Begin len fa]
     ++ block_events cb data bs total
          (map (fun k => 0 + Z.of_nat k * bs) (List.seq 0 (Z.to_nat total))) 0
     ++ [Call "flash_finish"]
     ++ fst (report cb 95 "Firmware written successfully")
     ++ (if verify then fst (report cb 98 "Verifying...") else [])
     ++ fst (report cb 100 "Flash completed successfully!"))%list.
Proof.
  intros Hd Hf Hr Hbs Ho Hs len bs total.
  pose proof (module_success_trace e cb port fw baud fa erase verify) as H.
  unfold post in H.
  destruct (H r Ho Hs)
    as (f' & dev' & data' & total' & indices & Hd' & Hf' & Hr' & Ht & Hi & _ & Et).
  rewrite Hd in Hd'. inversion Hd'; subst f'.
  rewrite Hf in Hf'. inversion Hf'; subst dev'.
  rewrite Hr in Hr'. inversion Hr'; subst data'.
  destruct (blocks_total_and_indices len bs) as [Ht2 Hi2];
    [subst len; lia | exact Hbs | ].
  fold len bs in Ht, Hi. rewrite Ht2 in Ht. rewrite Hi2 in Hi.
  inversion Ht; subst total'. inversion Hi; subst indices.
  exact Et.
Qed.

(** The blocks of such a run. *)
Lemma module_success_blocks (e : env) (cb : bool) (port fw : string)
    (baud fa : Z) (erase verify : bool) (r : FlashResult)
    (f : string -> Z -> outcome esp) (dev : esp) (data : list Byte.byte) :
  detect_chip e = Some f ->
  f port baud = Returns dev ->
  read_binary e fw = Returns data ->
  0 < FLASH_WRITE_SIZE dev ->
  snd (_flash_with_esptool_module e cb port fw baud fa erase verify)
  = Returns r ->
  success r = true ->
  let len := Z.of_nat (List.length data) in
  let bs := FLASH_WRITE_SIZE dev in
  blocks (fst (_flash_with_esptool_module e cb port fw baud fa erase verify))
  = map (fun k => (padded_block data (0 + Z.of_nat k * bs) bs, Z.of_nat k))
      (List.seq 0 (Z.to_nat ((len + bs - 1) / bs))).
Proof.
  intros Hd Hf Hr Hbs Ho Hs len bs.
  rewrite (module_success_run e cb port fw baud fa erase verify r f dev data
             Hd Hf Hr Hbs Ho Hs).
  fold len bs.
  repeat rewrite blocks_app. rewrite !blocks_report.
  replace (blocks (if erase then _ else [])) with (@nil (list Byte.byte * Z))
    by (destruct erase; [ | reflexivity];
        repeat rewrite blocks_app; rewrite !blocks_report; reflexivity).
  replace (blocks (if verify then _ else [])) with (@nil (list Byte.byte * Z))
    by (destruct verify; [ | reflexivity]; rewrite blocks_report; reflexivity).
  cbn [blocks app]. rewrite app_nil_r.
  rewrite blocks_block_events, length_map, length_seq, combine_map_self, map_map.
  apply map_ext. intros k. reflexivity.
Qed.

(** X14. When the esptool-module backend succeeds on a device whose
    block size is above 0, the blocks it handed to [flash_block] are
    numbered 0, 1, 2, ... in order, there are
    ceil(len / block size) of them, each has exactly the block size,
    and their bytes in a row are the firmware file followed by [0xff]
    bytes only. *)
Theorem module_blocks_carry_the_firmware (e : env) (cb : bool)
    (port fw : string) (baud fa : Z) (erase verify : bool) (r : FlashResult)
    (f : string -> Z -> outcome esp) (dev : esp) (data : list Byte.byte) :
  detect_chip e = Some f ->
  f port baud = Returns dev ->
  read_binary e fw = Returns data ->
  0 < FLASH_WRITE_SIZE dev ->
  snd (_flash_with_esptool_module e cb port fw baud fa erase verify)
  = Returns r ->
  success r = true ->
  let len := Z.of_nat (List.length data) in
  let bs := FLASH_WRITE_SIZE dev in
  let bl :=
    blocks (fst (_flash_with_esptool_module e cb port fw baud fa erase verify))
  in
  Z.of_nat (List.length bl) = (len + bs - 1) / bs
  /\ map snd bl = map Z.of_nat (List.seq 0 (List.length bl))
  /\ Forall (fun b => Z.of_nat (List.length b) = bs) (map fst bl)
  /\ List.concat (map fst bl)
     = (data
        ++ repeat Byte.xff
             (Z.to_nat (Z.of_nat (List.length bl) * bs - len)))%list
  /\ Z.of_nat (List.length bl) * bs - len < bs.
Proof.
  intros Hd Hf Hr Hbs Ho Hs len bs bl.
  subst bl.
  rewrite (module_success_blocks e cb port fw baud fa erase verify r f dev data
             Hd Hf Hr Hbs Ho Hs).
  fold len bs. fold bs in Hbs.
  assert (Elen : len = Z.of_nat (List.length data)) by reflexivity.
  clearbody len bs.
  assert (Hlen : 0 <= len) by lia.
  assert (Hq : 0 <= (len + bs - 1) / bs) by (apply Z.div_pos; lia).
  pose proof (blocks_total_covers len bs Hlen Hbs) as Hcover.
  pose proof (blocks_total_tight len bs Hlen Hbs) as Htight.
  remember (Z.to_nat ((len + bs - 1) / bs)) as n eqn:En.
  assert (Hn : Z.of_nat n = (len + bs - 1) / bs) by lia.
  rewrite <- Hn in Hcover, Htight. rewrite <- Hn. clear En Hn Hq.
  remember (Z.to_nat bs) as B eqn:EB.
  assert (HB : bs = Z.of_nat B) by lia. subst bs. clear EB.
  rewrite length_map, length_seq, !map_map. cbn [fst snd].
  split; [reflexivity | ]. split; [reflexivity | ].
  split; [ | split; [ | lia]].
  - apply Forall_forall. intros b Hb. apply in_map_iff in Hb.
    destruct Hb as (k & <- & _).
    rewrite padded_block_length by lia. reflexivity.
  - rewrite chunks_concat by nia.
    cbn [skipn Nat.mul]. f_equal. f_equal. nia.
Qed.

Lemma module_blocks_carry_the_firmware_witness :
  let bl :=
    blocks (fst (_flash_with_esptool_module lab true "COM3" "firmware.bin"
                   460800 4096 true true)) in
  Z.of_nat (List.length bl) = (6 + 4 - 1) / 4
  /\ map snd bl = map Z.of_nat (List.seq 0 (List.length bl))
  /\ Forall (fun b => Z.of_nat (List.length b) = 4) (map fst bl)
  /\ List.concat (map fst bl)
     = (six_bytes
        ++ repeat Byte.xff (Z.to_nat (Z.of_nat (List.length bl) * 4 - 6)))%list
  /\ Z.of_nat (List.length bl) * 4 - 6 < 4.
Proof.
  apply (module_blocks_carry_the_firmware lab true "COM3" "firmware.bin"
           460800 4096 true true
           (mkFlashResult true "Firmware flashed successfully" 0
              (Some "ESP32-S3") None)
           (fun _ _ => Returns quiet_device) quiet_device six_bytes);
    solve [reflexivity | simpl; lia].
Defined.

Lemma percents_report (cb : bool) (p : Z) (msg : string) :
  percents (fst (report cb p msg)) = if cb then [p] else [].
Proof. destruct cb; reflexivity. Qed.

(** X15. With a progress callback, a successful run of the
    esptool-module backend on a device whose block size is above 0
    reports 10, 20, (10, 20 again when the flash is erased,) 30, then
    k * 100 // n after the k-th of the n blocks, then 95, (98 when
    verifying,) and 100. For a firmware that is not empty the last
    block is reported at 100 and the next report is 95. *)
Theorem module_percent_sequence (e : env) (port fw : string) (baud fa : Z)
    (erase verify : bool) (r : FlashResult)
    (f : string -> Z -> outcome esp) (dev : esp) (data : list Byte.byte) :
  detect_chip e = Some f ->
  f port baud = Returns dev ->
  read_binary e fw = Returns data ->
  0 < FLASH_WRITE_SIZE dev ->
  snd (_flash_with_esptool_module e true port fw baud fa erase verify)
  = Returns r ->
  success r = true ->
  let len := Z.of_nat (List.length data) in
  let bs := FLASH_WRITE_SIZE dev in
  let n := (len + bs - 1) / bs in
  let ps :=
    percents
      (fst (_flash_with_esptool_module e true port fw baud fa erase verify)) in
  ps = ([10; 20] ++ (if erase then [10; 20] else []) ++ [30]
        ++ map (fun k => Z.of_nat k * 100 / n) (List.seq 1 (Z.to_nat n))
        ++ [95] ++ (if verify then [98] else []) ++ [100])%list
  /\ (data <> [] -> exists before after, ps = (before ++ [100; 95] ++ after)%list).
Proof.
  intros Hd Hf Hr Hbs Ho Hs len bs n ps.
  assert (E : ps
              = ([10; 20] ++ (if erase then [10; 20] else []) ++ [30]
                 ++ map (fun k => Z.of_nat k * 100 / n)
                      (List.seq 1 (Z.to_nat n))
                 ++ [95] ++ (if verify then [98] else []) ++ [100])%list).
  { subst ps.
    rewrite (module_success_run e true port fw baud fa erase verify r f dev
               data Hd Hf Hr Hbs Ho Hs).
    fold len bs. fold n.
    repeat rewrite loader_percents_app. rewrite !percents_report.
    rewrite percents_block_events, length_map, length_seq.
    replace (percents (if erase then _ else [])) with
      (if erase then [10; 20] else []) by (destruct erase; reflexivity).
    replace (percents (if verify then _ else [])) with
      (if verify then [98] else []) by (destruct verify; reflexivity).
    cbn [percents app]. reflexivity. }
  split; [exact E | ]. intros Hne. rewrite E. clear E.
  assert (Hlen : 0 < len)
    by (subst len; destruct data; [congruence | simpl; lia]).
  assert (Hn : 0 < n).
  { subst n. apply Z.div_str_pos. lia. }
  destruct (Z.to_nat n) as [ | m] eqn:Em; [lia | ].
  rewrite seq_S, map_app. cbn [map].
  replace (Z.of_nat (1 + m) * 100 / n) with 100
    by (replace (Z.of_nat (1 + m)) with n by lia;
        rewrite Z.mul_comm, Z.div_mul by lia; reflexivity).
  exists ([10; 20] ++ (if erase then [10; 20] else []) ++ [30]
          ++ map (fun k => Z.of_nat k * 100 / n) (List.seq 1 m))%list.
  exists ((if verify then [98] else []) ++ [100])%list.
  repeat rewrite <- app_assoc. reflexivity.
Qed.

Lemma module_percent_sequence_witness :
  let ps :=
    percents
      (fst (_flash_with_esptool_module lab true "COM3" "firmware.bin" 460800
              4096 true true)) in
  ps = ([10; 20] ++ [10; 20] ++ [30]
        ++ map (fun k => Z.of_nat k * 100 / ((6 + 4 - 1) / 4))
             (List.seq 1 (Z.to_nat ((6 + 4 - 1) / 4)))
        ++ [95] ++ [98] ++ [100])%list
  /\ (six_bytes <> [] ->
      exists before after, ps = (before ++ [100; 95] ++ after)%list).
Proof.
  apply (module_percent_sequence lab "COM3" "firmware.bin" 460800 4096 true
           true
           (mkFlashResult true "Firmware flashed successfully" 0
              (Some "ESP32-S3") None)
           (fun _ _ => Returns quiet_device) quiet_device six_bytes);
    solve [reflexivity | simpl; lia].
Defined.

(** The loop comes to its end when the device takes every block. *)
Lemma write_blocks_all_return (cb : bool) (dev : esp) (data : list Byte.byte)
    (bs total : Z) (indices : list Z) :
  (forall b s, flash_block dev b s = Returns tt) ->
  total <> 0 \/ indices = [] ->
  forall seq,
    snd (write_blocks cb dev data bs total indices seq) = Returns tt.
Proof.
  intros Hblock Htotal.
  induction indices as [ | i rest IH]; intros seq; [reflexivity | ].
  destruct Htotal as [Htotal | Hnil]; [ | discriminate Hnil].
  cbn [write_blocks]. unfold bind at 1, emit, lift, report, PyMore.floordiv.
  rewrite Hblock. cbn [bind].
  replace (total =? 0) with false by (symmetry; apply Z.eqb_neq; exact Htotal).
  specialize (IH (or_introl Htotal) (seq + 1)).
  destruct (write_blocks cb dev data bs total rest (seq + 1)) as [t o].
  simpl in *. subst o. reflexivity.
Qed.

(** X16. When the module is there, the chip is detected, the file can
    be read, the block size is above 0 and the device answers every
    call made on it ([erase_flash] when asked for, [flash_begin],
    [flash_block], [flash_finish]), the esptool-module backend
    returns the successful result that names the chip. *)
Theorem module_succeeds_when_device_answers (e : env) (cb : bool)
    (port fw : string) (baud fa : Z) (erase verify : bool)
    (f : string -> Z -> outcome esp) (dev : esp) (data : list Byte.byte) :
  detect_chip e = Some f ->
  f port baud = Returns dev ->
  (erase = true -> erase_flash dev = Returns tt) ->
  read_binary e fw = Returns data ->
  flash_begin dev (Z.of_nat (List.length data)) fa = Returns tt ->
  0 < FLASH_WRITE_SIZE dev ->
  (forall b s, flash_block dev b s = Returns tt) ->
  flash_finish dev = Returns tt ->
  snd (_flash_with_esptool_module e cb port fw baud fa erase verify)
  = Returns (mkFlashResult true "Firmware flashed successfully" 0
               (Some (CHIP_NAME dev)) None).
Proof.
  intros Hd Hf He Hr Hbegin Hbs Hblock Hfinish.
  destruct (blocks_total_and_indices (Z.of_nat (List.length data))
              (FLASH_WRITE_SIZE dev)) as [Ht Hi]; [lia | exact Hbs | ].
  assert (Hloop : forall seq,
            snd (write_blocks cb dev data (FLASH_WRITE_SIZE dev)
                   ((Z.of_nat (List.length data) + FLASH_WRITE_SIZE dev - 1)
                    / FLASH_WRITE_SIZE dev)
                   (map (fun k => 0 + Z.of_nat k * FLASH_WRITE_SIZE dev)
                      (List.seq 0
                         (Z.to_nat
                            ((Z.of_nat (List.length data)
                              + FLASH_WRITE_SIZE dev - 1)
                             / FLASH_WRITE_SIZE dev)))) seq) = Returns tt).
  { apply write_blocks_all_return; [exact Hblock | ].
    destruct data as [ | b data]; [right | left].
    { cbn [List.length Z.of_nat].
      rewrite (Z.div_small (0 + FLASH_WRITE_SIZE dev - 1)) by lia.
      reflexivity. }
    assert (0 < (Z.of_nat (List.length (b :: data)) + FLASH_WRITE_SIZE dev - 1)
                / FLASH_WRITE_SIZE dev)
      by (apply Z.div_str_pos; simpl List.length; lia).
    lia. }
  unfold _flash_with_esptool_module, detect.
  rewrite Hd. unfold report, emit, lift, ret.
  cbn [bind try_except]. rewrite Hf. cbn [bind try_except].
  destruct erase; [rewrite (He eq_refl) | ]; cbn [bind try_except].
  all: rewrite Hr; cbn [bind try_except].
  all: rewrite Hbegin; cbn [bind try_except].
  all: rewrite Ht; cbn [bind try_except].
  all: rewrite Hi; cbn [bind try_except].
  all: specialize (Hloop 0).
  all: destruct (write_blocks cb dev data _ _ _ 0) as [tl ol]; simpl in Hloop.
  all: subst ol; cbn [bind try_except].
  all: rewrite Hfinish; destruct cb, verify; reflexivity.
Qed.

Lemma module_succeeds_when_device_answers_witness :
  snd (_flash_with_esptool_module lab true "COM3" "firmware.bin" 460800 4096
         true true)
  = Returns (mkFlashResult true "Firmware flashed successfully" 0
               (Some (CHIP_NAME quiet_device)) None).
Proof.
  apply (module_succeeds_when_device_answers lab true "COM3" "firmware.bin"
           460800 4096 true true (fun _ _ => Returns quiet_device)
           quiet_device six_bytes);
    solve [reflexivity | simpl; lia].
Defined.

(** X17. The esptool-module backend never raises: it returns a result
    of duration 0 and no flash size, which is either the successful
    one with the name of a chip, or a failure without chip type whose
    message is "Esptool module error: " followed by the text of the
    error. *)
Theorem module_result_shape (e : env) (cb : bool) (port fw : string)
    (baud fa : Z) (erase verify : bool) :
  exists r,
    snd (_flash_with_esptool_module e cb port fw baud fa erase verify)
    = Returns r
    /\ duration r = 0
    /\ flash_size r = None
    /\ ((success r = true
         /\ message r = "Firmware flashed successfully"
         /\ exists name, chip_type r = Some name)
        \/ (success r = false
            /\ chip_type r = None
            /\ exists err, message r = "Esptool module error: " ++ err)).
Proof.
  assert (H : post (fun _ o =>
                      exists r, o = Returns r
                        /\ duration r = 0
                        /\ flash_size r = None
                        /\ ((success r = true
                             /\ message r = "Firmware flashed successfully"
                             /\ exists name, chip_type r = Some name)
                            \/ (success r = false
                                /\ chip_type r = None
                                /\ exists err,
                                     message r
                                     = "Esptool module error: " ++ err)))
                (_flash_with_esptool_module e cb port fw baud fa erase verify)).
  { unfold _flash_with_esptool_module, detect.
    unfold report, emit, lift, ret.
    repeat loader_step.
    all: eexists; split; [reflexivity | ];
      split; [reflexivity | ]; split; [reflexivity | ].
    all: first
      [ left; split; [reflexivity | ]; split; [reflexivity | ];
        eexists; reflexivity
      | right; split; [reflexivity | ]; split; [reflexivity | ];
        eexists; reflexivity ]. }
  exact H.
Qed.

(** X18. When the import of esptool failed (the module is [None]), the
    esptool-module backend reports 10 "Detecting chip type..." if a
    callback is set, calls nothing, and returns the failure
    "Esptool module error: 'NoneType' object has no attribute
    'detect_chip'". *)
Theorem module_backend_without_esptool (e : env) (cb : bool)
    (port fw : string) (baud fa : Z) (erase verify : bool) :
  detect_chip e = None ->
  _flash_with_esptool_module e cb port fw baud fa erase verify
  = (if cb then [Report 10 "Detecting chip type..."] else [],
     Returns
       (failed
          "Esptool module error: 'NoneType' object has no attribute 'detect_chip'")).
Proof.
  intros Hd. unfold _flash_with_esptool_module, detect. rewrite Hd.
  destruct cb; reflexivity.
Qed.

Lemma module_backend_without_esptool_witness :
  _flash_with_esptool_module (mkEnv None (fun _ => Returns six_bytes)) true
    "COM3" "firmware.bin" 460800 4096 false true
  = ([Report 10 "Detecting chip type..."],
     Returns
       (failed
          "Esptool module error: 'NoneType' object has no attribute 'detect_chip'")).
Proof.
  apply (module_backend_without_esptool
           (mkEnv None (fun _ => Returns six_bytes)) true "COM3"
           "firmware.bin" 460800 4096 false true).
  reflexivity.
Defined.

(** The trace of a run in which [flash_finish] is called. *)
Lemma module_finish_trace (e : env) (cb : bool) (port fw : string)
    (baud fa : Z) (erase verify : bool) :
  post (fun t _ =>
          In (Call "flash_finish") t ->
          exists f dev data total indices after,
            detect_chip e = Some f
            /\ f port baud = Returns dev
            /\ read_binary e fw = Returns data
            /\ PyMore.floordiv
                 (Z.of_nat (List.length data) + FLASH_WRITE_SIZE dev - 1)
                 (FLASH_WRITE_SIZE dev) = Returns total
            /\ PyMore.range 0 (Z.of_nat (List.length data))
                 (FLASH_WRITE_SIZE dev) = Returns indices
            /\ t = (fst (report cb 10 "Detecting chip type...")
                    ++ [Call "detect_chip"]
                    ++ fst (report cb 20 ("Connected to " ++ CHIP_NAME dev))
                    ++ (if erase
                        then fst (report cb 10 "Erasing flash...")
                             ++ [Call "erase_flash"]
                             ++ fst (report cb 20 "Flash erased")
                        else [])
                    ++ fst (report cb 30 "Writing firmware...")
                    ++ [Begin (Z.of_nat (List.length data)) fa]
                    ++ block_events cb data (FLASH_WRITE_SIZE dev) total
                         indices 0
                    ++ [Call "flash_finish"]
                    ++ after)%list
            /\ blocks after = [])
    (_flash_with_esptool_module e cb port fw baud fa erase verify).
Proof.
  unfold _flash_with_esptool_module, detect.
  unfold report, emit, lift, ret.
  repeat loader_step.
  all: intros Hin.
  all: first
    [ exfalso; repeat rewrite in_app_iff in Hin; simpl in Hin;
      destruct cb; simpl in Hin;
      repeat (destruct Hin as [Hin | Hin]); try discriminate Hin;
      solve [ contradiction | eapply Hcalls; exact Hin ]
    | destruct cb; do 6 eexists;
      do 5 (split; [eassumption || reflexivity | ]);
      (split;
       [ cbn [app fst];
         first [ reflexivity
               | rewrite (app_nil_r (_ ++ [Call "flash_finish"])); reflexivity ]
       | reflexivity ]) ].
Qed.

(** X19. [flash_finish] is called only when the whole firmware has been
    handed over: in every run of the esptool-module backend on a
    device whose block size is above 0 in which [flash_finish] is
    called, whatever the result, all ceil(len / block size) blocks of
    the firmware were handed to [flash_block] before that call, in
    order, and none after it. *)
Theorem finish_only_after_all_blocks (e : env) (cb : bool) (port fw : string)
    (baud fa : Z) (erase verify : bool)
    (f : string -> Z -> outcome esp) (dev : esp) (data : list Byte.byte) :
  detect_chip e = Some f ->
  f port baud = Returns dev ->
  read_binary e fw = Returns data ->
  0 < FLASH_WRITE_SIZE dev ->
  In (Call "flash_finish")
    (fst (_flash_with_esptool_module e cb port fw baud fa erase verify)) ->
  let len := Z.of_nat (List.length data) in
  let bs := FLASH_WRITE_SIZE dev in
  exists before after,
    fst (_flash_with_esptool_module e cb port fw baud fa erase verify)
    = (before ++ [Call "flash_finish"] ++ after)%list
    /\ blocks before
       = map (fun k => (padded_block data (0 + Z.of_nat k * bs) bs, Z.of_nat k))
           (List.seq 0 (Z.to_nat ((len + bs - 1) / bs)))
    /\ blocks after = [].
Proof.
  intros Hd Hf Hr Hbs Hin len bs.
  pose proof (module_finish_trace e cb port fw baud fa erase verify) as H.
  unfold post in H.
  destruct (H Hin)
    as (f' & dev' & data' & total' & indices & after
        & Hd' & Hf' & Hr' & Ht & Hi & Et & Hafter).
  rewrite Hd in Hd'. inversion Hd'; subst f'.
  rewrite Hf in Hf'. inversion Hf'; subst dev'.
  rewrite Hr in Hr'. inversion Hr'; subst data'.
  destruct (blocks_total_and_indices len bs) as [Ht2 Hi2];
    [subst len; lia | exact Hbs | ].
  fold len bs in Ht, Hi. rewrite Ht2 in Ht. rewrite Hi2 in Hi.
  inversion Ht; subst total'. inversion Hi; subst indices.
  rewrite Et. fold len bs.
  exists (fst (report cb 10 "Detecting chip type...")
          ++ [Call "detect_chip"]
          ++ fst (report cb 20 ("Connected to " ++ CHIP_NAME dev))
          ++ (if erase
              then fst (report cb 10 "Erasing flash...")
                   ++ [Call "erase_flash"]
                   ++ fst (report cb 20 "Flash erased")
              else [])
          ++ fst (report cb 30 "Writing firmware...")
          ++ [Begin len fa]
          ++ block_events cb data bs ((len + bs - 1) / bs)
               (map (fun k => 0 + Z.of_nat k * bs)
                  (List.seq 0 (Z.to_nat ((len + bs - 1) / bs)))) 0)%list.
  exists after.
  split; [repeat rewrite <- app_assoc; reflexivity | ].
  split; [ | exact Hafter].
  repeat rewrite blocks_app. rewrite !blocks_report.
  replace (blocks (if erase then _ else [])) with (@nil (list Byte.byte * Z))
    by (destruct erase; [ | reflexivity];
        repeat rewrite blocks_app; rewrite !blocks_report; reflexivity).
  cbn [blocks app].
  rewrite blocks_block_events, length_map, length_seq, combine_map_self, map_map.
  apply map_ext. intros k. reflexivity.
Qed.

Lemma finish_only_after_all_blocks_witness :
  exists before after,
    fst (_flash_with_esptool_module lab true "COM3" "firmware.bin" 460800
           4096 true true)
    = (before ++ [Call "flash_finish"] ++ after)%list
    /\ blocks before
       = map (fun k => (padded_block six_bytes (0 + Z.of_nat k * 4) 4,
                        Z.of_nat k))
           (List.seq 0 (Z.to_nat ((6 + 4 - 1) / 4)))
    /\ blocks after = [].
Proof.
  apply (finish_only_after_all_blocks lab true "COM3" "firmware.bin" 460800
           4096 true true (fun _ _ => Returns quiet_device) quiet_device
           six_bytes);
    try solve [reflexivity | simpl; lia].
  vm_compute. tauto.
Defined.
End LoaderFacts.

(** * [detect_chip_info] *)

Module ChipFacts.
Import Chip.
#[local] Open Scope chip_scope.

Lemma append_empty_r (u : string) : (u ++ "")%string = u.
Proof. induction u as [ | c u IH]; simpl; [ | rewrite IH]; reflexivity. Qed.

(** Splitting what [join] put together: pieces without the separator
    character come back. *)
Lemma split_join_go (a : ascii) (pieces : list string) :
  Forall (fun p => avoids a p = true) pieces ->
  forall p cur,
    avoids a p = true ->
    Py.split_go (String a "") 0 cur
      (String.concat (String a "") (p :: pieces))
    = (cur ++ p)%string :: pieces.
Proof.
  induction 1 as [ | q pieces Hq Hall IH]; intros p cur Hp.
  - cbn [String.concat].
    rewrite <- (append_empty_r p) at 1.
    rewrite (split_go_pass a "" p "" Hp cur). reflexivity.
  - change (String.concat (String a "") (p :: q :: pieces))
      with (p ++ String a "" ++ String.concat (String a "") (q :: pieces))%string.
    rewrite (split_go_pass a "" p _ Hp cur).
    cbn [append Py.split_go].
    replace (prefix (String a "")
               (String a (String.concat (String a "") (q :: pieces))))
      with true
      by (symmetry;
          apply (prefix_append (String a "")
                   (String.concat (String a "") (q :: pieces)))).
    cbn [String.length Nat.sub].
    rewrite (IH q "" Hq). reflexivity.
Qed.

Lemma split_join (a : ascii) (p : string) (pieces : list string) :
  Forall (fun p => avoids a p = true) (p :: pieces) ->
  Py.split (String a "") (Py.join (String a "") (p :: pieces)) = p :: pieces.
Proof.
  intros H. inversion H as [ | ? ? Hp Hall]; subst.
  unfold Py.split, Py.join. apply (split_join_go a pieces Hall p "" Hp).
Qed.

Lemma byte_facts_all :
  forallb byte_facts (map Z.of_nat (List.seq 0 256)) = true.
Proof. vm_compute. reflexivity. Qed.

Lemma byte_facts_in (b : Z) : 0 <= b < 256 -> byte_facts b = true.
Proof.
  intros H. pose proof byte_facts_all as A.
  rewrite forallb_forall in A. apply A.
  apply in_map_iff. exists (Z.to_nat b). split; [lia | ].
  apply in_seq. lia.
Qed.

Lemma format_02x_byte (b : Z) :
  0 <= b < 256 ->
  String.length (format_02x b) = 2%nat
  /\ avoids ":" (format_02x b) = true
  /\ Py.int16 (format_02x b) = Some b.
Proof.
  intros H. pose proof (byte_facts_in b H) as F. unfold byte_facts in F.
  apply andb_prop in F. destruct F as [F F3].
  apply andb_prop in F. destruct F as [F1 F2].
  apply Nat.eqb_eq in F1.
  destruct (Py.int16 (format_02x b)) as [n | ]; [ | discriminate].
  apply Z.eqb_eq in F3. subst. auto.
Qed.

Lemma length_append (u v : string) :
  String.length (u ++ v) = (String.length u + String.length v)%nat.
Proof. induction u as [ | c u IH]; simpl; [ | rewrite IH]; reflexivity. Qed.

Lemma length_joined_bytes (mac : list Z) :
  Forall (fun b => 0 <= b < 256) mac ->
  mac <> [] ->
  (String.length (Py.join ":" (map format_02x mac)) + 1
   = 3 * List.length mac)%nat.
Proof.
  unfold Py.join. induction 1 as [ | b mac Hb Hall IH]; intros Hne;
    [congruence | ].
  destruct (format_02x_byte b Hb) as (L & _ & _).
  destruct mac as [ | b' mac].
  - cbn [map String.concat List.length]. lia.
  - change (String.concat ":" (map format_02x (b :: b' :: mac)))
      with (format_02x b ++ ":" ++ String.concat ":" (map format_02x (b' :: mac)))%string.
    rewrite !length_append. specialize (IH ltac:(discriminate)).
    cbn [List.length String.length] in *. lia.
Qed.

(** X20. An error of [detect_chip_info] is either "esptool not
    available. Install with: pip install esptool", when the import of
    esptool failed, or "Failed to detect chip: " followed by the text
    of the error of [detect_chip] or of a method the device object
    has: [get_chip_revision], [read_mac] or [get_crystal_freq]. *)
Theorem detect_chip_info_errors (esptool : module) (port : string)
    (baud_rate : Z) (msg : string) :
  detect_chip_info esptool port baud_rate = Raises msg ->
  (esptool = None
   /\ msg = "esptool not available. Install with: pip install esptool")
  \/ exists detect_chip err,
       esptool = Some detect_chip
       /\ msg = "Failed to detect chip: " ++ err
       /\ (detect_chip port baud_rate = Raises err
           \/ exists dev,
                detect_chip port baud_rate = Returns dev
                /\ (get_chip_revision dev = Some (Raises err)
                    \/ read_mac dev = Some (Raises err)
                    \/ get_crystal_freq dev = Some (Raises err))).
Proof.
  unfold detect_chip_info. destruct esptool as [detect_chip | ].
  - intros H. right. exists detect_chip.
    destruct (detect_chip port baud_rate) as [dev | e0] eqn:Ed; cbn [bind] in H.
    + unfold call_or_unknown in H.
      destruct (get_chip_revision dev) as [[rev | e1] | ] eqn:E1;
        cbn [bind] in H;
        [ | inversion H; eexists; split; [reflexivity | ];
            split; [reflexivity | ]; right; exists dev; auto | ].
      all: destruct (read_mac dev) as [[mac | e2] | ] eqn:E2; cbn [bind] in H;
        try (inversion H; eexists; split; [reflexivity | ];
             split; [reflexivity | ]; right; exists dev; now auto).
      all: destruct (get_crystal_freq dev) as [[freq | e3] | ] eqn:E3;
        cbn [bind] in H;
        try discriminate H;
        inversion H; eexists; split; [reflexivity | ];
          split; [reflexivity | ]; right; exists dev; auto.
    + inversion H. exists e0. auto.
  - intros H. inversion H. left. auto.
Qed.

Lemma detect_chip_info_errors_witness :
  (Some (fun (_ : string) (_ : Z) => Returns mute_chip) = None
   /\ "Failed to detect chip: Failed to read MAC"
      = "esptool not available. Install with: pip install esptool")
  \/ exists detect_chip err,
       Some (fun (_ : string) (_ : Z) => Returns mute_chip) = Some detect_chip
       /\ "Failed to detect chip: Failed to read MAC"
          = "Failed to detect chip: " ++ err
       /\ (detect_chip "COM3" 115200 = Raises err
           \/ exists dev,
                detect_chip "COM3" 115200 = Returns dev
                /\ (get_chip_revision dev = Some (Raises err)
                    \/ read_mac dev = Some (Raises err)
                    \/ get_crystal_freq dev = Some (Raises err))).
Proof.
  apply (detect_chip_info_errors (Some (fun _ _ => Returns mute_chip)) "COM3"
           115200 "Failed to detect chip: Failed to read MAC").
  reflexivity.
Defined.

(** X21. When [detect_chip_info] returns for a device whose
    [read_mac] gives at least one byte, all from 0 to 255, the
    [mac_address] it reports has three characters per byte less one,
    and splitting it at ":" and reading each piece in base 16, as
    Python's [int(piece, 16)] does, gives the bytes back. *)
Theorem mac_address_round_trip (esptool : module) (port : string)
    (baud_rate : Z) (info : chip_info)
    (detect_chip : string -> Z -> outcome esp) (dev : esp) (mac : list Z) :
  detect_chip_info esptool port baud_rate = Returns info ->
  esptool = Some detect_chip ->
  detect_chip port baud_rate = Returns dev ->
  read_mac dev = Some (Returns mac) ->
  mac <> [] ->
  Forall (fun b => 0 <= b < 256) mac ->
  map Py.int16 (Py.split ":" (mac_address info)) = map Some mac
  /\ (String.length (mac_address info) + 1 = 3 * List.length mac)%nat.
Proof.
  intros H He Hd Hm Hne Hall. subst esptool.
  unfold detect_chip_info in H. rewrite Hd in H. cbn [bind] in H.
  destruct (call_or_unknown (get_chip_revision dev)) as [rev | e1];
    cbn [bind] in H; [ | discriminate H].
  rewrite Hm in H. cbn [bind] in H.
  destruct (call_or_unknown (get_crystal_freq dev)) as [freq | e3];
    cbn [bind] in H; [ | discriminate H].
  inversion H; subst info. cbn [mac_address].
  split; [ | apply length_joined_bytes; assumption].
  destruct mac as [ | b mac]; [congruence | ].
  cbn [map]. rewrite (split_join ":" (format_02x b) (map format_02x mac)).
  - rewrite <- (map_cons format_02x b mac), map_map.
    change (Some b :: map Some mac) with (map (@Some Z) (b :: mac)).
    apply map_ext_in. intros x Hx.
    rewrite Forall_forall in Hall.
    apply (format_02x_byte x (Hall x Hx)).
  - rewrite <- (map_cons format_02x b mac). apply Forall_forall.
    intros p Hp. apply in_map_iff in Hp. destruct Hp as (x & <- & Hx).
    rewrite Forall_forall in Hall.
    apply (format_02x_byte x (Hall x Hx)).
Qed.

Lemma mac_address_round_trip_witness :
  map Py.int16
    (Py.split ":"
       (mac_address
          (mkInfo "ESP32-S3" (Int 0) (Str "8MB") "24:0a:c4:00:01:ff" (Int 40))))
  = map Some [36; 10; 196; 0; 1; 255]
  /\ (String.length
        (mac_address
           (mkInfo "ESP32-S3" (Int 0) (Str "8MB") "24:0a:c4:00:01:ff" (Int 40)))
      + 1 = 3 * List.length [36; 10; 196; 0; 1; 255])%nat.
Proof.
  apply (mac_address_round_trip (Some (fun _ _ => Returns full_chip)) "COM3"
           115200
           (mkInfo "ESP32-S3" (Int 0) (Str "8MB") "24:0a:c4:00:01:ff" (Int 40))
           (fun _ _ => Returns full_chip) full_chip [36; 10; 196; 0; 1; 255]);
    try reflexivity.
  - discriminate.
  - repeat constructor; lia.
Defined.

End ChipFacts.

(** * The progress bar of the command line *)

Module CliFacts.
Import Cli.

Lemma shown_plain (p : Z) (msg : string) :
  Py.contains "Connecting" msg = false -> shown p msg.
Proof.
  intros H. left. split; [exact H | ]. unfold display_message.
  rewrite H. reflexivity.
Qed.

Lemma shown_at_0 (msg : string) : shown 0 msg.
Proof.
  destruct (Py.contains "Connecting" msg) eqn:E; [ | apply shown_plain, E].
  right. split; [exact E | ]. left. split; [reflexivity | ].
  unfold display_message. rewrite E. vm_compute. reflexivity.
Qed.

Lemma shown_at_35 (msg : string) : shown 35 msg.
Proof.
  destruct (Py.contains "Connecting" msg) eqn:E; [ | apply shown_plain, E].
  right. split; [exact E | ]. right. left. split; [left; reflexivity | ].
  unfold display_message. rewrite E. vm_compute. reflexivity.
Qed.

Lemma shown_at_38 (msg : string) : shown 38 msg.
Proof.
  destruct (Py.contains "Connecting" msg) eqn:E; [ | apply shown_plain, E].
  right. split; [exact E | ]. right. left. split; [right; reflexivity | ].
  unfold display_message. rewrite E. vm_compute. reflexivity.
Qed.

Lemma shown_at_65 (msg : string) : shown 65 msg.
Proof.
  destruct (Py.contains "Connecting" msg) eqn:E; [ | apply shown_plain, E].
  right. split; [exact E | ]. right. right. split; [reflexivity | ].
  unfold display_message. rewrite E. vm_compute. reflexivity.
Qed.

(** A string without the first character of the needle does not
    contain the needle. *)
Lemma avoids_contains (a : ascii) (needle s : string) :
  avoids a s = true -> Py.contains (String a needle) s = false.
Proof.
  induction s as [ | c s IH]; intros H; [reflexivity | ].
  cbn [avoids] in H. apply andb_prop in H. destruct H as [Hc Hs].
  cbn [Py.contains]. rewrite (IH Hs), orb_false_r.
  apply prefix_other_char. destruct (Ascii.eqb a c); [discriminate | reflexivity].
Qed.

Lemma uint_avoids_C (d : Decimal.uint) :
  avoids "C" (NilEmpty.string_of_uint d) = true.
Proof. induction d; simpl; auto. Qed.

Lemma str_avoids_C (n : Z) : avoids "C" (Py.str n) = true.
Proof.
  unfold Py.str, NilZero.string_of_int, NilZero.string_of_uint.
  destruct (Z.to_int n) as [d | d]; destruct d; simpl; auto using uint_avoids_C.
Qed.

Lemma shown_writing (p q : Z) : shown p (writing_msg q).
Proof.
  apply shown_plain, avoids_contains. unfold writing_msg.
  rewrite !avoids_append, str_avoids_C. reflexivity.
Qed.

Lemma shown_board (p : Z) (out : string) :
  shown p ("Detected chip: " ++ board_of out).
Proof.
  unfold board_of.
  repeat match goal with
         | |- context [if ?b then _ else _] => destruct b
         end; apply shown_plain; reflexivity.
Qed.

Ltac bar_report :=
  cbn [bar_event];
  lazymatch goal with
  | |- shown 0 _ => apply shown_at_0
  | |- shown 35 _ => apply shown_at_35
  | |- shown 38 _ => apply shown_at_38
  | |- shown 65 _ => apply shown_at_65
  | |- shown _ (writing_msg _) => apply shown_writing
  | |- shown _ ("Detected chip: " ++ board_of _) => apply shown_board
  | |- shown _ _ => apply shown_plain; reflexivity
  end.

Ltac bar_step :=
  match goal with
  | |- all_events _ (bind _ _) => apply all_bind; [ | intros ]
  | |- all_events _ (try_except _ _) => apply all_try_except; [ | intros ]
  | |- all_events _ (report _ _ _) => apply all_report; bar_report
  | |- all_events _ (run _ _) => apply all_run; exact I
  | |- all_events _ (popen _ _) => apply all_popen; exact I
  | |- all_events _ (tell _) => apply all_tell; exact I
  | |- all_events _ (ret _) => apply all_ret
  | |- all_events _ (lift _) => apply all_lift
  | |- all_events _ (if ?b then _ else _) => destruct b
  | |- all_events _ (match ?x with Some _ => _ | None => _ end) => destruct x
  | |- Forall _ (callback _ _ _) => apply all_callback; bar_report
  | |- Forall _ [] => constructor
  end.

Lemma step_bar (cb : bool) (p : Z) : Forall bar_event (snd (step cb p)).
Proof. unfold step; simpl. bar_step. Qed.

Lemma esptool_try_bar (cb : bool) (fa fs p : Z) (line : string) r :
  esptool_try cb fa fs p line = Some r -> Forall bar_event (snd r).
Proof.
  unfold esptool_try. intros H.
  destruct (parse_addr line) as [a | ]; [ | discriminate].
  destruct (fs >? 0).
  - destruct (Py.percent_of (a - fa) fs); inversion H; subst; simpl; bar_step.
  - destruct (a >? fa).
    + destruct (Py.percent_of (a - fa) 65536); inversion H; subst; simpl;
        bar_step.
    + inversion H; subst; simpl; bar_step.
Qed.

Lemma esptool_line_bar (cb : bool) (fa fs p : Z) (line : string) :
  Forall bar_event (snd (esptool_line cb fa fs p line)).
Proof.
  unfold esptool_line.
  destruct (Py.contains writing_marker line).
  - destruct (esptool_try cb fa fs p line) as [r | ] eqn:E;
      [exact (esptool_try_bar _ _ _ _ _ _ E) | apply step_bar].
  - repeat match goal with
           | |- context [if ?b then _ else _] => destruct b
           end; simpl; bar_step.
Qed.

Lemma platformio_try_bar (cb : bool) (fs p : Z) (line : string) r :
  platformio_try cb fs p line = Some r -> Forall bar_event (snd r).
Proof.
  unfold platformio_try. intros H.
  destruct (parse_addr line) as [a | ]; [ | discriminate].
  destruct (fs >? 0).
  - destruct (Py.percent_of (a - 65536) fs); inversion H; subst; simpl;
      bar_step.
  - inversion H; subst. apply step_bar.
Qed.

Lemma platformio_line_bar (cb : bool) (fs p : Z) (line : string) :
  Forall bar_event (snd (platformio_line cb fs p line)).
Proof.
  unfold platformio_line.
  destruct (Py.contains writing_marker line).
  - destruct (platformio_try cb fs p line) as [r | ] eqn:E;
      [exact (platformio_try_bar _ _ _ _ _ E) | apply step_bar].
  - repeat match goal with
           | |- context [if ?b then _ else _] => destruct b
           end; simpl; bar_step.
Qed.

Lemma esptool_backend_bar w cb port fw baud fa erase verify :
  all_events bar_event
    (_flash_with_esptool_subprocess w cb port fw baud fa erase verify).
Proof.
  unfold _flash_with_esptool_subprocess, esptool_erase.
  repeat bar_step.
  apply all_read_all. intros; apply esptool_line_bar.
Qed.

Lemma platformio_backend_bar w cb port fw baud fa erase verify bl pt :
  all_events bar_event
    (_flash_with_platformio w cb port fw baud fa erase verify bl pt).
Proof.
  unfold _flash_with_platformio, pio_detect, pio_erase.
  repeat bar_step.
  apply all_read_all. intros; apply platformio_line_bar.
Qed.

(** X22. During a flash started from the command line, whichever
    backend runs, the progress callback of the command line never
    fails, and what the bar shows for a report is the message of the
    controller, unless that message has "Connecting" in it: then it
    is "Connecting" with no dot (at 0 percent), with three dots (at
    35, or at 38 for a "Detected: ..." message that quotes a line of
    the tool with that word in it) or with six dots (at 65). *)
Theorem bar_shows_fixed_connecting_dots (w : world) (port : string)
    (firmware_info : FirmwareInfo) (baud_rate : Z) (erase_all : bool) :
  Forall bar_event
    (trace (flash_firmware_with_progress w port firmware_info baud_rate
              erase_all)).
Proof.
  change (all_events bar_event
            (flash_firmware_with_progress w port firmware_info baud_rate
               erase_all)).
  unfold flash_firmware_with_progress, flash_firmware.
  repeat first
    [ apply platformio_backend_bar
    | apply esptool_backend_bar
    | bar_step ].
Qed.

End CliFacts.

